(** * QuestTodo: the habit core of [questtodo.py], embedded and verified

    The development follows the non-UI part of [src/questtodo.py]:
    the weekday mask helpers, the SQLite-backed store (activities and
    completions), the streak walk, the range statistics shown by the
    statistics tab, and the start-up integrity check.

    Conventions of the embedding.
    - Python [int] is [Z].  Python [str] is a list of code points.
    - A [datetime.date] is its proleptic Gregorian ordinal
      ([date.toordinal()]), so [d - timedelta(days=1)] is [d - 1].  The
      library's limits [date.min] and [date.max] are not modelled:
      arithmetic on ordinals never raises.  Where a theorem depends on
      the text of a date ([isoformat]), it assumes a date between the
      two limits.
    - A Python exception is a value [Raise e] of the type [result].
    - The database file is a record of two tables and the
      [sqlite_sequence] counter.  Every [db_*] function of the source
      opens a connection, runs its statements, commits and closes; here
      a reader is a function of the store and a writer returns the
      outcome together with the store it leaves behind.  A statement
      that fails leaves the store as it was (nothing is committed).
    - An integer handed to a statement must fit a SQLite INTEGER
      (signed 64-bit); [sqlite3] raises [OverflowError] otherwise.  The
      check is modelled in [db_rename_activity], [db_update_activity]
      and [db_set_done].  In [db_delete_activity], [db_set_sort_orders]
      and [db_get_done] it is not: there an id out of range is treated
      as an id that no row has.  The columns of the store are not
      bounded either, so the theorems about stored ids say where they
      need an id in range.
    - Python [float] is IEEE binary64, i.e. Rocq's primitive [float]. *)

From Stdlib Require Import ZArith NArith Lia Floats Uint63.
From stdpp Require Import base tactics option list strings gmap sorting.

Local Open Scope Z_scope.

(** ** Exceptions *)

Inductive exn : Type :=
| ValueError
| OverflowError
| ZeroDivisionError
| IntegrityError
| DatabaseError
| OSError.

Inductive result (A : Type) : Type :=
| Ok (a : A)
| Raise (e : exn).
Arguments Ok {A} a.
Arguments Raise {A} e.

Global Instance result_ret : MRet result := fun _ a => Ok a.
Global Instance result_bind : MBind result := fun _ _ k r =>
  match r with
  | Ok a => k a
  | Raise e => Raise e
  end.

(** ** Python strings *)

Definition pystr : Type := list N.

(** A literal: the ASCII characters of [s] as code points. *)
Fixpoint py (s : string) : pystr :=
  match s with
  | EmptyString => []
  | String c s' => Ascii.N_of_ascii c :: py s'
  end.
Arguments py s%_string.

(** [str.isspace] on one code point (CPython's [_PyUnicode_IsWhitespace]). *)
Definition is_space (c : N) : bool :=
  ((9 <=? c) && (c <=? 13) || (28 <=? c) && (c <=? 32) || (c =? 133)
   || (c =? 160) || (c =? 5760) || (8192 <=? c) && (c <=? 8202)
   || (c =? 8232) || (c =? 8233) || (c =? 8239) || (c =? 8287)
   || (c =? 12288))%N.

Fixpoint lstrip (s : pystr) : pystr :=
  match s with
  | c :: s' => if is_space c then lstrip s' else s
  | [] => []
  end.

Definition rstrip (s : pystr) : pystr := reverse (lstrip (reverse s)).

(** [s.strip()] *)
Definition strip (s : pystr) : pystr := rstrip (lstrip s).

(** [(name or "")]: [None] and the empty string both give [""]. *)
Definition or_empty (name : option pystr) : pystr := default [] name.

(** Truth value of a string: [not name] holds for the empty one only. *)
Definition str_truthy (s : pystr) : bool :=
  match s with [] => false | _ => true end.

(** Order of SQLite's BINARY collation on TEXT: byte-wise on the UTF-8
    encoding, which is the lexicographic order of the code points. *)
Fixpoint str_compare (a b : pystr) : comparison :=
  match a, b with
  | [], [] => Eq
  | [], _ :: _ => Lt
  | _ :: _, [] => Gt
  | x :: a', y :: b' =>
      match N.compare x y with
      | Eq => str_compare a' b'
      | c => c
      end
  end.

Definition str_leb (a b : pystr) : bool :=
  match str_compare a b with Gt => false | _ => true end.

(** SQLite's NOCASE collation folds the 26 ASCII upper-case letters. *)
Definition nocase_fold (c : N) : N :=
  (if (65 <=? c) && (c <=? 90) then c + 32 else c)%N.

Definition nocase_compare (a b : pystr) : comparison :=
  str_compare (nocase_fold <$> a) (nocase_fold <$> b).

(** Decimal digits of a non-negative integer, zero-padded on the left to
    [width] characters, as [%0<width>d] prints them. *)
Fixpoint digits_aux (fuel : nat) (n : Z) (acc : pystr) : pystr :=
  match fuel with
  | O => acc
  | S fuel' =>
      let acc' := Z.to_N (48 + n mod 10) :: acc in
      if n <? 10 then acc' else digits_aux fuel' (n / 10) acc'
  end.

Definition str_of_int (n : Z) : pystr :=
  digits_aux (S (Z.to_nat (Z.log2 n))) n [].

Definition zpad (width : nat) (n : Z) : pystr :=
  let ds := str_of_int n in
  replicate (width - length ds) 48%N ++ ds.

(** ** helpers *)

(** *** Dates *)

Definition date : Type := Z.

(** [date.min] and [date.max] as ordinals: 0001-01-01 and 9999-12-31. *)
Definition date_min : date := 1.
Definition date_max : date := 3652059.

(** [d.weekday()]: Monday is 0; ordinal 1 (0001-01-01) is a Monday. *)
Definition weekday (d : date) : Z := (d + 6) mod 7.

Definition DI400Y : Z := 146097.
Definition DI100Y : Z := 36524.
Definition DI4Y : Z := 1461.

Definition DAYS_IN_MONTH : list Z :=
  [-1; 31; 28; 31; 30; 31; 30; 31; 31; 30; 31; 30; 31].

Definition DAYS_BEFORE_MONTH : list Z :=
  [-1; 0; 31; 59; 90; 120; 151; 181; 212; 243; 273; 304; 334].

Definition bool_int (b : bool) : Z := if b then 1 else 0.

(** [datetime._ord2ymd]: ordinal to (year, month, day). *)
Definition ord2ymd (n0 : Z) : Z * Z * Z :=
  let n := n0 - 1 in
  let n400 := n / DI400Y in
  let n := n mod DI400Y in
  let year := n400 * 400 + 1 in
  let n100 := n / DI100Y in
  let n := n mod DI100Y in
  let n4 := n / DI4Y in
  let n := n mod DI4Y in
  let n1 := n / 365 in
  let n := n mod 365 in
  let year := year + (n100 * 100 + n4 * 4 + n1) in
  if (n1 =? 4) || (n100 =? 4) then (year - 1, 12, 31)
  else
    let leapyear := (n1 =? 3) && (negb (n4 =? 24) || (n100 =? 3)) in
    let month := Z.shiftr (n + 50) 5 in
    let preceding :=
      DAYS_BEFORE_MONTH !!! Z.to_nat month
      + bool_int ((2 <? month) && leapyear) in
    if n <? preceding then
      let month := month - 1 in
      let preceding :=
        preceding
        - (DAYS_IN_MONTH !!! Z.to_nat month
           + bool_int ((month =? 2) && leapyear)) in
      (year, month, n - preceding + 1)
    else (year, month, n - preceding + 1).

(** [d.isoformat()]: ["%04d-%02d-%02d"]. *)
Definition isoformat (d : date) : pystr :=
  let '(y, m, dd) := ord2ymd d in
  zpad 4 y ++ [45%N] ++ zpad 2 m ++ [45%N] ++ zpad 2 dd.

Definition monday (d : date) : date := d - weekday d.

(** [daterange(d1, d2)]: the days [d1], [d1 + 1], ..., [d2], in order. *)
Definition daterange (d1 d2 : date) : list date :=
  (fun i : nat => d1 + Z.of_nat i) <$> seq 0 (Z.to_nat (d2 - d1 + 1)).

(** *** Weekday masks

    The shift count is a weekday index: every call site passes a value
    of [weekday] or an index of [enumerate(DAYS)], hence 0..6 (Python
    raises [ValueError] on a negative count). *)

Definition mask_has_day (mask day_idx_0_mon : Z) : bool :=
  Z.land (Z.shiftr mask day_idx_0_mon) 1 =? 1.

Definition set_mask_day (mask day_idx_0_mon : Z) (value : bool) : Z :=
  let bit := Z.shiftl 1 day_idx_0_mon in
  if value then Z.lor mask bit else Z.land mask (Z.lnot bit).

Definition full_week_mask : Z := Z.shiftl 1 7 - 1.

(** ** DB

    The two tables of [db_init].  [id] is [INTEGER PRIMARY KEY
    AUTOINCREMENT]; [name] is [TEXT UNIQUE NOT NULL] with no COLLATE
    clause, so uniqueness is judged by the BINARY collation; the
    completions have the primary key [(activity_id, day)] and a foreign
    key to [activities(id)] with [ON DELETE CASCADE], enforced because
    [db_connect] turns [foreign_keys] on. *)

Record activity : Type := Activity {
  a_id : Z;
  a_name : pystr;
  a_mandatory : Z;
  a_days_mask : Z;
  a_sort_order : Z
}.

Record completion : Type := Completion {
  c_activity_id : Z;
  c_day : pystr;
  c_done : Z
}.

Record db : Type := Db {
  activities : list activity;
  completions : list completion;
  (** the row of [sqlite_sequence] for [activities]: the largest id ever
      handed out *)
  sqlite_sequence : Z
}.

Definition empty_db : db := Db [] [] 0.

(** [MAX(column)] over rows; [None] is SQL's NULL (no rows). *)
Definition sql_max (l : list Z) : option Z :=
  match l with
  | [] => None
  | x :: l' => Some (foldl Z.max x l')
  end.

(** [CHECK(x IN (0,1))] *)
Definition check_in_0_1 (x : Z) : bool := (x =? 0) || (x =? 1).

(** A Python int bound to a parameter of a statement becomes a SQLite
    INTEGER, a signed 64-bit value.  Outside that range [sqlite3] raises
    [OverflowError] ("Python int too large to convert to SQLite
    INTEGER") before the statement is run. *)
Definition fits_int64 (x : Z) : bool := (- 2 ^ 63 <=? x) && (x <? 2 ^ 63).

Definition activity_exists (aid : Z) (s : db) : bool :=
  existsb (fun a => a_id a =? aid) (activities s).

Definition name_taken (name : pystr) (rows : list activity) : bool :=
  existsb (fun a => bool_decide (a_name a = name)) rows.

(** [INSERT INTO activities(name, mandatory, days_mask, sort_order)
    VALUES (?, ?, ?, ?)] *)
Definition sql_insert_activity
    (name : pystr) (mandatory days_mask sort_order : Z) (s : db) : result db :=
  if name_taken name (activities s) then Raise IntegrityError
  else if negb (check_in_0_1 mandatory) then Raise IntegrityError
  else
    let rowid :=
      Z.max (sqlite_sequence s) (default 0 (sql_max (a_id <$> activities s)))
      + 1 in
    Ok (Db (activities s
              ++ [Activity rowid name mandatory days_mask sort_order])
           (completions s) rowid).

(** ORDER BY sort_order ASC, name COLLATE NOCASE.  The statement does not
    fix the order of rows that tie under both keys, and no theorem
    depends on the order in which the list below gives them. *)
Definition activity_leb (a b : activity) : bool :=
  (a_sort_order a <? a_sort_order b)
  || (a_sort_order a =? a_sort_order b)
     && match nocase_compare (a_name a) (a_name b) with
        | Gt => false
        | _ => true
        end.

Definition activity_le (a b : activity) : Prop := Is_true (activity_leb a b).

Definition db_list_activities (s : db) : list (Z * pystr * Z * Z) :=
  (fun a => (a_id a, a_name a, a_mandatory a, a_days_mask a))
    <$> merge_sort activity_le (activities s).

Definition db_count_activities (s : db) : Z :=
  Z.of_nat (length (activities s)).

Definition db_any_mandatory_exists (s : db) : bool :=
  existsb (fun a => a_mandatory a =? 1) (activities s).

Definition db_add_activity (name : option pystr) (s : db)
    : result (bool * pystr) * db :=
  let name := strip (or_empty name) in
  if negb (str_truthy name) then (Ok (false, py "empty"), s)
  else
    let max_order := default 0 (sql_max (a_sort_order <$> activities s)) in
    match sql_insert_activity name 0 full_week_mask (max_order + 1) s with
    | Ok s' => (Ok (true, py ""), s')
    | Raise IntegrityError => (Ok (false, py "exists"), s)
    | Raise e => (Raise e, s)
    end.

(** [UPDATE activities SET name=? WHERE id=?]: the statement fails when
    a row it changes would take the name of another row. *)
Definition sql_update_name (new_name : pystr) (aid : Z) (s : db) : result db :=
  if activity_exists aid s
     && existsb (fun b => negb (a_id b =? aid)
                          && bool_decide (a_name b = new_name))
                (activities s)
  then Raise IntegrityError
  else
    Ok (Db ((fun a => if a_id a =? aid
                      then Activity (a_id a) new_name (a_mandatory a)
                                    (a_days_mask a) (a_sort_order a)
                      else a) <$> activities s)
           (completions s) (sqlite_sequence s)).

Definition db_rename_activity (activity_id : Z) (new_name : option pystr)
    (s : db) : result (bool * pystr) * db :=
  let new_name := strip (or_empty new_name) in
  if negb (str_truthy new_name) then (Ok (false, py "empty"), s)
  else if negb (fits_int64 activity_id) then (Raise OverflowError, s)
  else
    match sql_update_name new_name activity_id s with
    | Ok s' => (Ok (true, py ""), s')
    | Raise IntegrityError => (Ok (false, py "exists"), s)
    | Raise e => (Raise e, s)
    end.

(** [UPDATE activities SET sort_order=? WHERE id=?] *)
Definition sql_update_sort_order (i aid : Z) (s : db) : db :=
  Db ((fun a => if a_id a =? aid
                then Activity (a_id a) (a_name a) (a_mandatory a)
                              (a_days_mask a) i
                else a) <$> activities s)
     (completions s) (sqlite_sequence s).

Definition db_set_sort_orders (ordered_ids : list Z) (s : db) : db :=
  foldl (fun s '(i, aid) => sql_update_sort_order (Z.of_nat i) aid s) s
        (zip (seq 1 (length ordered_ids)) ordered_ids).

(** [DELETE FROM activities WHERE id=?], with the cascade: the
    completions of every deleted row go with it. *)
Definition db_delete_activity (activity_id : Z) (s : db) : db :=
  let deleted := a_id <$> filter (fun a => a_id a = activity_id) (activities s) in
  Db (filter (fun a => a_id a <> activity_id) (activities s))
     (filter (fun c => c_activity_id c ∉ deleted) (completions s))
     (sqlite_sequence s).

Definition db_clear_all (s : db) : db := Db [] [] (sqlite_sequence s).

(** [vals] holds the values given, then the id; the one UPDATE statement
    binds them all. *)
Definition db_update_activity (activity_id : Z) (mandatory days_mask : option Z)
    (s : db) : result () * db :=
  match mandatory, days_mask with
  | None, None => (Ok (), s)
  | _, _ =>
      let vals :=
        option_list mandatory ++ option_list days_mask ++ [activity_id] in
      if negb (forallb fits_int64 vals) then (Raise OverflowError, s)
      else if activity_exists activity_id s
              && negb (check_in_0_1 (default 0 mandatory))
      then (Raise IntegrityError, s)
      else
        (Ok (),
         Db ((fun a => if a_id a =? activity_id
                       then Activity (a_id a) (a_name a)
                              (default (a_mandatory a) mandatory)
                              (default (a_days_mask a) days_mask)
                              (a_sort_order a)
                       else a) <$> activities s)
            (completions s) (sqlite_sequence s))
  end.

Definition completion_at (aid : Z) (day : pystr) (c : completion) : bool :=
  (c_activity_id c =? aid) && bool_decide (c_day c = day).

Definition db_get_done (activity_id : Z) (day_iso : pystr) (s : db) : Z :=
  match List.find (completion_at activity_id day_iso) (completions s) with
  | Some c => c_done c
  | None => 0
  end.

(** [INSERT INTO completions ... ON CONFLICT(activity_id, day) DO UPDATE
    SET done=excluded.done] *)
Definition db_set_done (activity_id : Z) (day_iso : pystr) (done : Z) (s : db)
    : result () * db :=
  if negb (fits_int64 activity_id && fits_int64 done)
  then (Raise OverflowError, s)
  else if negb (check_in_0_1 done) then (Raise IntegrityError, s)
  else if negb (activity_exists activity_id s) then (Raise IntegrityError, s)
  else if existsb (completion_at activity_id day_iso) (completions s) then
    (Ok (),
     Db (activities s)
        ((fun c => if completion_at activity_id day_iso c
                   then Completion activity_id day_iso done else c)
           <$> completions s)
        (sqlite_sequence s))
  else
    (Ok (),
     Db (activities s)
        (completions s ++ [Completion activity_id day_iso done])
        (sqlite_sequence s)).

(** A dict built from key/value pairs: a later pair replaces an earlier
    one with the same key. *)
Definition py_dict `{Countable K} {V} (l : list (K * V)) : gmap K V :=
  foldl (fun m kv => <[kv.1 := kv.2]> m) ∅ l.

Definition db_bulk_done_map (start_iso end_iso : pystr) (s : db)
    : gmap (Z * pystr) Z :=
  let rows :=
    filter (fun c => Is_true (str_leb start_iso (c_day c)
                              && str_leb (c_day c) end_iso))
           (completions s) in
  py_dict ((fun c => ((c_activity_id c, c_day c), c_done c)) <$> rows).

(** ** streak *)

Definition day_is_success_for_streak (s : db) (day_ : date) : bool :=
  let activities := db_list_activities s in
  let day_idx := weekday day_ in
  let required :=
    omap (fun '(a_id, _, mandatory, days_mask) =>
            if (mandatory =? 1) && mask_has_day days_mask day_idx
            then Some a_id else None)
         activities in
  match required with
  | [] => true
  | _ =>
      let iso := isoformat day_ in
      forallb (fun a_id => db_get_done a_id iso s =? 1) required
  end.

(** The local variables of the loop of [calc_streak_upto]. *)
Record walk : Type := Walk {
  streak : Z;
  d : date;
  current_week : date;
  misses : Z
}.

(** One pass through the body of [while True]: [inl] is the state at the
    end of the pass, [inr] the value returned after a [break]. *)
Definition walk_body (s : db) (allowed_misses_per_week : Z) (v : walk)
    : walk + Z :=
  let w := monday (d v) in
  let '(current_week, misses) :=
    if bool_decide (w <> current_week v) then (w, 0)
    else (current_week v, misses v) in
  let continue (streak misses : Z) : walk + Z :=
    let d := d v - 1 in
    if 3650 <? streak then inr streak
    else inl (Walk streak d current_week misses) in
  if day_is_success_for_streak s (d v) then continue (streak v + 1) misses
  else
    let misses := misses + 1 in
    if allowed_misses_per_week <? misses then inr (streak v)
    else continue (streak v + 1) misses.

(** The loop, run for at most [fuel] passes; [None] when it has not
    stopped by then. *)
Fixpoint walk_loop (fuel : nat) (s : db) (allowed_misses_per_week : Z)
    (v : walk) : option Z :=
  match fuel with
  | O => None
  | S fuel' =>
      match walk_body s allowed_misses_per_week v with
      | inr r => Some r
      | inl v' => walk_loop fuel' s allowed_misses_per_week v'
      end
  end.

Definition calc_streak_upto (fuel : nat) (s : db) (today : date)
    (allowed_misses_per_week : Z) : option Z :=
  if negb (db_any_mandatory_exists s) then Some 0
  else walk_loop fuel s allowed_misses_per_week (Walk 0 today (monday today) 0).

(** ** Statistics (class [StatsTab]) *)

(** *** Python arithmetic used by the percentages *)

(** [float(n)] for a day count; exact below 2^53. *)
Definition float_of_int (n : Z) : float :=
  if n <? 0 then PrimFloat.opp (PrimFloat.of_uint63 (Uint63.of_Z (- n)))
  else PrimFloat.of_uint63 (Uint63.of_Z n).

(** [a / b] on two ints: true division.  For operands below 2^53 it is
    the IEEE quotient of the converted operands. *)
Definition py_truediv (a b : Z) : result float :=
  if b =? 0 then Raise ZeroDivisionError
  else Ok (PrimFloat.div (float_of_int a) (float_of_int b)).

(** The integer nearest to [n / m], a tie going to the even neighbour
    ([0 <= n], [0 < m]). *)
Definition round_half_even_div (n m : Z) : Z :=
  let q := n / m in
  match (2 * (n mod m)) ?= m with
  | Lt => q
  | Gt => q + 1
  | Eq => if Z.even q then q else q + 1
  end.

(** [round(x)] of a float: the nearest integer, ties to even, computed
    on the exact value of [x]. *)
Definition py_round (x : float) : result Z :=
  match Prim2SF x with
  | S754_zero _ => Ok 0
  | S754_infinity _ => Raise OverflowError
  | S754_nan => Raise ValueError
  | S754_finite sg m e =>
      let mag :=
        if 0 <=? e then Z.pos m * 2 ^ e
        else round_half_even_div (Z.pos m) (2 ^ (- e)) in
      Ok (if sg then - mag else mag)
  end.

(** [int(round((done / planned) * 100)) if planned else 0] *)
Definition percent (done planned : Z) : result Z :=
  if negb (planned =? 0) then
    q ← py_truediv done planned;
    py_round (PrimFloat.mul q (float_of_int 100))
  else Ok 0.

(** [any(l)] on ints *)
Definition py_any (l : list Z) : bool := existsb (fun x => negb (x =? 0)) l.

(** [max(l)] *)
Definition py_max (l : list Z) : result Z :=
  match l with
  | [] => Raise ValueError
  | x :: l' => Ok (foldl Z.max x l')
  end.

(** [l.index(x)]: the first position holding [x]. *)
Fixpoint py_index (x : Z) (l : list Z) : result Z :=
  match l with
  | [] => Raise ValueError
  | y :: l' => if y =? x then Ok 0 else i ← py_index x l'; Ok (i + 1)
  end.

(** *** [_calc_range_stats] *)

Definition day_loop (done_map : gmap (Z * pystr) Z) (a_id days_mask : Z)
    (acc : Z * Z * list Z) (d : date) : Z * Z * list Z :=
  let '(planned, done, day_done) := acc in
  let idx := weekday d in
  if mask_has_day days_mask idx then
    let planned := planned + 1 in
    if default 0 (done_map !! (a_id, isoformat d)) =? 1 then
      (planned, done + 1,
       <[Z.to_nat idx := day_done !!! Z.to_nat idx + 1]> day_done)
    else (planned, done, day_done)
  else (planned, done, day_done).

Definition activity_loop (done_map : gmap (Z * pystr) Z) (start_d end_d : date)
    (acc : list (pystr * Z * Z) * list Z) (row : Z * pystr * Z * Z)
    : list (pystr * Z * Z) * list Z :=
  let '(per_act, day_done) := acc in
  let '(a_id, name, mandatory, days_mask) := row in
  let '(planned, done, day_done) :=
    foldl (day_loop done_map a_id days_mask) (0, 0, day_done)
          (daterange start_d end_d) in
  (per_act ++ [(name, planned, done)], day_done).

Definition _calc_range_stats (s : db) (start_d end_d : date)
    : list (pystr * Z * Z) * list Z :=
  let activities := db_list_activities s in
  let done_map := db_bulk_done_map (isoformat start_d) (isoformat end_d) s in
  foldl (activity_loop done_map start_d end_d) ([], replicate 7 0) activities.

(** *** [load_data]

    What the method computes for the label of the strongest day and for
    the per-activity table, over the trailing windows of 7 and 30 days
    that end today. *)

Record stats_row : Type := StatsRow {
  r_name : pystr;
  r_p7 : Z; r_d7 : Z; r_pct7 : Z;
  r_p30 : Z; r_d30 : Z; r_pct30 : Z
}.

(** Lines 1243-1248: [Some (idx, mx)] when a strongest day is shown,
    [None] when the label shows a dash. *)
Definition strongest_day (day_done30 : list Z) : result (option (Z * Z)) :=
  if py_any day_done30 then
    mx ← py_max day_done30;
    idx ← py_index mx day_done30;
    Ok (Some (idx, mx))
  else Ok None.

Definition load_data_strong_day (s : db) (today : date)
    : result (option (Z * Z)) :=
  let start30 := today - 29 in
  let '(_, day_done30) := _calc_range_stats s start30 today in
  strongest_day day_done30.

(** Lines 1256-1259: one row of the table. *)
Definition stats_table_row (m7 m30 : gmap pystr (Z * Z)) (n : pystr)
    : result stats_row :=
  let '(p7, d7) := default (0, 0) (m7 !! n) in
  let '(p30, d30) := default (0, 0) (m30 !! n) in
  pct7 ← percent d7 p7;
  pct30 ← percent d30 p30;
  Ok (StatsRow n p7 d7 pct7 p30 d30 pct30).

Definition stats_dict (acts : list (pystr * Z * Z)) : gmap pystr (Z * Z) :=
  py_dict ((fun '(n, p, d) => (n, (p, d))) <$> acts).

(** Lines 1236-1267: the rows of the table.  [lower] stands for
    [str.lower], the sort key of the names. *)
Definition load_data_table_acts (lower : pystr -> pystr) (s : db)
    (today : date) : result (list stats_row) :=
  let start7 := today - 6 in
  let start30 := today - 29 in
  let '(acts7, _) := _calc_range_stats s start7 today in
  let '(acts30, day_done30) := _calc_range_stats s start30 today in
  let m7 := stats_dict acts7 in
  let m30 := stats_dict acts30 in
  let names :=
    merge_sort (fun a b => Is_true (str_leb (lower a) (lower b)))
               (elements (dom m30 ∪ dom m7)) in
  mapM (stats_table_row m7 m30) names.

(** ** Start-up: [ensure_db_ok_or_rebuild] and [db_init]

    The files of the data directory are a finite map from paths to
    contents.  What the operating system and SQLite answer is given by
    an environment: the verdict of [PRAGMA integrity_check] on a file,
    whether [os.rename] and [os.remove] succeed, and the clock. *)

Inductive file : Type :=
| SqliteFile (s : db)
| OtherFile (bytes : list N).

(** [row] of [fetchone()], or an exception anywhere in the [try] block *)
Inductive check_outcome : Type :=
| CheckRow (row : option pystr)
| CheckRaises.

Record datetime : Type := Datetime {
  dt_year : Z; dt_month : Z; dt_day : Z;
  dt_hour : Z; dt_minute : Z; dt_second : Z
}.

Record environment : Type := Environment {
  integrity_check : file -> check_outcome;
  now : datetime;
  rename_succeeds : bool;
  remove_succeeds : bool
}.

(** [strftime("%Y%m%d_%H%M%S")] *)
Definition strftime_stamp (t : datetime) : pystr :=
  zpad 4 (dt_year t) ++ zpad 2 (dt_month t) ++ zpad 2 (dt_day t)
  ++ py "_" ++ zpad 2 (dt_hour t) ++ zpad 2 (dt_minute t)
  ++ zpad 2 (dt_second t).

(** [os.path.join(a, b)] for a relative [b] (POSIX separator) *)
Definition os_path_join (a b : pystr) : pystr :=
  match last a with
  | None => b
  | Some c => if (c =? 47)%N then a ++ b else a ++ py "/" ++ b
  end.

Definition DB_PATH (DATA_DIR : pystr) : pystr :=
  os_path_join DATA_DIR (py "questodo.db").

Definition os_rename (env : environment) (src dst : pystr)
    (fs : gmap pystr file) : result (gmap pystr file) :=
  match fs !! src with
  | Some f =>
      if rename_succeeds env then Ok (<[dst := f]> (delete src fs))
      else Raise OSError
  | None => Raise OSError
  end.

Definition os_remove (env : environment) (path : pystr)
    (fs : gmap pystr file) : result (gmap pystr file) :=
  match fs !! path with
  | Some _ =>
      if remove_succeeds env then Ok (delete path fs) else Raise OSError
  | None => Raise OSError
  end.

Definition bad_path (DATA_DIR : pystr) (env : environment) : pystr :=
  os_path_join DATA_DIR
    (py "questodo_CORRUPTED_" ++ strftime_stamp (now env) ++ py ".db").

(** [row and row[0] == "ok"] *)
Definition check_passed (c : check_outcome) : bool :=
  match c with
  | CheckRow (Some r) => bool_decide (r = py "ok")
  | _ => false
  end.

Definition ensure_db_ok_or_rebuild (DATA_DIR : pystr) (env : environment)
    (fs : gmap pystr file) : gmap pystr file :=
  match fs !! DB_PATH DATA_DIR with
  | None => fs
  | Some f =>
      if check_passed (integrity_check env f) then fs
      else
        match os_rename env (DB_PATH DATA_DIR) (bad_path DATA_DIR env) fs with
        | Ok fs' => fs'
        | Raise _ =>
            match os_remove env (DB_PATH DATA_DIR) fs with
            | Ok fs' => fs'
            | Raise _ => fs
            end
        end
  end.

(** [db_init]: connecting creates a missing file, and SQLite takes a
    file of length zero for a database without tables; the tables are
    created if they do not exist.  Any other file that is not a
    database makes the first statement that reads it raise. *)
Definition db_init (DATA_DIR : pystr) (fs : gmap pystr file)
    : result (gmap pystr file) :=
  match fs !! DB_PATH DATA_DIR with
  | None => Ok (<[DB_PATH DATA_DIR := SqliteFile empty_db]> fs)
  | Some (SqliteFile _) => Ok fs
  | Some (OtherFile []) => Ok (<[DB_PATH DATA_DIR := SqliteFile empty_db]> fs)
  | Some (OtherFile (_ :: _)) => Raise DatabaseError
  end.

(** The first two statements of the main block. *)
Definition startup (DATA_DIR : pystr) (env : environment)
    (fs : gmap pystr file) : result (gmap pystr file) :=
  db_init DATA_DIR (ensure_db_ok_or_rebuild DATA_DIR env fs).

(** ** Notions of the specification *)

(** Two names are the same after trimming, letter case apart (the
    specification's reading of a duplicate). *)
Definition same_name_nocase (a b : pystr) : bool :=
  match nocase_compare (strip a) (strip b) with Eq => true | _ => false end.

(** Referential integrity of the store: every completion belongs to a
    stored activity.  SQLite maintains it while [foreign_keys] is on. *)
Definition fk_ok (s : db) : Prop :=
  forall c, c ∈ completions s -> activity_exists (c_activity_id c) s = true.

(** The unsuccessful days among [lo .. hi] that lie in the week that
    starts on the Monday [wk]. *)
Definition fails_in_week (s : db) (wk : date) (lo hi : date) : Z :=
  Z.of_nat (length (filter
    (fun y => monday y = wk /\ day_is_success_for_streak s y = false)
    (daterange lo hi))).

(** Day [x] of a walk that started on [today] is over budget: it is
    unsuccessful and, with it, the unsuccessful days of its week that
    the walk has met number more than the allowance. *)
Definition over_budget (s : db) (allowed : Z) (today x : date) : bool :=
  negb (day_is_success_for_streak s x)
  && (allowed <? fails_in_week s (monday x) x today).

(** The percentage of the specification: the integer nearest to
    [100 * done / planned] (a tie to the even one), and 0 when nothing
    was planned. *)
Definition spec_percent (done planned : Z) : Z :=
  if 0 <? planned then round_half_even_div (100 * done) planned else 0.

(** The planned days of a mask in a range: the days whose weekday the
    mask includes. *)
Definition planned_days (days_mask : Z) (start_d end_d : date) : Z :=
  Z.of_nat (length (filter
    (fun x => Is_true (mask_has_day days_mask (weekday x)))
    (daterange start_d end_d))).

(** The source's percentage and the specification's agree on one pair,
    and on every pair [done <= planned <= bound]. *)
Definition percent_agrees (done planned : Z) : bool :=
  match percent done planned with
  | Ok z => z =? spec_percent done planned
  | Raise _ => false
  end.

Definition percent_agrees_upto (bound : nat) : bool :=
  forallb (fun p : nat =>
             forallb (fun d : nat => percent_agrees (Z.of_nat d) (Z.of_nat p))
                     (seq 0 (S p)))
          (seq 0 (S bound)).

(** A row of the table is right for the two windows' statistics. *)
Definition row_ok (acts7 acts30 : list (pystr * Z * Z)) (r : stats_row)
    : Prop :=
  (r_name r, r_p7 r, r_d7 r) ∈ acts7
  /\ (r_name r, r_p30 r, r_d30 r) ∈ acts30
  /\ r_pct7 r = spec_percent (r_d7 r) (r_p7 r)
  /\ r_pct30 r = spec_percent (r_d30 r) (r_p30 r)
  /\ (r_p7 r = 0 -> r_d7 r = 0 /\ r_pct7 r = 0)
  /\ (r_p30 r = 0 -> r_d30 r = 0 /\ r_pct30 r = 0).

(** The state at the head of the loop when the next day to examine is
    [d v]: so far [today - d v] days were counted, the week on record is
    that of the day examined last, and [misses] counts the unsuccessful
    days met in that week. *)
Definition at_head (s : db) (today : date) (v : walk) : Prop :=
  d v <= today
  /\ streak v = today - d v
  /\ current_week v = monday (Z.min today (d v + 1))
  /\ misses v = fails_in_week s (current_week v) (d v + 1) today.

(** ** Stores and environments of the examples *)

(** One optional activity, planned every day. *)
Definition store_run : db := Db [Activity 1 (py "Run") 0 127 1] [] 1.

(** Two optional activities, each with a completion on 2024-03-01. *)
Definition store_optional : db :=
  Db [Activity 1 (py "Run") 0 127 1; Activity 2 (py "Read") 0 21 2]
     [Completion 1 (py "2024-03-01") 1; Completion 2 (py "2024-03-01") 1]
     2.

(** One mandatory activity that is planned on no day. *)
Definition store_idle : db := Db [Activity 1 (py "Rest") 1 0 1] [] 1.

(** One mandatory activity planned every day; within the week of Monday
    2024-02-26 it is done on Tuesday, Thursday and Friday and missed on
    Monday and Wednesday. *)
Definition store_two_misses : db :=
  Db [Activity 1 (py "Run") 1 127 1]
     [Completion 1 (py "2024-02-27") 1; Completion 1 (py "2024-02-29") 1;
      Completion 1 (py "2024-03-01") 1]
     1.

(** One optional activity planned every day, done on the first 23 of the
    40 days from 2024-01-22 to 2024-03-01. *)
Definition store_forty : db :=
  Db [Activity 1 (py "Run") 0 127 1]
     ((fun x => Completion 1 (isoformat x) 1) <$> daterange 738907 738929)
     1.

Definition env_rename_refused : environment :=
  Environment (fun _ => CheckRaises) (Datetime 2024 3 1 9 5 7) false true.

Definition env_rename_allowed : environment :=
  Environment (fun _ => CheckRaises) (Datetime 2024 3 1 9 5 7) true true.

Definition env_both_refused : environment :=
  Environment (fun _ => CheckRaises) (Datetime 2024 3 1 9 5 7) false false.

Definition fs_corrupt : gmap pystr file :=
  {[ DB_PATH (py "/data") := OtherFile [1; 2; 3]%N ]}.

Ltac week_arith :=
  unfold monday, weekday in *; Z.to_euclidean_division_equations; lia.

(** ** More of the user interface

    The parts of the dialogs and of the week tab that compute: the state
    of a check box is a boolean, a widget list is a list. *)

(** [TaskSettingsDialog.__init__], lines 556-561: one check box per
    weekday, checked when the mask plans that day. *)
Definition dialog_day_checks (days_mask : Z) : list bool :=
  (fun i : nat => mask_has_day days_mask (Z.of_nat i)) <$> seq 0 7.

(** [TaskSettingsDialog.set_full_week] *)
Definition set_full_week (day_checks : list bool) : list bool :=
  (fun _ => true) <$> day_checks.

(** [TaskSettingsDialog.result_values] *)
Definition result_values (cb_mand : bool) (day_checks : list bool) : Z * Z :=
  let mand := if cb_mand then 1 else 0 in
  let m :=
    foldl (fun m '(i, ch) => set_mask_day m (Z.of_nat i) ch) 0
          (zip (seq 0 (length day_checks)) day_checks) in
  (mand, m).

(** [WeekTab.open_settings] once the dialog is accepted: the dialog was
    opened on the activity's values and [cb_mand], [day_checks] is what
    the user left in it. *)
Definition open_settings_accepted (activity_id : Z) (cb_mand : bool)
    (day_checks : list bool) (s : db) : result () * db :=
  let '(mand, mask) := result_values cb_mand day_checks in
  db_update_activity activity_id (Some mand) (Some mask) s.

(** The loop of [WeekTab.bulk_set_day]: every call of [db_set_done]
    commits on its own, so an exception leaves the earlier ones in
    place. *)
Fixpoint bulk_set_day_loop (day_idx : Z) (day_iso : pystr) (value : bool)
    (rows : list (Z * pystr * Z * Z)) (s : db) : result () * db :=
  match rows with
  | [] => (Ok (), s)
  | (a_id, _, _, days_mask) :: rows' =>
      if mask_has_day days_mask day_idx then
        match db_set_done a_id day_iso (if value then 1 else 0) s with
        | (Ok _, s') => bulk_set_day_loop day_idx day_iso value rows' s'
        | (Raise e, s') => (Raise e, s')
        end
      else bulk_set_day_loop day_idx day_iso value rows' s
  end.

(** [WeekTab.bulk_set_day]; [selected_day_idx] is [None] or a column
    0..6 of the week that starts on [week_start]. *)
Definition bulk_set_day (selected_day_idx : option Z) (week_start : date)
    (value : bool) (s : db) : result () * db :=
  match selected_day_idx with
  | None => (Ok (), s)
  | Some idx =>
      let activities := db_list_activities s in
      let day := week_start + idx in
      let day_iso := isoformat day in
      bulk_set_day_loop idx day_iso value activities s
  end.

(** ** Invariants of the store *)

(** The constraints that SQLite enforces on the two tables: the primary
    key of [activities], the UNIQUE name, the primary key of
    [completions], the two CHECKs and the foreign key. *)
Record store_ok (s : db) : Prop := StoreOk {
  ids_unique : NoDup (a_id <$> activities s);
  names_unique : NoDup (a_name <$> activities s);
  keys_unique :
    NoDup ((fun c => (c_activity_id c, c_day c)) <$> completions s);
  mandatory_checked :
    forall a, a ∈ activities s -> check_in_0_1 (a_mandatory a) = true;
  done_checked :
    forall c, c ∈ completions s -> check_in_0_1 (c_done c) = true;
  foreign_key : fk_ok s
}.

(** The first day of a walk from [today] that is over its week's budget
    is [today - k]. *)
Definition first_over_budget (s : db) (allowed : Z) (today : date) (k : Z)
    : Prop :=
  0 <= k
  /\ over_budget s allowed today (today - k) = true
  /\ forall j, 0 <= j < k -> over_budget s allowed today (today - j) = false.

(** [TaskSettingsDialog.__init__], line 548:
    [setChecked(bool(int(mandatory)))]. *)
Definition dialog_cb_mand (mandatory : Z) : bool := negb (mandatory =? 0).

(** The values that a call of [db_update_activity] binds, the id and the
    fields given, fit a SQLite INTEGER. *)
Definition update_fits (aid : Z) (mandatory days_mask : option Z) : Prop :=
  fits_int64 aid = true
  /\ (forall m, mandatory = Some m -> fits_int64 m = true)
  /\ (forall k, days_mask = Some k -> fits_int64 k = true).

(** ** Auxiliary notions of the proofs *)

(** The row that [db_set_done] writes, and the rewriting of the rows
    with its key. *)
Definition put_row (aid : Z) (day : pystr) (done : Z) (c : completion)
    : completion :=
  if completion_at aid day c then Completion aid day done else c.

(** The row that [sql_update_name] writes. *)
Definition renamed (new_name : pystr) (aid : Z) (a : activity) : activity :=
  if a_id a =? aid
  then Activity (a_id a) new_name (a_mandatory a) (a_days_mask a)
                (a_sort_order a)
  else a.

(** The columns that [db_list_activities] selects. *)
Definition row_of (a : activity) : Z * pystr * Z * Z :=
  (a_id a, a_name a, a_mandatory a, a_days_mask a).

(** The row that [sql_update_sort_order] writes. *)
Definition with_order (i aid : Z) (a : activity) : activity :=
  if a_id a =? aid
  then Activity (a_id a) (a_name a) (a_mandatory a) (a_days_mask a) i
  else a.

(** The row that [db_update_activity] writes. *)
Definition updated (aid : Z) (mandatory days_mask : option Z) (a : activity)
    : activity :=
  if a_id a =? aid
  then Activity (a_id a) (a_name a) (default (a_mandatory a) mandatory)
                (default (a_days_mask a) days_mask) (a_sort_order a)
  else a.

(** [sum(l)] *)
Definition sum_list (l : list Z) : Z := foldr Z.add 0 l.

(** Some row of the listing has the id [aid] and plans the weekday [idx]. *)
Definition planned_row (idx aid : Z) (rows : list (Z * pystr * Z * Z)) : bool :=
  existsb (fun '(a, _, _, mask) => (a =? aid) && mask_has_day mask idx) rows.

(** ** Notions of the statistics *)

Global Instance completion_eq_dec : EqDecision completion.
Proof. solve_decision. Defined.

(** The number of days of a list that pass a test. *)
Definition count_if (P : date -> bool) (days : list date) : Z :=
  Z.of_nat (length (filter (fun x => Is_true (P x)) days)).

(** A day counts as done for an activity when its mask plans the weekday
    and the store holds the row (activity, day, 1). *)
Definition done_day (s : db) (a_id days_mask : Z) (x : date) : bool :=
  mask_has_day days_mask (weekday x)
  && bool_decide (Completion a_id (isoformat x) 1 ∈ completions s).

(** The done days of an activity in a range. *)
Definition done_days (s : db) (a_id days_mask : Z) (start_d end_d : date) : Z :=
  count_if (done_day s a_id days_mask) (daterange start_d end_d).

(** The done count of weekday [i] over a range: the done days of all
    activities that fall on that weekday. *)
Definition weekday_done (s : db) (start_d end_d : date) (i : Z) : Z :=
  sum_list ((fun a =>
               count_if (fun x => done_day s (a_id a) (a_days_mask a) x
                                  && (weekday x =? i))
                        (daterange start_d end_d))
            <$> activities s).

(** What a row of the table of [load_data] says about an activity: its
    planned and done days in the window of 7 and of 30 days that ends
    today, and the two percentages. *)
Definition row_shows (s : db) (today : date) (a : activity) (r : stats_row)
    : Prop :=
  r_name r = a_name a
  /\ r_p7 r = planned_days (a_days_mask a) (today - 6) today
  /\ r_d7 r = done_days s (a_id a) (a_days_mask a) (today - 6) today
  /\ r_p30 r = planned_days (a_days_mask a) (today - 29) today
  /\ r_d30 r = done_days s (a_id a) (a_days_mask a) (today - 29) today
  /\ r_pct7 r = spec_percent (r_d7 r) (r_p7 r)
  /\ r_pct30 r = spec_percent (r_d30 r) (r_p30 r)
  /\ (r_p7 r = 0 -> r_d7 r = 0 /\ r_pct7 r = 0)
  /\ (r_p30 r = 0 -> r_d30 r = 0 /\ r_pct30 r = 0).

(** The test that [_calc_range_stats] makes for a day, in the map. *)
Definition hit (done_map : gmap (Z * pystr) Z) (a_id days_mask : Z) (x : date)
    : bool :=
  mask_has_day days_mask (weekday x)
  && (default 0 (done_map !! (a_id, isoformat x)) =? 1).

(** ** The order of dates and of their texts

    Year, month and day grow with the ordinal, and so does the text of
    [isoformat] under the byte-wise order that SQLite applies to the
    [day] column.  The calendar repeats every 400 years, so the first
    is checked by computation on one cycle; the second on the numbers
    of four and of two digits. *)

Definition ymd_ltb (a b : Z * Z * Z) : bool :=
  let '(y1, m1, d1) := a in
  let '(y2, m2, d2) := b in
  (y1 <? y2) || (y1 =? y2) && ((m1 <? m2) || (m1 =? m2) && (d1 <? d2)).

Definition ymd_ok (a : Z * Z * Z) : bool :=
  let '(y, m, d) := a in (1 <=? m) && (m <=? 12) && (1 <=? d) && (d <=? 31).

(** For the [n] days from [x] on, [cur] being the triple of [x]: each
    triple is a month and a day, and smaller than the next. *)
Fixpoint ymd_increasing (n : nat) (x : date) (cur : Z * Z * Z) : bool :=
  match n with
  | O => true
  | S n' =>
      let next := ord2ymd (x + 1) in
      if ymd_ok cur && ymd_ltb cur next then ymd_increasing n' (x + 1) next
      else false
  end.

Definition str_ltb (a b : pystr) : bool :=
  match str_compare a b with Lt => true | _ => false end.

(** For the numbers [x .. x + n]: each is padded to [w] characters, and
    its text is smaller than that of the next. *)
Fixpoint zpad_increasing (w : nat) (n : nat) (x : Z) : bool :=
  match n with
  | O => (length (zpad w x) =? w)%nat
  | S n' =>
      if (length (zpad w x) =? w)%nat && str_ltb (zpad w x) (zpad w (x + 1))
      then zpad_increasing w n' (x + 1) else false
  end.

(** * Theorems *)

(** ** Dates *)

Example isoformat_leap_day : isoformat 738945 = py "2024-02-29".
Proof. vm_compute. reflexivity. Qed.

Example weekday_leap_day : weekday 738945 = 3 /\ monday 738945 = 738942.
Proof. split; reflexivity. Qed.

Example strip_name : strip (py "  Run ") = py "Run".
Proof. reflexivity. Qed.


(** * Weekday masks *)

Lemma mask_has_day_testbit (m i : Z) : 0 <= i -> mask_has_day m i = Z.testbit m i.
Proof.
  intros Hi. unfold mask_has_day.
  change 1 with (Z.ones 1) at 1. rewrite Z.land_ones by lia.
  rewrite <- Z.bit0_eqb, Z.shiftr_spec by lia. reflexivity.
Qed.

Lemma set_mask_day_testbit (m i j : Z) (v : bool) :
  0 <= i -> 0 <= j ->
  Z.testbit (set_mask_day m i v) j = if decide (j = i) then v else Z.testbit m j.
Proof.
  intros Hi Hj. unfold set_mask_day.
  assert (Hbit : Z.testbit (Z.shiftl 1 i) j = bool_decide (j = i)).
  { rewrite Z.shiftl_spec by lia.
    destruct (decide (j = i)) as [->|Hne].
    - rewrite Z.sub_diag, bool_decide_eq_true_2; done.
    - rewrite bool_decide_eq_false_2 by done.
      destruct (Z.lt_ge_cases (j - i) 0).
      + by apply Z.testbit_neg_r.
      + change 1 with (Z.ones 1). apply Z.ones_spec_high. lia. }
  destruct v.
  - rewrite Z.lor_spec, Hbit. case_decide; case_bool_decide; try done.
    + by rewrite orb_true_r.
    + by rewrite orb_false_r.
  - rewrite Z.land_spec, Z.lnot_spec, Hbit by lia.
    case_decide; case_bool_decide; try done.
    + by rewrite andb_false_r.
    + by rewrite andb_true_r.
Qed.

(** C5.  For every mask [m], every day index [i] in 0..6 and every
    boolean [v]: the bit [i] of [set_mask_day m i true] is set, that of
    [set_mask_day m i false] is clear, [set_mask_day m i v] leaves every
    other bit [j] of [m] as it was, and the full week mask has the bit
    [i]. *)
Theorem mask_laws (m i : Z) (v : bool) :
  0 <= i <= 6 ->
  mask_has_day (set_mask_day m i true) i = true
  /\ mask_has_day (set_mask_day m i false) i = false
  /\ (forall j, 0 <= j -> j <> i ->
        mask_has_day (set_mask_day m i v) j = mask_has_day m j
        /\ Z.testbit (set_mask_day m i v) j = Z.testbit m j)
  /\ mask_has_day full_week_mask i = true.
Proof.
  intros Hi. repeat split.
  - rewrite mask_has_day_testbit, set_mask_day_testbit by lia. by rewrite decide_True.
  - rewrite mask_has_day_testbit, set_mask_day_testbit by lia. by rewrite decide_True.
  - rewrite !mask_has_day_testbit, set_mask_day_testbit by lia. by rewrite decide_False.
  - rewrite set_mask_day_testbit by lia. by rewrite decide_False.
  - rewrite mask_has_day_testbit by lia.
    change full_week_mask with (Z.ones 7). apply Z.ones_spec_low. lia.
Qed.

Lemma mask_laws_witness :
  mask_has_day (set_mask_day 5 1 true) 1 = true
  /\ mask_has_day (set_mask_day 5 1 false) 1 = false
  /\ (forall j, 0 <= j -> j <> 1 ->
        mask_has_day (set_mask_day 5 1 true) j = mask_has_day 5 j
        /\ Z.testbit (set_mask_day 5 1 true) j = Z.testbit 5 j)
  /\ mask_has_day full_week_mask 1 = true.
Proof. apply (mask_laws 5 1 true). lia. Defined.

(** * The store *)

Lemma db_eta (s : db) :
  Db (activities s) (completions s) (sqlite_sequence s) = s.
Proof. by destruct s. Qed.

Lemma existsb_elem_of {A} (f : A -> bool) (l : list A) :
  existsb f l = true <-> exists x, x ∈ l /\ f x = true.
Proof.
  rewrite existsb_exists. split; intros (x & Hx & Hf); exists x; split;
    try done; by apply list_elem_of_In.
Qed.

Lemma existsb_false_elem_of {A} (f : A -> bool) (l : list A) :
  existsb f l = false <-> forall x, x ∈ l -> f x = false.
Proof.
  split.
  - intros H x Hx. destruct (f x) eqn:Hf; [|done].
    assert (existsb f l = true) by (apply existsb_elem_of; eauto). congruence.
  - intros H. destruct (existsb f l) eqn:He; [|done].
    apply existsb_elem_of in He as (x & Hx & Hf). rewrite (H x Hx) in Hf. done.
Qed.

Lemma activity_exists_true (aid : Z) (s : db) :
  activity_exists aid s = true <-> exists a, a ∈ activities s /\ a_id a = aid.
Proof.
  unfold activity_exists. rewrite existsb_elem_of.
  split; intros (a & Ha & He); exists a; split; try done; lia.
Qed.

Lemma activity_exists_false (aid : Z) (s : db) :
  (forall a, a ∈ activities s -> a_id a <> aid) -> activity_exists aid s = false.
Proof.
  intros H. apply existsb_false_elem_of. intros a Ha. specialize (H a Ha). lia.
Qed.

Lemma name_taken_true (name : pystr) (rows : list activity) :
  name_taken name rows = true <-> exists a, a ∈ rows /\ a_name a = name.
Proof.
  unfold name_taken. rewrite existsb_elem_of.
  split; intros (a & Ha & He); exists a; split; try done.
  - by apply bool_decide_eq_true in He.
  - by apply bool_decide_eq_true.
Qed.

Lemma str_truthy_false (x : pystr) : str_truthy x = false <-> x = [].
Proof. destruct x; naive_solver. Qed.

(** ** Streak without mandatory activities *)

(** C6.  When no stored activity has the mandatory flag,
    [calc_streak_upto] returns 0, whatever the completions, the
    reference date and the allowance (and it does so before the loop:
    no pass is needed). *)
Theorem calc_streak_no_mandatory (s : db) (today : date) (allowed : Z)
    (fuel : nat) :
  (forall a, a ∈ activities s -> a_mandatory a <> 1) ->
  calc_streak_upto fuel s today allowed = Some 0.
Proof.
  intros Hnone. unfold calc_streak_upto.
  assert (db_any_mandatory_exists s = false) as ->; [|done].
  apply existsb_false_elem_of. intros a Ha. specialize (Hnone a Ha). lia.
Qed.

Lemma calc_streak_no_mandatory_witness :
  calc_streak_upto 0 store_optional 738946 1 = Some 0.
Proof.
  apply (calc_streak_no_mandatory store_optional 738946 1 0).
  intros a Ha.
  repeat (apply elem_of_cons in Ha as [-> | Ha]; [discriminate|]).
  by apply elem_of_nil in Ha.
Defined.

(** ** Renaming *)

(** C10, as the code has it.  Renaming with an id that no stored
    activity has, to a name that is not empty once trimmed: when the id
    fits a SQLite INTEGER (signed 64-bit) the call reports success and
    leaves the store, activities and completions alike, as it was,
    whether or not another activity bears the new name; when the id
    does not fit, the call raises [OverflowError] and the store is
    again as it was. *)
Theorem rename_unknown_id (s : db) (aid : Z) (new_name : option pystr) :
  (forall a, a ∈ activities s -> a_id a <> aid) ->
  strip (or_empty new_name) <> [] ->
  (fits_int64 aid = true ->
   db_rename_activity aid new_name s = (Ok (true, py ""), s))
  /\ (fits_int64 aid = false ->
      db_rename_activity aid new_name s = (Raise OverflowError, s)).
Proof.
  intros Hid Hname. unfold db_rename_activity.
  destruct (str_truthy (strip (or_empty new_name))) eqn:Ht; simpl.
  2: { by apply str_truthy_false in Ht. }
  split; intros ->; [|done]. simpl.
  unfold sql_update_name. rewrite (activity_exists_false _ _ Hid). simpl.
  do 2 f_equal. rewrite <- (db_eta s) at 4. f_equal.
  rewrite <- (list_fmap_id (activities s)) at 2.
  apply list_fmap_ext. intros i a Hia.
  assert (a ∈ activities s) as Ha by (by eapply list_elem_of_lookup_2).
  specialize (Hid a Ha). by destruct (Z.eqb_spec (a_id a) aid).
Qed.

Lemma rename_unknown_id_witness :
  db_rename_activity 7 (Some (py " Swim ")) store_optional
  = (Ok (true, py ""), store_optional).
Proof.
  apply (rename_unknown_id store_optional 7 (Some (py " Swim "))).
  - intros a Ha.
    repeat (apply elem_of_cons in Ha as [-> | Ha]; [discriminate|]).
    by apply elem_of_nil in Ha.
  - discriminate.
  - reflexivity.
Defined.

(** C10 as stated fails for an id beyond the 64-bit range: no stored
    activity has the id 2^63, no activity bears the name, and the call
    raises instead of reporting success. *)
Lemma rename_unknown_id_overflow :
  (forall a, a ∈ activities store_optional -> a_id a <> 2 ^ 63)
  /\ strip (or_empty (Some (py "Swim"))) <> []
  /\ (forall a, a ∈ activities store_optional -> a_name a <> py "Swim")
  /\ db_rename_activity (2 ^ 63) (Some (py "Swim")) store_optional
     = (Raise OverflowError, store_optional).
Proof.
  split; [|split; [discriminate|split; [|vm_compute; reflexivity]]];
    intros a Ha;
    repeat (apply elem_of_cons in Ha as [-> | Ha]; [discriminate|]);
    by apply elem_of_nil in Ha.
Qed.

(** The same with a name that another activity bears: no row is
    updated, so the UNIQUE constraint is not consulted. *)
Example rename_unknown_id_to_taken_name :
  db_rename_activity 7 (Some (py "Read")) store_optional
  = (Ok (true, py ""), store_optional).
Proof. reflexivity. Qed.

(** ** Adding *)

(** C1, as the code has it.  [db_add_activity] with a name whose
    trimmed form is empty fails with the reason "empty"; with a name
    whose trimmed form is, character for character, the name of a stored
    activity it fails with the reason "exists"; either failure leaves
    the store, and so every [sort_order], unchanged. *)
Theorem add_activity_rejects (s : db) (name : option pystr) :
  (strip (or_empty name) = [] ->
   db_add_activity name s = (Ok (false, py "empty"), s))
  /\ (forall a, a ∈ activities s ->
      a_name a = strip (or_empty name) -> strip (or_empty name) <> [] ->
      db_add_activity name s = (Ok (false, py "exists"), s)).
Proof.
  split.
  - intros He. unfold db_add_activity. by rewrite He.
  - intros a Ha Hsame Hne. unfold db_add_activity.
    destruct (str_truthy (strip (or_empty name))) eqn:Ht; simpl.
    2: { by apply str_truthy_false in Ht. }
    unfold sql_insert_activity.
    assert (name_taken (strip (or_empty name)) (activities s) = true) as ->; [|done].
    apply name_taken_true. eauto.
Qed.


Lemma add_activity_rejects_witness :
  db_add_activity (Some (py "  ")) store_run
  = (Ok (false, py "empty"), store_run)
  /\ db_add_activity (Some (py " Run ")) store_run
     = (Ok (false, py "exists"), store_run).
Proof.
  split.
  - apply (proj1 (add_activity_rejects store_run (Some (py "  ")))).
    reflexivity.
  - apply (proj2 (add_activity_rejects store_run (Some (py " Run ")))
                 (Activity 1 (py "Run") 0 127 1)).
    + apply list_elem_of_here.
    + reflexivity.
    + discriminate.
Defined.

(** C1 as stated fails: the stored "Run" and the new " run " are the
    same name once trimmed and compared without regard to case, and yet
    the insertion succeeds (the UNIQUE constraint compares bytes). *)
Lemma add_activity_nocase_accepted :
  same_name_nocase (py "Run") (py " run ") = true
  /\ Activity 1 (py "Run") 0 127 1 ∈ activities store_run
  /\ db_add_activity (Some (py " run ")) store_run
     = (Ok (true, py ""),
        Db [Activity 1 (py "Run") 0 127 1; Activity 2 (py "run") 0 127 2] [] 2).
Proof.
  split; [by vm_compute|]. split; [apply list_elem_of_here|]. by vm_compute.
Qed.

(** ** Deleting, and the foreign key *)

Lemma py_dict_lookup `{Countable K} {V} (l : list (K * V)) (k : K) (v : V) :
  py_dict l !! k = Some v -> (k, v) ∈ l.
Proof.
  unfold py_dict.
  assert (forall m : gmap K V,
    foldl (fun m kv => <[kv.1 := kv.2]> m) m l !! k = Some v ->
    m !! k = Some v \/ (k, v) ∈ l) as Hgen.
  { induction l as [|[k' v'] l IH]; intros m Hm; simpl in *; [by left|].
    destruct (IH _ Hm) as [Hin|Hin].
    - destruct (decide (k' = k)) as [->|Hne].
      + rewrite lookup_insert_eq in Hin. injection Hin as ->.
        right. apply list_elem_of_here.
      + rewrite lookup_insert_ne in Hin by done. by left.
    - right. by apply list_elem_of_further. }
  intros Hl. destruct (Hgen ∅ Hl) as [Hm|Hin]; [|done].
  by rewrite lookup_empty in Hm.
Qed.

Lemma completions_after_delete (s : db) (aid : Z) (c : completion) :
  fk_ok s -> c ∈ completions (db_delete_activity aid s) ->
  c ∈ completions s /\ c_activity_id c <> aid.
Proof.
  intros Hfk Hc. simpl in Hc. apply list_elem_of_filter in Hc as [Hnot Hc].
  split; [done|]. intros Heq. apply Hnot.
  destruct (proj1 (activity_exists_true _ _) (Hfk c Hc)) as (a & Ha & Hid).
  apply list_elem_of_fmap. exists a. split; [congruence|].
  apply list_elem_of_filter. split; [congruence|done].
Qed.

(** C9.  In a store that respects the foreign key, after
    [db_delete_activity aid] no completion of [aid] remains, and for
    every range the map of [db_bulk_done_map] has no key whose activity
    id is [aid]. *)
Theorem delete_activity_cascades (s : db) (aid : Z) :
  fk_ok s ->
  (forall c, c ∈ completions (db_delete_activity aid s) ->
             c_activity_id c <> aid)
  /\ (forall start_iso end_iso k v,
        db_bulk_done_map start_iso end_iso (db_delete_activity aid s) !! k
        = Some v -> k.1 <> aid).
Proof.
  intros Hfk. split.
  - intros c Hc. by destruct (completions_after_delete s aid c Hfk Hc).
  - intros start_iso end_iso k v Hk. unfold db_bulk_done_map in Hk.
    apply py_dict_lookup, list_elem_of_fmap in Hk as (c & Hkv & Hc).
    apply list_elem_of_filter in Hc as [_ Hc].
    destruct (completions_after_delete s aid c Hfk Hc) as [_ Hne].
    by injection Hkv as -> _.
Qed.

Lemma fk_ok_store_optional : fk_ok store_optional.
Proof.
  intros c Hc.
  repeat (apply elem_of_cons in Hc as [-> | Hc]; [reflexivity|]).
  by apply elem_of_nil in Hc.
Qed.

Lemma delete_activity_cascades_witness :
  (forall c, c ∈ completions (db_delete_activity 1 store_optional) ->
             c_activity_id c <> 1)
  /\ (forall start_iso end_iso k v,
        db_bulk_done_map start_iso end_iso (db_delete_activity 1 store_optional)
          !! k = Some v -> k.1 <> 1).
Proof.
  apply (delete_activity_cascades store_optional 1). apply fk_ok_store_optional.
Defined.

Example delete_activity_store_optional :
  db_delete_activity 1 store_optional
  = Db [Activity 2 (py "Read") 0 21 2] [Completion 2 (py "2024-03-01") 1] 2.
Proof. vm_compute. reflexivity. Qed.

(** The foreign key holds in the empty store and every writer keeps it. *)

Lemma fk_ok_empty : fk_ok empty_db.
Proof. intros c Hc. by apply elem_of_nil in Hc. Qed.

Lemma fk_ok_intro (s s' : db) :
  fk_ok s ->
  (forall c, c ∈ completions s' ->
     exists c0, c0 ∈ completions s /\ c_activity_id c0 = c_activity_id c) ->
  (forall a, a ∈ activities s ->
     exists a', a' ∈ activities s' /\ a_id a' = a_id a) ->
  fk_ok s'.
Proof.
  intros Hfk Hcs Has c Hc. destruct (Hcs c Hc) as (c0 & Hc0 & Hid).
  apply activity_exists_true.
  destruct (proj1 (activity_exists_true _ _) (Hfk c0 Hc0)) as (a & Ha & Haid).
  destruct (Has a Ha) as (a' & Ha' & Hid'). exists a'. split; [done|]. congruence.
Qed.

Lemma fk_ok_add (s : db) (name : option pystr) :
  fk_ok s -> fk_ok (db_add_activity name s).2.
Proof.
  intros Hfk. unfold db_add_activity.
  destruct (negb _); [done|].
  destruct (sql_insert_activity _ _ _ _ s) as [s'|e] eqn:Hins.
  2: { by destruct e. }
  simpl. unfold sql_insert_activity in Hins.
  repeat (destruct (_ : bool) in Hins; [done|]); try done.
  injection Hins as <-. apply (fk_ok_intro s); [done|by eauto|].
  intros a Ha. exists a. split; [|done]. simpl. apply elem_of_app. by left.
Qed.

Lemma fk_ok_fmap_activities (s : db) (f : activity -> activity) :
  (forall a, a_id (f a) = a_id a) -> fk_ok s ->
  fk_ok (Db (f <$> activities s) (completions s) (sqlite_sequence s)).
Proof.
  intros Hf Hfk. apply (fk_ok_intro s); [done|by eauto|].
  intros a Ha. exists (f a). split; [|done]. simpl. by apply list_elem_of_fmap_2.
Qed.

Lemma fk_ok_rename (s : db) (aid : Z) (new_name : option pystr) :
  fk_ok s -> fk_ok (db_rename_activity aid new_name s).2.
Proof.
  intros Hfk. unfold db_rename_activity.
  destruct (negb _); [done|]. destruct (negb _); [done|].
  unfold sql_update_name.
  destruct (_ && _); [done|]. simpl.
  apply fk_ok_fmap_activities; [|done]. intros a. by destruct (_ =? _).
Qed.

Lemma fk_ok_set_sort_orders (ordered_ids : list Z) (s : db) :
  fk_ok s -> fk_ok (db_set_sort_orders ordered_ids s).
Proof.
  unfold db_set_sort_orders. generalize (zip (seq 1 (length ordered_ids)) ordered_ids).
  intros l. revert s. induction l as [|[i aid] l IH]; intros s Hfk; [done|].
  simpl. apply IH. apply fk_ok_fmap_activities; [|done].
  intros a. by destruct (_ =? _).
Qed.

Lemma fk_ok_delete (s : db) (aid : Z) :
  fk_ok s -> fk_ok (db_delete_activity aid s).
Proof.
  intros Hfk c Hc.
  destruct (completions_after_delete s aid c Hfk Hc) as [Hc0 Hne].
  apply activity_exists_true.
  destruct (proj1 (activity_exists_true _ _) (Hfk c Hc0)) as (a & Ha & Hid).
  exists a. split; [|done]. simpl. apply list_elem_of_filter. split; [congruence|done].
Qed.

Lemma fk_ok_clear_all (s : db) : fk_ok (db_clear_all s).
Proof. intros c Hc. by apply elem_of_nil in Hc. Qed.

Lemma fk_ok_update (s : db) (aid : Z) (mandatory days_mask : option Z) :
  fk_ok s -> fk_ok (db_update_activity aid mandatory days_mask s).2.
Proof.
  intros Hfk. unfold db_update_activity.
  assert (forall b : bool, fk_ok
    (if b then (Raise IntegrityError, s)
     else (Ok (),
           Db ((fun a => if a_id a =? aid
                         then Activity (a_id a) (a_name a)
                                (default (a_mandatory a) mandatory)
                                (default (a_days_mask a) days_mask)
                                (a_sort_order a)
                         else a) <$> activities s)
              (completions s) (sqlite_sequence s))).2) as Hb.
  { intros [|]; [done|]. simpl. apply fk_ok_fmap_activities; [|done].
    intros a. by destruct (_ =? _). }
  destruct mandatory, days_mask; [| | |done];
    (destruct (negb (forallb _ _)); [done|apply Hb]).
Qed.

Lemma fk_ok_set_done (s : db) (aid : Z) (day_iso : pystr) (done : Z) :
  fk_ok s -> fk_ok (db_set_done aid day_iso done s).2.
Proof.
  intros Hfk. unfold db_set_done.
  destruct (negb (_ && _)); [done|].
  destruct (negb (check_in_0_1 done)); [done|].
  destruct (activity_exists aid s) eqn:Hex; [|done]. simpl.
  destruct (existsb _ _); simpl.
  - intros c Hc. simpl in Hc. apply list_elem_of_fmap in Hc as (c0 & -> & Hc0).
    unfold activity_exists. simpl.
    destruct (completion_at aid day_iso c0); [done|]. by apply Hfk.
  - intros c Hc. simpl in Hc. apply elem_of_app in Hc as [Hc|Hc].
    + by apply Hfk.
    + apply list_elem_of_singleton in Hc as ->. done.
Qed.

(** * The streak walk *)


Lemma monday_next_week (x y : date) :
  monday (x + 1) <> monday x -> x < y -> monday y <> monday x.
Proof. week_arith. Qed.

Lemma daterange_nil (lo hi : date) : hi < lo -> daterange lo hi = [].
Proof.
  intros H. unfold daterange. by replace (Z.to_nat (hi - lo + 1)) with 0%nat by lia.
Qed.

Lemma daterange_cons (lo hi : date) :
  lo <= hi -> daterange lo hi = lo :: daterange (lo + 1) hi.
Proof.
  intros H. unfold daterange.
  replace (Z.to_nat (hi - lo + 1)) with (S (Z.to_nat (hi - (lo + 1) + 1))) by lia.
  simpl. f_equal; [lia|]. rewrite <- fmap_S_seq, <- list_fmap_compose.
  apply list_fmap_ext. intros i j _. simpl. lia.
Qed.

Lemma elem_of_daterange (lo hi y : date) :
  y ∈ daterange lo hi -> lo <= y <= hi.
Proof.
  unfold daterange. intros H. apply list_elem_of_fmap in H as (i & -> & Hi).
  apply elem_of_seq in Hi. lia.
Qed.

Section walk.
Variables (s : db) (allowed today : Z).

Lemma fails_in_week_step (wk lo : date) :
  lo <= today ->
  fails_in_week s wk lo today
  = (if decide (monday lo = wk /\ day_is_success_for_streak s lo = false)
     then 1 else 0)
    + fails_in_week s wk (lo + 1) today.
Proof.
  intros H. unfold fails_in_week. rewrite (daterange_cons lo today H).
  rewrite filter_cons. case_decide; simpl; lia.
Qed.

Lemma fails_in_week_none (wk lo : date) :
  (forall y, lo <= y -> monday y <> wk) -> fails_in_week s wk lo today = 0.
Proof.
  intros H. unfold fails_in_week.
  destruct (filter _ (daterange lo today)) as [|y l] eqn:Hf; [done|].
  assert (y ∈ y :: l) as Hy by apply list_elem_of_here.
  rewrite <- Hf in Hy. apply list_elem_of_filter in Hy as [[Hwk _] Hy].
  apply elem_of_daterange in Hy. destruct (H y); [lia|done].
Qed.


Lemma at_head_init : at_head s today (Walk 0 today (monday today) 0).
Proof.
  unfold at_head. simpl. split; [lia|]. split; [lia|].
  split; [f_equal; lia|]. unfold fails_in_week. by rewrite daterange_nil by lia.
Qed.

Lemma walk_body_at_head (v : walk) :
  at_head s today v ->
  walk_body s allowed v
  = if over_budget s allowed today (d v) then inr (streak v)
    else if 3650 <? streak v + 1 then inr (streak v + 1)
    else inl (Walk (streak v + 1) (d v - 1) (monday (d v))
                   (fails_in_week s (monday (d v)) (d v) today)).
Proof.
  intros (Hle & Hstreak & Hweek & Hmiss).
  assert (Hadj :
    (if bool_decide (monday (d v) <> current_week v)
     then (monday (d v), 0) else (current_week v, misses v))
    = (monday (d v), fails_in_week s (monday (d v)) (d v + 1) today)).
  { case_bool_decide as Hw.
    - f_equal. symmetry. apply fails_in_week_none. intros y Hy.
      apply monday_next_week; [|lia].
      destruct (Z.min_spec today (d v + 1)) as [[Hlt Hm]|[Hge Hm]];
        rewrite Hm in Hweek.
      + assert (today = d v) as Heq by lia. rewrite Heq in Hweek.
        by destruct Hw.
      + intros Heq. apply Hw. by rewrite Hweek.
    - rewrite Hmiss. by rewrite <- Hw. }
  unfold walk_body. rewrite Hadj. unfold over_budget.
  rewrite (fails_in_week_step (monday (d v)) (d v) Hle).
  destruct (day_is_success_for_streak s (d v)) eqn:Hok; simpl.
  - rewrite decide_False by (by intros [_ ?]). by rewrite Z.add_0_l.
  - rewrite decide_True by done.
    rewrite (Z.add_comm 1). by destruct (_ <? _ + 1).
Qed.

Lemma at_head_next (v : walk) :
  at_head s today v ->
  at_head s today (Walk (streak v + 1) (d v - 1) (monday (d v))
                (fails_in_week s (monday (d v)) (d v) today)).
Proof.
  intros (Hle & Hstreak & _). unfold at_head. simpl.
  replace (d v - 1 + 1) with (d v) by lia.
  split; [lia|]. split; [lia|]. split; [|done]. f_equal. lia.
Qed.

Lemma walk_reaches (t : date) (n : nat) :
  forall v, at_head s today v -> d v = t + Z.of_nat n ->
  (forall y, t < y <= d v -> over_budget s allowed today y = false) ->
  over_budget s allowed today t = true ->
  today - t <= 3650 ->
  forall fuel, (n < fuel)%nat -> walk_loop fuel s allowed v = Some (today - t).
Proof.
  induction n as [|n IH]; intros v Hhead Hd Hclean Hover Hcap fuel Hfuel;
    (destruct fuel as [|fuel]; [lia|]); simpl;
    rewrite (walk_body_at_head v Hhead).
  - replace (d v) with t by lia. rewrite Hover.
    destruct Hhead as (_ & -> & _). f_equal. lia.
  - rewrite Hclean by lia.
    pose proof Hhead as (Hle & Hstreak & _).
    destruct (Z.ltb_spec 3650 (streak v + 1)); [lia|].
    apply IH; simpl; try done; try lia.
    + by apply at_head_next.
    + intros y Hy. apply Hclean. lia.
Qed.

Lemma walk_loop_mono (n m : nat) (v : walk) (r : Z) :
  walk_loop n s allowed v = Some r -> (n <= m)%nat ->
  walk_loop m s allowed v = Some r.
Proof.
  revert m v. induction n as [|n IH]; intros m v Hn Hle; [done|].
  destruct m as [|m]; [lia|]. simpl in *.
  destruct (walk_body s allowed v); [|done]. apply IH; [done|lia].
Qed.

Lemma walk_loop_bounded (n : nat) :
  forall v, 0 <= streak v <= 3650 -> (Z.to_nat (3651 - streak v) <= n)%nat ->
  exists r, walk_loop n s allowed v = Some r /\ streak v <= r <= 3651.
Proof.
  induction n as [|n IH]; intros v Hs Hn; [lia|]. simpl. unfold walk_body.
  destruct (if bool_decide (monday (d v) <> current_week v)
            then (monday (d v), 0) else (current_week v, misses v))
    as [cw ms].
  assert (Hcont : forall ms',
    exists r,
      match (if 3650 <? streak v + 1 then inr (streak v + 1)
             else inl (Walk (streak v + 1) (d v - 1) cw ms')) with
      | inl v' => walk_loop n s allowed v'
      | inr r => Some r
      end = Some r /\ streak v <= r <= 3651).
  { intros ms'. destruct (Z.ltb_spec 3650 (streak v + 1)).
    - exists (streak v + 1). split; [done|lia].
    - destruct (IH (Walk (streak v + 1) (d v - 1) cw ms')) as (r & Hr & Hb);
        simpl; [lia|lia|]. exists r. split; [done|]. simpl in Hb. lia. }
  destruct (day_is_success_for_streak s (d v)); [apply Hcont|].
  destruct (allowed <? ms + 1); [|apply Hcont].
  exists (streak v). split; [done|lia].
Qed.
End walk.

(** C4, as the code has it.  For every store, reference date and
    allowance the walk of [calc_streak_upto] stops within 3651 passes of
    its loop, and the streak it returns lies between 0 and 3651. *)
Theorem calc_streak_terminates (s : db) (today : date) (allowed : Z) :
  exists r,
    calc_streak_upto 3651 s today allowed = Some r
    /\ 0 <= r <= 3651
    /\ forall fuel, (3651 <= fuel)%nat ->
                    calc_streak_upto fuel s today allowed = Some r.
Proof.
  unfold calc_streak_upto.
  destruct (db_any_mandatory_exists s); simpl.
  2: { exists 0. split; [done|]. split; [lia|done]. }
  destruct (walk_loop_bounded s allowed 3651 (Walk 0 today (monday today) 0))
    as (r & Hr & Hb); simpl; [lia|lia|].
  exists r. split; [done|]. split; [simpl in Hb; lia|].
  intros fuel Hfuel. by apply (walk_loop_mono s allowed 3651).
Qed.


(** C4 as stated fails: with a mandatory activity planned on no day
    every day is a success, the loop has not stopped after 3650 passes,
    and the 3651st returns the streak 3651. *)
Lemma calc_streak_walks_3651_days :
  db_any_mandatory_exists store_idle = true
  /\ calc_streak_upto 3650 store_idle 738886 1 = None
  /\ calc_streak_upto 3651 store_idle 738886 1 = Some 3651.
Proof. split; [done|]. split; vm_compute; reflexivity. Qed.

(** C2.  In the walk of [calc_streak_upto]: a pass that enters a day of
    another Monday-aligned week goes on as if the miss counter were 0;
    an unsuccessful day that keeps the counter within the allowance
    still adds one to the streak; an unsuccessful day that takes the
    counter past the allowance ends the walk with the streak as it
    stood; and so, when day [today - k] is the first that is over its
    week's budget, the result is [k], the number of days after it. *)
Theorem streak_walk_per_week_budget (s : db) (today : date) (allowed : Z) :
  (forall v, monday (d v) <> current_week v ->
     walk_body s allowed v
     = walk_body s allowed (Walk (streak v) (d v) (monday (d v)) 0))
  /\ (forall v, monday (d v) = current_week v ->
        day_is_success_for_streak s (d v) = false ->
        misses v + 1 <= allowed -> streak v < 3650 ->
        walk_body s allowed v
        = inl (Walk (streak v + 1) (d v - 1) (current_week v) (misses v + 1)))
  /\ (forall v, monday (d v) = current_week v ->
        day_is_success_for_streak s (d v) = false ->
        allowed < misses v + 1 ->
        walk_body s allowed v = inr (streak v))
  /\ (forall k fuel,
        db_any_mandatory_exists s = true ->
        0 <= k <= 3650 ->
        (forall j, 0 <= j < k ->
           over_budget s allowed today (today - j) = false) ->
        over_budget s allowed today (today - k) = true ->
        (Z.to_nat k < fuel)%nat ->
        calc_streak_upto fuel s today allowed = Some k).
Proof.
  split; [|split; [|split]].
  - intros v Hw. unfold walk_body. simpl.
    rewrite bool_decide_eq_true_2 by done.
    by rewrite bool_decide_eq_false_2 by naive_solver.
  - intros v Hw Hfail Hm Hs. unfold walk_body.
    rewrite bool_decide_eq_false_2 by naive_solver. rewrite Hfail.
    destruct (Z.ltb_spec allowed (misses v + 1)); [lia|].
    by destruct (Z.ltb_spec 3650 (streak v + 1)); [lia|].
  - intros v Hw Hfail Hm. unfold walk_body.
    rewrite bool_decide_eq_false_2 by naive_solver. rewrite Hfail.
    by destruct (Z.ltb_spec allowed (misses v + 1)); [|lia].
  - intros k fuel Hmand Hk Hclean Hover Hfuel. unfold calc_streak_upto.
    rewrite Hmand. simpl.
    rewrite (walk_reaches s allowed today (today - k) (Z.to_nat k)
               (Walk 0 today (monday today) 0)) with (fuel := fuel);
      simpl; try done; try lia.
    + f_equal. lia.
    + apply at_head_init.
    + intros y Hy. replace y with (today - (today - y)) by lia.
      apply Hclean. lia.
Qed.


Lemma streak_walk_per_week_budget_witness :
  calc_streak_upto 10 store_two_misses 738946 1 = Some 4.
Proof.
  apply (proj2 (proj2 (proj2
    (streak_walk_per_week_budget store_two_misses 738946 1)))).
  - reflexivity.
  - lia.
  - intros j Hj.
    assert (j = 0 \/ j = 1 \/ j = 2 \/ j = 3) as [-> | [-> | [-> | ->]]] by lia;
      vm_compute; reflexivity.
  - vm_compute. reflexivity.
  - vm_compute. lia.
Defined.

(** * Statistics *)

(** ** The strongest day *)

Lemma foldl_max_spec (l : list Z) (x : Z) :
  x <= foldl Z.max x l
  /\ (forall y, y ∈ l -> y <= foldl Z.max x l)
  /\ (foldl Z.max x l = x \/ foldl Z.max x l ∈ l).
Proof.
  revert x. induction l as [|y l IH]; intros x; simpl.
  - split; [lia|]. split; [|by left]. intros y Hy. by apply elem_of_nil in Hy.
  - destruct (IH (Z.max x y)) as (Hge & Hall & Hin).
    split; [lia|]. split.
    + intros z Hz. apply elem_of_cons in Hz as [->|Hz]; [lia|by apply Hall].
    + destruct Hin as [Heq|Hin].
      * destruct (Z.max_spec x y) as [[_ Hm]|[_ Hm]].
        -- right. rewrite Heq, Hm. apply list_elem_of_here.
        -- left. by rewrite Heq.
      * right. by apply list_elem_of_further.
Qed.

Lemma py_max_spec (l : list Z) :
  l <> [] ->
  exists mx, py_max l = Ok mx /\ mx ∈ l /\ forall y, y ∈ l -> y <= mx.
Proof.
  destruct l as [|x l]; [done|]. intros _. simpl.
  destruct (foldl_max_spec l x) as (Hge & Hall & Hin).
  exists (foldl Z.max x l). split; [done|]. split.
  - destruct Hin as [->|Hin]; [apply list_elem_of_here|by apply list_elem_of_further].
  - intros y Hy. apply elem_of_cons in Hy as [->|Hy]; [done|by apply Hall].
Qed.

Lemma py_index_spec (x : Z) (l : list Z) :
  x ∈ l ->
  exists i, py_index x l = Ok i /\ 0 <= i
    /\ l !! Z.to_nat i = Some x
    /\ forall j y, (j < Z.to_nat i)%nat -> l !! j = Some y -> y <> x.
Proof.
  induction l as [|y l IH]; intros Hx; [by apply elem_of_nil in Hx|].
  simpl. destruct (Z.eqb_spec y x) as [->|Hne].
  - exists 0. repeat split; try done. intros j z Hj. simpl in Hj. lia.
  - apply elem_of_cons in Hx as [->|Hx]; [done|].
    destruct (IH Hx) as (i & -> & Hi & Hl & Hfirst).
    exists (i + 1). simpl. split; [done|]. split; [lia|].
    replace (Z.to_nat (i + 1)) with (S (Z.to_nat i)) by lia.
    split; [done|]. intros [|j] z Hj Hz; simpl in Hz.
    + by injection Hz as <-.
    + apply (Hfirst j); [lia|done].
Qed.

Lemma py_any_false (l : list Z) :
  py_any l = false <-> forall x, x ∈ l -> x = 0.
Proof.
  unfold py_any. split.
  - intros H x Hx. induction l as [|y l IH]; [by apply elem_of_nil in Hx|].
    simpl in H. apply orb_false_iff in H as [Hy Hl].
    apply elem_of_cons in Hx as [->|Hx]; [|by apply IH].
    apply negb_false_iff in Hy. lia.
  - intros H. induction l as [|y l IH]; [done|]. simpl.
    rewrite (H y) by apply list_elem_of_here. simpl.
    apply IH. intros x Hx. apply H. by apply list_elem_of_further.
Qed.

Lemma strongest_day_spec (l : list Z) :
  ((forall x, x ∈ l -> x = 0) -> strongest_day l = Ok None)
  /\ ((exists x, x ∈ l /\ x <> 0) ->
      exists idx mx,
        strongest_day l = Ok (Some (idx, mx))
        /\ 0 <= idx < Z.of_nat (length l)
        /\ l !! Z.to_nat idx = Some mx
        /\ (forall y, y ∈ l -> y <= mx)
        /\ (forall j y, (j < Z.to_nat idx)%nat -> l !! j = Some y -> y < mx)).
Proof.
  unfold strongest_day. split.
  - intros Hz. by rewrite (proj2 (py_any_false l) Hz).
  - intros (x & Hx & Hnz).
    destruct (py_any l) eqn:Hany.
    2: { pose proof (proj1 (py_any_false l) Hany x Hx). done. }
    destruct (py_max_spec l) as (mx & -> & Hin & Hmax).
    { intros ->. by apply elem_of_nil in Hx. }
    destruct (py_index_spec mx l Hin) as (i & Hi & Hpos & Hl & Hfirst).
    exists i, mx. simpl. rewrite Hi. simpl. split; [done|].
    split; [|split; [done|split; [done|]]].
    + apply lookup_lt_Some in Hl. lia.
    + intros j y Hj Hy. specialize (Hfirst j y Hj Hy).
      assert (y <= mx); [|lia]. apply Hmax. by eapply list_elem_of_lookup_2.
Qed.

(** ** The loops of [_calc_range_stats] *)

Lemma day_loop_inv done_map a_id days_mask (days : list date) p0 d0 dd0 :
  exists p d dd,
    foldl (day_loop done_map a_id days_mask) (p0, d0, dd0) days = (p, d, dd)
    /\ 0 <= d - d0 <= p - p0
    /\ p - p0 <= Z.of_nat (length days)
    /\ length dd = length dd0.
Proof.
  revert p0 d0 dd0. induction days as [|x days IH]; intros p0 d0 dd0; simpl.
  - exists p0, d0, dd0. repeat split; lia.
  - destruct (mask_has_day days_mask (weekday x)).
    + destruct (default 0 (done_map !! (a_id, isoformat x)) =? 1).
      * destruct (IH (p0 + 1) (d0 + 1)
          (<[Z.to_nat (weekday x) := dd0 !!! Z.to_nat (weekday x) + 1]> dd0))
          as (p & d & dd & -> & ? & ? & Hlen).
        exists p, d, dd. rewrite length_insert in Hlen. repeat split; try done; lia.
      * destruct (IH (p0 + 1) d0 dd0) as (p & d & dd & -> & ? & ? & Hlen).
        exists p, d, dd. repeat split; try done; lia.
    + destruct (IH p0 d0 dd0) as (p & d & dd & -> & ? & ? & Hlen).
      exists p, d, dd. repeat split; try done; lia.
Qed.

Lemma length_daterange (d1 d2 : date) :
  length (daterange d1 d2) = Z.to_nat (d2 - d1 + 1).
Proof. unfold daterange. by rewrite length_fmap, length_seq. Qed.

(** What [_calc_range_stats] returns: one row per listed activity, in
    order, with a done count between 0 and the planned count, itself at
    most the number of days; and seven weekday counters. *)
Lemma calc_range_stats_inv (s : db) (start_d end_d : date) :
  let '(per_act, day_done) := _calc_range_stats s start_d end_d in
  (fun '(n, _, _) => n) <$> per_act
  = (fun '(_, n, _, _) => n) <$> db_list_activities s
  /\ (forall n p d, (n, p, d) ∈ per_act ->
        0 <= d <= p /\ p <= Z.of_nat (Z.to_nat (end_d - start_d + 1)))
  /\ length day_done = 7%nat.
Proof.
  unfold _calc_range_stats.
  generalize (db_bulk_done_map (isoformat start_d) (isoformat end_d) s).
  intros done_map.
  assert (forall rows per0 dd0,
    let '(per_act, day_done) :=
      foldl (activity_loop done_map start_d end_d) (per0, dd0) rows in
    (fun '(n, _, _) => n) <$> per_act
    = ((fun '(n, _, _) => n) <$> per0) ++ ((fun '(_, n, _, _) => n) <$> rows)
    /\ (forall n p d, (n, p, d) ∈ per_act ->
          (n, p, d) ∈ per0
          \/ 0 <= d <= p /\ p <= Z.of_nat (Z.to_nat (end_d - start_d + 1)))
    /\ length day_done = length dd0) as Hgen.
  { induction rows as [|[[[a_id name] mandatory] days_mask] rows IH];
      intros per0 dd0; simpl.
    - rewrite app_nil_r. split; [done|]. split; [by left|done].
    - destruct (day_loop_inv done_map a_id days_mask
                  (daterange start_d end_d) 0 0 dd0)
        as (p & d & dd & -> & Hd & Hp & Hlen).
      rewrite length_daterange in Hp.
      specialize (IH (per0 ++ [(name, p, d)]) dd).
      destruct (foldl _ _ rows) as [per_act day_done].
      destruct IH as (Hnames & Hrows & Hlen').
      split; [|split].
      + rewrite Hnames, fmap_app, <- app_assoc. done.
      + intros n p' d' Hin. destruct (Hrows n p' d' Hin) as [Hin0|Hok]; [|by right].
        apply elem_of_app in Hin0 as [Hin0|Hin0]; [by left|].
        apply list_elem_of_singleton in Hin0. injection Hin0 as -> -> ->.
        right. lia.
      + congruence. }
  specialize (Hgen (db_list_activities s) [] (replicate 7 0)).
  destruct (foldl _ _ (db_list_activities s)) as [per_act day_done].
  destruct Hgen as (Hnames & Hrows & Hlen). split; [done|]. split; [|done].
  intros n p d Hin. destruct (Hrows n p d Hin) as [Hin0|Hok]; [|done].
  by apply elem_of_nil in Hin0.
Qed.

Example strongest_day_tie :
  strongest_day [0; 3; 1; 3; 0; 0; 0] = Ok (Some (1, 3)).
Proof. reflexivity. Qed.

Example strongest_day_store_optional :
  (_calc_range_stats store_optional (738946 - 29) 738946).2
  = [0; 0; 0; 0; 2; 0; 0]
  /\ load_data_strong_day store_optional 738946 = Ok (Some (4, 2)).
Proof. split; vm_compute; reflexivity. Qed.

Example strongest_day_store_idle :
  load_data_strong_day store_idle 738946 = Ok None.
Proof. vm_compute. reflexivity. Qed.


Lemma day_loop_planned done_map a_id days_mask (days : list date) p0 d0 dd0 :
  (foldl (day_loop done_map a_id days_mask) (p0, d0, dd0) days).1.1
  = p0 + Z.of_nat (length (filter
           (fun x => Is_true (mask_has_day days_mask (weekday x))) days)).
Proof.
  revert p0 d0 dd0. induction days as [|x days IH]; intros p0 d0 dd0; simpl.
  - lia.
  - rewrite filter_cons. case_decide as Hm.
    + apply Is_true_true in Hm. rewrite Hm.
      destruct (_ =? 1); rewrite IH; simpl; lia.
    + apply Is_true_false in Hm. rewrite Hm. by rewrite IH.
Qed.

Lemma calc_range_stats_planned (s : db) (start_d end_d : date) n p d :
  (n, p, d) ∈ (_calc_range_stats s start_d end_d).1 ->
  exists a_id mandatory days_mask,
    (a_id, n, mandatory, days_mask) ∈ db_list_activities s
    /\ p = planned_days days_mask start_d end_d.
Proof.
  unfold _calc_range_stats.
  generalize (db_bulk_done_map (isoformat start_d) (isoformat end_d) s).
  intros done_map.
  assert (forall rows per0 dd0,
    (n, p, d) ∈ (foldl (activity_loop done_map start_d end_d) (per0, dd0) rows).1 ->
    (n, p, d) ∈ per0
    \/ exists a_id mandatory days_mask,
         (a_id, n, mandatory, days_mask) ∈ rows
         /\ p = planned_days days_mask start_d end_d) as Hgen.
  { induction rows as [|[[[a_id name] mandatory] days_mask] rows IH];
      intros per0 dd0 Hin; simpl in *; [by left|].
    pose proof (day_loop_planned done_map a_id days_mask
                  (daterange start_d end_d) 0 0 dd0) as Hp.
    destruct (foldl (day_loop _ _ _) _ _) as [[p' d'] dd'].
    simpl in Hp. destruct (IH _ _ Hin) as [Hin0|(i & m & k & Hrow & Hpk)].
    - apply elem_of_app in Hin0 as [Hin0|Hin0]; [by left|].
      apply list_elem_of_singleton in Hin0. injection Hin0 as -> -> ->.
      right. exists a_id, mandatory, days_mask.
      split; [apply list_elem_of_here|]. unfold planned_days. lia.
    - right. exists i, m, k. split; [by apply list_elem_of_further|done]. }
  intros Hin. destruct (Hgen _ _ _ Hin) as [Hin0|H]; [|done].
  by apply elem_of_nil in Hin0.
Qed.

(** ** The percentages of the table *)


Lemma percent_agrees_39 : percent_agrees_upto 39 = true.
Proof. vm_compute. reflexivity. Qed.

Lemma percent_small (done planned : Z) :
  0 <= done <= planned -> planned <= 39 ->
  percent done planned = Ok (spec_percent done planned).
Proof.
  intros Hd Hp.
  pose proof percent_agrees_39 as H. unfold percent_agrees_upto in H.
  rewrite forallb_forall in H.
  specialize (H (Z.to_nat planned)). rewrite forallb_forall in H.
  assert (percent_agrees (Z.of_nat (Z.to_nat done)) (Z.of_nat (Z.to_nat planned))
          = true) as Hok.
  { apply H; apply in_seq; lia. }
  rewrite !Z2Nat.id in Hok by lia. unfold percent_agrees in Hok.
  destruct (percent done planned) as [z|e]; [|done].
  apply Z.eqb_eq in Hok. by subst.
Qed.

(** Beyond that the two part: 23 days done out of 40 planned is 57.5
    per cent, which the floating-point product places just below. *)
Example percent_23_of_40 :
  percent 23 40 = Ok 57 /\ spec_percent 23 40 = 58.
Proof. split; vm_compute; reflexivity. Qed.

Lemma py_dict_is_Some `{Countable K} {V} (l : list (K * V)) (k : K) :
  k ∈ l.*1 -> is_Some (py_dict l !! k).
Proof.
  unfold py_dict.
  assert (forall m : gmap K V,
    is_Some (m !! k) \/ k ∈ l.*1 ->
    is_Some (foldl (fun m kv => <[kv.1 := kv.2]> m) m l !! k)) as Hgen.
  { induction l as [|[k' v'] l IH]; intros m Hm; simpl in *.
    - destruct Hm as [Hm|Hm]; [done|]. by apply elem_of_nil in Hm.
    - apply IH. destruct Hm as [Hm|Hm].
      + left. rewrite lookup_insert_is_Some. destruct (decide (k' = k)); auto.
      + apply elem_of_cons in Hm as [->|Hm]; [|by right].
        left. rewrite lookup_insert_eq. by eexists. }
  intros Hk. apply Hgen. by right.
Qed.

Lemma stats_dict_lookup acts n p d :
  stats_dict acts !! n = Some (p, d) -> (n, p, d) ∈ acts.
Proof.
  intros H. apply py_dict_lookup, list_elem_of_fmap in H as ([[n' p'] d'] & Heq & Hin).
  by injection Heq as -> -> ->.
Qed.

Lemma stats_dict_names acts n :
  n ∈ dom (stats_dict acts) <-> n ∈ (fun '(n, _, _) => n) <$> acts.
Proof.
  rewrite elem_of_dom. split.
  - intros [[p d] H]. apply stats_dict_lookup in H.
    apply list_elem_of_fmap. by exists (n, p, d).
  - intros H. apply py_dict_is_Some. rewrite <- list_fmap_compose.
    apply list_elem_of_fmap in H as ([[n' p] d] & -> & Hin).
    apply list_elem_of_fmap. by exists (n', p, d).
Qed.

Lemma mapM_result {A B} (f : A -> result B) (l : list A) :
  (forall x, x ∈ l -> exists y, f x = Ok y) ->
  exists ys, mapM f l = Ok ys /\ Forall2 (fun x y => f x = Ok y) l ys.
Proof.
  induction l as [|x l IH]; intros Hl.
  - exists []. split; [done|constructor].
  - destruct (Hl x) as [y Hy]; [apply list_elem_of_here|].
    destruct IH as (ys & Hys & Hall).
    { intros z Hz. apply Hl. by apply list_elem_of_further. }
    exists (y :: ys). split; [|by constructor].
    simpl. rewrite Hy. simpl. by rewrite Hys.
Qed.

Section table_row.
Context (acts7 acts30 : list (pystr * Z * Z)).
Hypothesis names_agree :
  (fun '(n, _, _) => n) <$> acts7 = (fun '(n, _, _) => n) <$> acts30.
Hypothesis bounds7 :
  forall n p d, (n, p, d) ∈ acts7 -> 0 <= d <= p /\ p <= 39.
Hypothesis bounds30 :
  forall n p d, (n, p, d) ∈ acts30 -> 0 <= d <= p /\ p <= 39.


Lemma stats_table_row_ok (n : pystr) :
  n ∈ dom (stats_dict acts30) ∪ dom (stats_dict acts7) ->
  exists r, stats_table_row (stats_dict acts7) (stats_dict acts30) n = Ok r
            /\ r_name r = n /\ row_ok acts7 acts30 r.
Proof.
  intros Hn.
  assert (n ∈ dom (stats_dict acts7) /\ n ∈ dom (stats_dict acts30)) as [H7 H30].
  { rewrite !stats_dict_names, names_agree. rewrite elem_of_union in Hn.
    rewrite !stats_dict_names, names_agree in Hn. tauto. }
  apply elem_of_dom in H7 as [[p7 d7] H7], H30 as [[p30 d30] H30].
  unfold stats_table_row. rewrite H7, H30. simpl.
  apply stats_dict_lookup in H7, H30.
  destruct (bounds7 _ _ _ H7) as [Hd7 Hp7], (bounds30 _ _ _ H30) as [Hd30 Hp30].
  rewrite !percent_small by done. simpl.
  eexists. split; [done|]. split; [done|]. unfold row_ok. simpl.
  split; [done|]. split; [done|]. split; [done|]. split; [done|].
  split; intros ->; (split; [lia|done]).
Qed.
End table_row.

Lemma activity_names_listed (s : db) (a : activity) :
  a ∈ activities s ->
  a_name a ∈ (fun '(_, n, _, _) => n) <$> db_list_activities s.
Proof.
  intros Ha. unfold db_list_activities. rewrite <- list_fmap_compose.
  apply list_elem_of_fmap. exists a. split; [done|].
  by rewrite merge_sort_Permutation.
Qed.

(** The table of [load_data] is computed without error and has a row
    for every activity; in each row, for the 7-day and for the 30-day
    window, the planned and done counts are those of
    [_calc_range_stats], and the percentage is exact. *)
Lemma table_acts_rows (lower : pystr -> pystr) (s : db) (today : date) :
  let acts7 := (_calc_range_stats s (today - 6) today).1 in
  let acts30 := (_calc_range_stats s (today - 29) today).1 in
  exists rows,
    load_data_table_acts lower s today = Ok rows
    /\ (forall a, a ∈ activities s -> exists r, r ∈ rows /\ r_name r = a_name a)
    /\ (forall r, r ∈ rows ->
          (r_name r, r_p7 r, r_d7 r) ∈ acts7
          /\ (r_name r, r_p30 r, r_d30 r) ∈ acts30
          /\ r_pct7 r = spec_percent (r_d7 r) (r_p7 r)
          /\ r_pct30 r = spec_percent (r_d30 r) (r_p30 r)
          /\ (r_p7 r = 0 -> r_d7 r = 0 /\ r_pct7 r = 0)
          /\ (r_p30 r = 0 -> r_d30 r = 0 /\ r_pct30 r = 0)).
Proof.
  intros acts7 acts30. unfold load_data_table_acts.
  pose proof (calc_range_stats_inv s (today - 6) today) as H7.
  pose proof (calc_range_stats_inv s (today - 29) today) as H30.
  subst acts7 acts30.
  destruct (_calc_range_stats s (today - 6) today) as [acts7 dd7].
  destruct (_calc_range_stats s (today - 29) today) as [acts30 dd30].
  destruct H7 as (Hn7 & Hb7 & _), H30 as (Hn30 & Hb30 & _). simpl.
  assert (Hnames : (fun '(n, _, _) => n) <$> acts7
                   = (fun '(n, _, _) => n) <$> acts30) by congruence.
  assert (Hb7' : forall n p d, (n, p, d) ∈ acts7 -> 0 <= d <= p /\ p <= 39).
  { intros n p d Hin. specialize (Hb7 n p d Hin). lia. }
  assert (Hb30' : forall n p d, (n, p, d) ∈ acts30 -> 0 <= d <= p /\ p <= 39).
  { intros n p d Hin. specialize (Hb30 n p d Hin). lia. }
  set (names := merge_sort _ _).
  assert (Hin_names : forall n, n ∈ names <->
            n ∈ dom (stats_dict acts30) ∪ dom (stats_dict acts7)).
  { intros n. unfold names. rewrite merge_sort_Permutation.
    apply elem_of_elements. }
  destruct (mapM_result (stats_table_row (stats_dict acts7) (stats_dict acts30))
              names) as (rows & Hrows & Hall).
  { intros n Hn. apply Hin_names in Hn.
    destruct (stats_table_row_ok acts7 acts30 Hnames Hb7' Hb30' n Hn)
      as (r & Hr & _). eauto. }
  exists rows. split; [done|]. split.
  - intros a Ha.
    assert (a_name a ∈ names) as Hn.
    { apply Hin_names, elem_of_union. left.
      apply stats_dict_names. rewrite Hn30. by apply activity_names_listed. }
    apply list_elem_of_lookup in Hn as [i Hi].
    destruct (Forall2_lookup_l _ _ _ _ _ Hall Hi) as (r & Hr & Hrow).
    exists r. split; [by eapply list_elem_of_lookup_2|].
    assert (a_name a ∈ names) as Hn' by (by eapply list_elem_of_lookup_2).
    apply Hin_names in Hn'.
    destruct (stats_table_row_ok acts7 acts30 Hnames Hb7' Hb30' _ Hn')
      as (r' & Hr' & Hname & _). congruence.
  - intros r Hr. apply list_elem_of_lookup in Hr as [i Hi].
    destruct (Forall2_lookup_r _ _ _ _ _ Hall Hi) as (n & Hn & Hrow).
    assert (n ∈ names) as Hn' by (by eapply list_elem_of_lookup_2).
    apply Hin_names in Hn'.
    destruct (stats_table_row_ok acts7 acts30 Hnames Hb7' Hb30' _ Hn')
      as (r' & Hr' & Hname & Hok).
    assert (r' = r) as -> by congruence. exact Hok.
Qed.

Example table_acts_store_two_misses :
  load_data_table_acts id store_two_misses 738946
  = Ok [StatsRow (py "Run") 7 3 43 30 3 10].
Proof. vm_compute. reflexivity. Qed.

(** Nothing planned in either window: planned 0, done 0, 0 per cent. *)
Example table_acts_store_idle :
  load_data_table_acts id store_idle 738946
  = Ok [StatsRow (py "Rest") 0 0 0 0 0 0].
Proof. vm_compute. reflexivity. Qed.

(** * Start-up *)

Lemma os_path_join_inj (a b1 b2 : pystr) :
  os_path_join a b1 = os_path_join a b2 -> b1 = b2.
Proof.
  unfold os_path_join. destruct (last a) as [c|]; [|done].
  destruct (c =? 47)%N; intros H.
  - by apply app_inv_head in H.
  - by apply app_inv_head, app_inv_head in H.
Qed.

Lemma bad_path_fresh (DATA_DIR : pystr) (env : environment) :
  bad_path DATA_DIR env <> DB_PATH DATA_DIR.
Proof.
  unfold bad_path, DB_PATH. intros H. apply os_path_join_inj in H.
  simpl in H. discriminate H.
Qed.

(** C3, as the code has it.  When the store file exists and fails the
    check, the archival path is the data directory's
    [questodo_CORRUPTED_<stamp>.db].  If the rename succeeds, the file
    is found there with its contents and no longer under its own path,
    and start-up goes on with a fresh empty store.  If the rename fails
    and the removal succeeds, the file is deleted, and start-up goes on
    with a fresh empty store.  If both fail, the file stays where it
    is, and start-up goes on to open that file: when it is not a
    database (and not empty) [db_init] raises. *)
Theorem corrupt_store_is_archived (DATA_DIR : pystr) (env : environment)
    (fs : gmap pystr file) (f : file) :
  fs !! DB_PATH DATA_DIR = Some f ->
  check_passed (integrity_check env f) = false ->
  let fs' := ensure_db_ok_or_rebuild DATA_DIR env fs in
  bad_path DATA_DIR env
  = os_path_join DATA_DIR
      (py "questodo_CORRUPTED_" ++ strftime_stamp (now env) ++ py ".db")
  /\ (rename_succeeds env = true ->
      fs' = <[bad_path DATA_DIR env := f]> (delete (DB_PATH DATA_DIR) fs)
      /\ fs' !! bad_path DATA_DIR env = Some f
      /\ fs' !! DB_PATH DATA_DIR = None
      /\ startup DATA_DIR env fs
         = Ok (<[DB_PATH DATA_DIR := SqliteFile empty_db]> fs'))
  /\ (rename_succeeds env = false -> remove_succeeds env = true ->
      fs' = delete (DB_PATH DATA_DIR) fs
      /\ startup DATA_DIR env fs
         = Ok (<[DB_PATH DATA_DIR := SqliteFile empty_db]> fs'))
  /\ (rename_succeeds env = false -> remove_succeeds env = false ->
      fs' = fs
      /\ startup DATA_DIR env fs = db_init DATA_DIR fs
      /\ (forall b bytes, f = OtherFile (b :: bytes) ->
            startup DATA_DIR env fs = Raise DatabaseError)).
Proof.
  intros Hf Hbad fs'.
  assert (Hren : rename_succeeds env = true ->
    fs' = <[bad_path DATA_DIR env := f]> (delete (DB_PATH DATA_DIR) fs)).
  { intros Hr. unfold fs', ensure_db_ok_or_rebuild, os_rename.
    by rewrite Hf, Hbad, Hr. }
  assert (Hrem : rename_succeeds env = false -> remove_succeeds env = true ->
    fs' = delete (DB_PATH DATA_DIR) fs).
  { intros Hr Hd. unfold fs', ensure_db_ok_or_rebuild, os_rename, os_remove.
    by rewrite Hf, Hbad, Hr, Hd. }
  assert (Hstay : rename_succeeds env = false -> remove_succeeds env = false ->
    fs' = fs).
  { intros Hr Hd. unfold fs', ensure_db_ok_or_rebuild, os_rename, os_remove.
    by rewrite Hf, Hbad, Hr, Hd. }
  assert (Hgone : rename_succeeds env = true \/ remove_succeeds env = true ->
    fs' !! DB_PATH DATA_DIR = None).
  { intros Hor. destruct (rename_succeeds env) eqn:Hr.
    - rewrite Hren by done.
      rewrite lookup_insert_ne by apply bad_path_fresh. apply lookup_delete_eq.
    - destruct Hor as [?|Hd]; [done|]. rewrite Hrem by done.
      apply lookup_delete_eq. }
  assert (Hfresh : rename_succeeds env = true \/ remove_succeeds env = true ->
    startup DATA_DIR env fs
    = Ok (<[DB_PATH DATA_DIR := SqliteFile empty_db]> fs')).
  { intros Hor. unfold startup, db_init. fold fs'. by rewrite (Hgone Hor). }
  split; [done|]. split; [|split].
  - intros Hr. split; [by apply Hren|]. split; [|split].
    + rewrite Hren by done. apply lookup_insert_eq.
    + apply Hgone. by left.
    + apply Hfresh. by left.
  - intros Hr Hd. split; [by apply Hrem|]. apply Hfresh. by right.
  - intros Hr Hd. split; [by apply Hstay|].
    assert (startup DATA_DIR env fs = db_init DATA_DIR fs) as Hs.
    { unfold startup. fold fs'. by rewrite Hstay. }
    split; [done|]. intros b bytes ->. rewrite Hs. unfold db_init.
    by rewrite Hf.
Qed.

Lemma corrupt_store_is_archived_witness :
  ensure_db_ok_or_rebuild (py "/data") env_rename_allowed fs_corrupt
    !! py "/data/questodo_CORRUPTED_20240301_090507.db"
  = Some (OtherFile [1; 2; 3]%N).
Proof.
  destruct (corrupt_store_is_archived (py "/data") env_rename_allowed
              fs_corrupt (OtherFile [1; 2; 3]%N)) as (_ & H & _).
  - apply lookup_singleton_eq.
  - reflexivity.
  - apply H. reflexivity.
Defined.

(** Neither the rename nor the removal is allowed: the file is still
    there and the application does not start. *)
Example corrupt_store_stays :
  ensure_db_ok_or_rebuild (py "/data") env_both_refused fs_corrupt = fs_corrupt
  /\ startup (py "/data") env_both_refused fs_corrupt = Raise DatabaseError.
Proof.
  assert (ensure_db_ok_or_rebuild (py "/data") env_both_refused fs_corrupt
          = fs_corrupt) as H.
  { unfold ensure_db_ok_or_rebuild, fs_corrupt.
    rewrite lookup_singleton_eq. simpl.
    unfold os_rename, os_remove. by rewrite lookup_singleton_eq. }
  split; [done|]. unfold startup. rewrite H. unfold db_init, fs_corrupt.
  by rewrite lookup_singleton_eq.
Qed.

(** C3 as stated fails: when the rename is refused the file is removed
    and nothing of it is left in the data directory. *)
Lemma corrupt_store_removed :
  fs_corrupt !! DB_PATH (py "/data") = Some (OtherFile [1; 2; 3]%N)
  /\ check_passed (integrity_check env_rename_refused (OtherFile [1; 2; 3]%N))
     = false
  /\ ensure_db_ok_or_rebuild (py "/data") env_rename_refused fs_corrupt = ∅.
Proof.
  split; [apply lookup_singleton_eq|]. split; [done|].
  unfold ensure_db_ok_or_rebuild, fs_corrupt.
  rewrite lookup_singleton_eq. simpl.
  unfold os_rename, os_remove. rewrite lookup_singleton_eq. simpl.
  apply delete_singleton_eq.
Qed.

(** * More on the store *)

(** ** Point lookups in the completions *)

Lemma db_get_done_find (aid : Z) (day : pystr) (s : db) :
  (exists c, c ∈ completions s /\ completion_at aid day c = true
             /\ db_get_done aid day s = c_done c)
  \/ ((forall c, c ∈ completions s -> completion_at aid day c = false)
      /\ db_get_done aid day s = 0).
Proof.
  unfold db_get_done.
  destruct (List.find _ _) as [c|] eqn:Hf.
  - left. apply find_some in Hf as [Hin Hc]. exists c.
    split; [by apply list_elem_of_In|done].
  - right. split; [|done]. intros c Hc.
    apply (find_none _ _ Hf). by apply list_elem_of_In.
Qed.

Lemma completion_at_true (aid : Z) (day : pystr) (c : completion) :
  completion_at aid day c = true <-> c_activity_id c = aid /\ c_day c = day.
Proof.
  unfold completion_at. rewrite andb_true_iff, Z.eqb_eq, bool_decide_eq_true.
  done.
Qed.

Lemma completion_at_false (aid : Z) (day : pystr) (c : completion) :
  completion_at aid day c = false <-> (c_activity_id c, c_day c) <> (aid, day).
Proof.
  rewrite <- not_true_iff_false, completion_at_true. split.
  - intros H Heq. apply H. by injection Heq.
  - intros H [? ?]. apply H. congruence.
Qed.

Lemma find_ext_in {A} (p q : A -> bool) (l : list A) :
  (forall x, x ∈ l -> p x = q x) -> List.find p l = List.find q l.
Proof.
  induction l as [|x l IH]; intros H; [done|]. simpl.
  rewrite <- (H x) by apply list_elem_of_here.
  destruct (p x); [done|]. apply IH. intros y Hy. apply H.
  by apply list_elem_of_further.
Qed.

Lemma find_fmap_same {A} (p : A -> bool) (f : A -> A) (l : list A) :
  (forall x, p (f x) = p x) -> List.find p (f <$> l) = f <$> List.find p l.
Proof.
  intros H. induction l as [|x l IH]; [done|]. simpl. rewrite H.
  by destruct (p x).
Qed.

Lemma find_app_none {A} (p : A -> bool) (l1 l2 : list A) :
  List.find p l1 = None -> List.find p (l1 ++ l2) = List.find p l2.
Proof.
  induction l1 as [|x l1 IH]; [done|]. simpl. by destruct (p x).
Qed.

Lemma find_app_some {A} (p : A -> bool) (l1 l2 : list A) (x : A) :
  List.find p l1 = Some x -> List.find p (l1 ++ l2) = Some x.
Proof.
  induction l1 as [|y l1 IH]; [done|]. simpl. by destruct (p y).
Qed.

Lemma find_filter_keeps {A} (p : A -> bool) (Q : A -> Prop)
    `{forall x, Decision (Q x)} (l : list A) :
  (forall x, x ∈ l -> p x = true -> Q x) ->
  List.find p (filter Q l) = List.find p l.
Proof.
  induction l as [|x l IH]; intros HQ; [done|].
  assert (forall y, y ∈ l -> p y = true -> Q y) as HQ'.
  { intros y Hy. apply HQ. by apply list_elem_of_further. }
  rewrite filter_cons. simpl. destruct (p x) eqn:Hp.
  - rewrite decide_True by (apply HQ; [apply list_elem_of_here|done]).
    simpl. by rewrite Hp.
  - case_decide; simpl; [rewrite Hp|]; by apply IH.
Qed.


Lemma put_row_at (aid : Z) (day : pystr) (done : Z) (aid' : Z) (day' : pystr)
    (c : completion) :
  completion_at aid' day' (put_row aid day done c) = completion_at aid' day' c.
Proof.
  unfold put_row. destruct (completion_at aid day c) eqn:Hc; [|done].
  apply completion_at_true in Hc as [<- <-]. done.
Qed.

Lemma put_row_key (aid : Z) (day : pystr) (done : Z) (c : completion) :
  (c_activity_id (put_row aid day done c), c_day (put_row aid day done c))
  = (c_activity_id c, c_day c).
Proof.
  unfold put_row. destruct (completion_at aid day c) eqn:Hc; [|done].
  apply completion_at_true in Hc as [<- <-]. done.
Qed.

Lemma check_fits (x : Z) : check_in_0_1 x = true -> fits_int64 x = true.
Proof.
  unfold check_in_0_1, fits_int64. intros H.
  apply orb_true_iff in H as [H|H]; apply Z.eqb_eq in H as ->; reflexivity.
Qed.

Lemma db_set_done_overflow (aid : Z) (day : pystr) (done : Z) (s : db) :
  fits_int64 aid && fits_int64 done = false ->
  db_set_done aid day done s = (Raise OverflowError, s).
Proof. intros H. unfold db_set_done. by rewrite H. Qed.

Lemma db_set_done_ok (aid : Z) (day : pystr) (done : Z) (s : db) :
  fits_int64 aid = true ->
  activity_exists aid s = true -> check_in_0_1 done = true ->
  db_set_done aid day done s
  = (Ok (),
     Db (activities s)
        (if existsb (completion_at aid day) (completions s)
         then put_row aid day done <$> completions s
         else completions s ++ [Completion aid day done])
        (sqlite_sequence s)).
Proof.
  intros Hfit Hex Hck. unfold db_set_done.
  rewrite Hfit, (check_fits done Hck), Hex, Hck. simpl.
  by destruct (existsb _ _).
Qed.

Lemma db_get_done_set_same (aid : Z) (day : pystr) (done : Z) (s : db) :
  fits_int64 aid = true ->
  activity_exists aid s = true -> check_in_0_1 done = true ->
  db_get_done aid day (db_set_done aid day done s).2 = done.
Proof.
  intros Hfit Hex Hck. rewrite db_set_done_ok by done. unfold db_get_done. simpl.
  destruct (existsb (completion_at aid day) (completions s)) eqn:He.
  - rewrite find_fmap_same by (intros c; apply put_row_at).
    apply existsb_elem_of in He as (c & Hc & Hat).
    destruct (List.find _ (completions s)) as [c'|] eqn:Hf.
    + apply find_some in Hf as [_ Hat']. simpl. unfold put_row.
      by rewrite Hat'.
    + apply list_elem_of_In in Hc. by rewrite (find_none _ _ Hf c Hc) in Hat.
  - assert (List.find (completion_at aid day) (completions s) = None) as Hnone.
    { destruct (List.find _ _) as [c|] eqn:Hf; [|done].
      apply find_some in Hf as [Hin Hat]. apply list_elem_of_In in Hin.
      by rewrite (proj1 (existsb_false_elem_of _ _) He c Hin) in Hat. }
    rewrite find_app_none by done. simpl. unfold completion_at. simpl.
    by rewrite Z.eqb_refl, bool_decide_eq_true_2.
Qed.

Lemma db_get_done_set_other (aid : Z) (day : pystr) (done : Z) (s : db)
    (aid' : Z) (day' : pystr) :
  (aid', day') <> (aid, day) ->
  db_get_done aid' day' (db_set_done aid day done s).2
  = db_get_done aid' day' s.
Proof.
  intros Hne. unfold db_set_done.
  destruct (negb (_ && _)); [done|].
  destruct (negb (check_in_0_1 done)); [done|].
  destruct (negb (activity_exists aid s)); [done|].
  unfold db_get_done.
  destruct (existsb (completion_at aid day) (completions s)) eqn:He; simpl.
  - change (fun c => if completion_at aid day c
                     then Completion aid day done else c)
      with (put_row aid day done).
    rewrite find_fmap_same by (intros c; apply put_row_at).
    destruct (List.find _ (completions s)) as [c'|] eqn:Hf; [|done].
    apply find_some in Hf as [_ Hat']. simpl. unfold put_row.
    destruct (completion_at aid day c') eqn:Hat; [|done].
    apply completion_at_true in Hat as [? ?], Hat' as [? ?].
    destruct Hne. congruence.
  - destruct (List.find (completion_at aid' day') (completions s))
      as [c'|] eqn:Hf.
    + by rewrite (find_app_some _ _ _ _ Hf).
    + rewrite find_app_none by done. simpl.
      assert (completion_at aid' day' (Completion aid day done) = false)
        as ->; [|done].
      apply completion_at_false. simpl. congruence.
Qed.

Lemma db_set_done_activities (aid : Z) (day : pystr) (done : Z) (s : db) :
  activities (db_set_done aid day done s).2 = activities s.
Proof.
  unfold db_set_done. destruct (negb _); [done|]. destruct (negb _); [done|].
  destruct (negb _); [done|]. by destruct (existsb _ _).
Qed.

(** X1.  What [db_set_done] stores is what [db_get_done] reads back, and no
    other pair of activity and day is affected.  The id is that of a
    stored activity, hence a SQLite INTEGER. *)
Theorem set_done_get_done (aid : Z) (day : pystr) (done : Z) (s : db) :
  activity_exists aid s = true -> fits_int64 aid = true ->
  check_in_0_1 done = true ->
  exists s',
    db_set_done aid day done s = (Ok (), s')
    /\ activities s' = activities s
    /\ db_get_done aid day s' = done
    /\ forall aid' day', (aid', day') <> (aid, day) ->
         db_get_done aid' day' s' = db_get_done aid' day' s.
Proof.
  intros Hex Hfit Hck.
  pose proof (db_get_done_set_same aid day done s Hfit Hex Hck) as Hsame.
  pose proof (db_get_done_set_other aid day done s) as Hother.
  pose proof (db_set_done_activities aid day done s) as Hacts.
  rewrite db_set_done_ok in Hsame, Hother, Hacts |- * by done.
  eexists. split; [reflexivity|]. split; [done|]. split; [done|].
  intros aid' day' Hne. by apply Hother.
Qed.

Lemma set_done_get_done_witness :
  exists s',
    db_set_done 2 (py "2024-03-02") 1 store_optional = (Ok (), s')
    /\ activities s' = activities store_optional
    /\ db_get_done 2 (py "2024-03-02") s' = 1
    /\ forall aid' day', (aid', day') <> (2, py "2024-03-02") ->
         db_get_done aid' day' s' = db_get_done aid' day' store_optional.
Proof.
  apply (set_done_get_done 2 (py "2024-03-02") 1 store_optional); reflexivity.
Defined.

(** X2.  [db_set_done] succeeds only for an id and a value that fit a SQLite
    INTEGER, a value that is 0 or 1 and an id that a stored activity
    has.  An id or a value beyond the signed 64-bit range raises
    [OverflowError]; within the range, a value other than 0 and 1 (the
    CHECK) or an id that no activity has (the foreign key) raises
    [IntegrityError]; whenever the call raises, the store is left as it
    was. *)
Theorem set_done_rejects (aid : Z) (day : pystr) (done : Z) (s : db) :
  (fits_int64 aid && fits_int64 done = false ->
   db_set_done aid day done s = (Raise OverflowError, s))
  /\ (fits_int64 aid && fits_int64 done = true ->
      check_in_0_1 done = false
      \/ (forall a, a ∈ activities s -> a_id a <> aid) ->
      db_set_done aid day done s = (Raise IntegrityError, s))
  /\ (forall r s', db_set_done aid day done s = (Ok r, s') ->
        fits_int64 aid = true /\ check_in_0_1 done = true
        /\ exists a, a ∈ activities s /\ a_id a = aid)
  /\ (forall e s', db_set_done aid day done s = (Raise e, s') -> s' = s).
Proof.
  split; [apply db_set_done_overflow|]. split; [|split].
  - intros Hfit [Hck|Hid]; unfold db_set_done; rewrite Hfit; simpl.
    + by rewrite Hck.
    + destruct (check_in_0_1 done); [|done]. simpl.
      by rewrite (activity_exists_false _ _ Hid).
  - intros r s'. unfold db_set_done.
    destruct (fits_int64 aid); [|done]. simpl.
    destruct (fits_int64 done); [|done]. simpl.
    destruct (check_in_0_1 done); [|done]. simpl.
    destruct (activity_exists aid s) eqn:Hex; [|done]. intros _.
    split; [done|]. split; [done|]. by apply activity_exists_true.
  - intros e s'. unfold db_set_done.
    destruct (negb (_ && _)); [congruence|].
    destruct (negb (check_in_0_1 done)); [congruence|].
    destruct (negb (activity_exists aid s)); [congruence|].
    by destruct (existsb _ _).
Qed.

Lemma set_done_rejects_witness :
  db_set_done (2 ^ 63) (py "2024-03-02") 1 store_optional
  = (Raise OverflowError, store_optional)
  /\ db_set_done 9 (py "2024-03-02") 1 store_optional
     = (Raise IntegrityError, store_optional)
  /\ db_set_done 1 (py "2024-03-02") 2 store_optional
     = (Raise IntegrityError, store_optional).
Proof.
  destruct (set_done_rejects (2 ^ 63) (py "2024-03-02") 1 store_optional)
    as (Hover & _).
  destruct (set_done_rejects 9 (py "2024-03-02") 1 store_optional)
    as (_ & Hfk & _).
  destruct (set_done_rejects 1 (py "2024-03-02") 2 store_optional)
    as (_ & Hck & _).
  split; [by apply Hover|]. split.
  - apply Hfk; [done|]. right. intros a Ha.
    repeat (apply elem_of_cons in Ha as [-> | Ha]; [discriminate|]).
    by apply elem_of_nil in Ha.
  - apply Hck; [done|]. by left.
Defined.

Lemma put_row_put_row (aid : Z) (day : pystr) (done1 done2 : Z)
    (l : list completion) :
  put_row aid day done2 <$> (put_row aid day done1 <$> l)
  = put_row aid day done2 <$> l.
Proof.
  rewrite <- list_fmap_compose. apply list_fmap_ext. intros i c _. simpl.
  unfold put_row at 2. destruct (completion_at aid day c) eqn:Hc.
  - unfold put_row. rewrite Hc.
    assert (completion_at aid day (Completion aid day done1) = true) as ->;
      [|done].
    by apply completion_at_true.
  - unfold put_row. by rewrite Hc.
Qed.

Lemma put_row_absent (aid : Z) (day : pystr) (done : Z) (l : list completion) :
  existsb (completion_at aid day) l = false -> put_row aid day done <$> l = l.
Proof.
  intros He. rewrite <- (list_fmap_id l) at 2. apply list_fmap_ext.
  intros i c Hc. unfold put_row.
  rewrite (proj1 (existsb_false_elem_of _ _) He c); [done|].
  by eapply list_elem_of_lookup_2.
Qed.

(** X3.  The last write wins: setting a day twice leaves the store that
    the second call alone leaves; in particular repeating a call
    changes nothing. *)
Theorem set_done_overwrites (aid : Z) (day : pystr) (done1 done2 : Z)
    (s : db) :
  activity_exists aid s = true ->
  check_in_0_1 done1 = true -> check_in_0_1 done2 = true ->
  db_set_done aid day done2 (db_set_done aid day done1 s).2
  = db_set_done aid day done2 s.
Proof.
  intros Hex H1 H2. destruct (fits_int64 aid) eqn:Hfit.
  2: { rewrite (db_set_done_overflow aid day done1 s); [done|].
       by rewrite Hfit. }
  rewrite (db_set_done_ok aid day done1 s Hfit Hex H1). simpl.
  rewrite !db_set_done_ok by done. simpl. do 2 f_equal.
  destruct (existsb (completion_at aid day) (completions s)) eqn:He.
  - assert (existsb (completion_at aid day)
              (put_row aid day done1 <$> completions s) = true) as ->.
    { apply existsb_elem_of in He as (c & Hc & Hat).
      apply existsb_elem_of. exists (put_row aid day done1 c).
      split; [by apply list_elem_of_fmap_2|]. by rewrite put_row_at. }
    apply put_row_put_row.
  - assert (existsb (completion_at aid day)
              (completions s ++ [Completion aid day done1]) = true) as ->.
    { apply existsb_elem_of. exists (Completion aid day done1).
      split; [apply elem_of_app; right; apply list_elem_of_here|].
      by apply completion_at_true. }
    rewrite fmap_app, put_row_absent by done. simpl. unfold put_row.
    assert (completion_at aid day (Completion aid day done1) = true) as ->;
      [|done].
    by apply completion_at_true.
Qed.

Lemma set_done_overwrites_witness :
  db_set_done 1 (py "2024-03-01") 0
    (db_set_done 1 (py "2024-03-01") 1 store_optional).2
  = db_set_done 1 (py "2024-03-01") 0 store_optional.
Proof.
  apply (set_done_overwrites 1 (py "2024-03-01") 1 0 store_optional);
    reflexivity.
Defined.

(** ** The bulk map and the point lookup *)

Lemma py_dict_absent `{Countable K} {V} (l : list (K * V)) (k : K) :
  k ∉ l.*1 -> py_dict l !! k = None.
Proof.
  intros Hk. destruct (py_dict l !! k) as [v|] eqn:Hl; [|done].
  apply py_dict_lookup in Hl. destruct Hk.
  apply list_elem_of_fmap. by exists (k, v).
Qed.

Lemma py_dict_present `{Countable K} {V} (l : list (K * V)) (k : K) (v : V) :
  NoDup l.*1 -> (k, v) ∈ l -> py_dict l !! k = Some v.
Proof.
  unfold py_dict.
  assert (forall m : gmap K V, k ∉ l.*1 ->
    foldl (fun m kv => <[kv.1 := kv.2]> m) m l !! k = m !! k) as Hskip.
  { induction l as [|[k' v'] l IH]; intros m Hk; [done|]. simpl in *.
    apply not_elem_of_cons in Hk as [Hne Hk]. rewrite IH by done.
    by rewrite lookup_insert_ne. }
  clear Hskip.
  generalize (∅ : gmap K V).
  induction l as [|[k' v'] l IH]; intros m Hnd Hin; simpl in *.
  - by apply elem_of_nil in Hin.
  - apply NoDup_cons in Hnd as [Hk' Hnd].
    apply elem_of_cons in Hin as [Heq|Hin].
    + injection Heq as <- <-.
      assert (forall m' : gmap K V,
        foldl (fun m kv => <[kv.1 := kv.2]> m) m' l !! k = m' !! k) as Hskip.
      { clear -Hk'. induction l as [|[k0 v0] l IH]; intros m'; [done|].
        simpl in *. apply not_elem_of_cons in Hk' as [Hne Hk'].
        rewrite IH by done. by rewrite lookup_insert_ne. }
      rewrite Hskip. apply lookup_insert_eq.
    + by apply IH.
Qed.

Lemma bulk_done_map_inside (start_iso end_iso : pystr) (s : db)
    (aid : Z) (day : pystr) :
  NoDup ((fun c => (c_activity_id c, c_day c)) <$> completions s) ->
  str_leb start_iso day && str_leb day end_iso = true ->
  default 0 (db_bulk_done_map start_iso end_iso s !! (aid, day))
  = db_get_done aid day s.
Proof.
  intros Hnd Hrange. unfold db_bulk_done_map.
  set (P := fun c : completion =>
              Is_true (str_leb start_iso (c_day c) && str_leb (c_day c) end_iso)).
  set (kv := fun c : completion => ((c_activity_id c, c_day c), c_done c)).
  assert (Hnd' : NoDup (kv <$> filter P (completions s)).*1).
  { rewrite <- list_fmap_compose.
    eapply sublist_NoDup; [exact Hnd|].
    apply fmap_sublist, sublist_filter. }
  destruct (db_get_done_find aid day s) as [(c & Hc & Hat & ->)|[Hno ->]].
  - apply completion_at_true in Hat as [Hid Hday].
    rewrite (py_dict_present _ (aid, day) (c_done c)); [done|done|].
    apply list_elem_of_fmap. exists c. split; [unfold kv; congruence|].
    apply list_elem_of_filter. split; [|done]. unfold P.
    rewrite Hday, Hrange. done.
  - rewrite py_dict_absent; [done|]. rewrite <- list_fmap_compose.
    intros Hin. apply list_elem_of_fmap in Hin as (c & Hk & Hc).
    apply list_elem_of_filter in Hc as [_ Hc]. simpl in Hk.
    specialize (Hno c Hc). apply completion_at_false in Hno. congruence.
Qed.

(** X4.  In a store whose completion keys are unique, the map of
    [db_bulk_done_map] and [db_get_done] agree on every day of the
    range, and the map has no key outside the range. *)
Theorem bulk_done_map_get_done (start_iso end_iso : pystr) (s : db) :
  NoDup ((fun c => (c_activity_id c, c_day c)) <$> completions s) ->
  forall aid day,
    (str_leb start_iso day && str_leb day end_iso = true ->
     default 0 (db_bulk_done_map start_iso end_iso s !! (aid, day))
     = db_get_done aid day s)
    /\ (str_leb start_iso day && str_leb day end_iso = false ->
        db_bulk_done_map start_iso end_iso s !! (aid, day) = None).
Proof.
  intros Hnd aid day. split; [by apply bulk_done_map_inside|].
  unfold db_bulk_done_map.
  set (P := fun c : completion =>
              Is_true (str_leb start_iso (c_day c) && str_leb (c_day c) end_iso)).
  intros Hout. apply py_dict_absent. rewrite <- list_fmap_compose.
  intros Hin. apply list_elem_of_fmap in Hin as (c & Hk & Hc).
  apply list_elem_of_filter in Hc as [HP _]. simpl in Hk.
  injection Hk as _ ->. unfold P in HP. by rewrite Hout in HP.
Qed.

Lemma bulk_done_map_get_done_witness :
  default 0 (db_bulk_done_map (py "2024-03-01") (py "2024-03-07")
               store_two_misses !! (1, py "2024-03-01"))
  = db_get_done 1 (py "2024-03-01") store_two_misses
  /\ db_bulk_done_map (py "2024-03-01") (py "2024-03-07") store_two_misses
       !! (1, py "2024-02-27") = None.
Proof.
  assert (NoDup ((fun c => (c_activity_id c, c_day c))
                   <$> completions store_two_misses)) as Hnd.
  { apply (bool_decide_unpack _). vm_compute. reflexivity. }
  split.
  - apply (proj1 (bulk_done_map_get_done (py "2024-03-01") (py "2024-03-07")
                    store_two_misses Hnd 1 (py "2024-03-01"))).
    reflexivity.
  - apply (proj2 (bulk_done_map_get_done (py "2024-03-01") (py "2024-03-07")
                    store_two_misses Hnd 1 (py "2024-02-27"))).
    reflexivity.
Defined.

(** ** Deleting *)

Lemma filter_all {A} (P : A -> Prop) `{forall x, Decision (P x)} (l : list A) :
  (forall x, x ∈ l -> P x) -> filter P l = l.
Proof.
  induction l as [|x l IH]; intros HP; [done|].
  rewrite filter_cons, decide_True by (apply HP, list_elem_of_here).
  f_equal. apply IH. intros y Hy. by apply HP, list_elem_of_further.
Qed.

Lemma filter_none {A} (P : A -> Prop) `{forall x, Decision (P x)} (l : list A) :
  (forall x, x ∈ l -> ~ P x) -> filter P l = [].
Proof.
  induction l as [|x l IH]; intros HP; [done|].
  rewrite filter_cons, decide_False by (apply HP, list_elem_of_here).
  apply IH. intros y Hy. by apply HP, list_elem_of_further.
Qed.

(** X5.  Deleting an id that no activity has changes nothing; deleting an
    activity leaves the other activities and what [db_get_done] answers
    for them as they were; and with the foreign key in force the
    deleted activity reads as not done on every day. *)
Theorem delete_activity_frame (aid : Z) (s : db) :
  ((forall a, a ∈ activities s -> a_id a <> aid) ->
   db_delete_activity aid s = s)
  /\ (forall b, a_id b <> aid ->
        (b ∈ activities (db_delete_activity aid s) <-> b ∈ activities s))
  /\ (forall aid' day, aid' <> aid ->
        db_get_done aid' day (db_delete_activity aid s)
        = db_get_done aid' day s)
  /\ (fk_ok s -> forall day, db_get_done aid day (db_delete_activity aid s) = 0).
Proof.
  split; [|split; [|split]].
  - intros Hid. unfold db_delete_activity.
    rewrite (filter_none (fun a => a_id a = aid)) by done. simpl.
    rewrite (filter_all (fun a => a_id a <> aid)) by done.
    rewrite filter_all; [apply db_eta|].
    intros c _ Hin. by apply elem_of_nil in Hin.
  - intros b Hb. simpl. rewrite list_elem_of_filter. tauto.
  - intros aid' day Hne. unfold db_get_done. simpl.
    rewrite find_filter_keeps; [done|].
    intros c _ Hat Hin. apply completion_at_true in Hat as [Hid _].
    apply list_elem_of_fmap in Hin as (a & Ha & Hf).
    apply list_elem_of_filter in Hf as [Hf _]. congruence.
  - intros Hfk day.
    destruct (db_get_done_find aid day (db_delete_activity aid s))
      as [(c & Hc & Hat & _)|[_ H0]]; [|done].
    apply completion_at_true in Hat as [Hid _].
    by destruct (completions_after_delete s aid c Hfk Hc).
Qed.

(** ** Adding and renaming *)

Lemma sql_max_ge (l : list Z) (x : Z) :
  x ∈ l -> exists m, sql_max l = Some m /\ x <= m.
Proof.
  destruct l as [|y l]; intros Hx; [by apply elem_of_nil in Hx|].
  simpl. eexists. split; [done|].
  destruct (foldl_max_spec l y) as (Hy & Hall & _).
  apply elem_of_cons in Hx as [->|Hx]; [done|by apply Hall].
Qed.

Lemma sql_max_default_ge (l : list Z) (x : Z) :
  x ∈ l -> x <= default 0 (sql_max l).
Proof. intros Hx. by destruct (sql_max_ge l x Hx) as (m & -> & Hm). Qed.

Lemma name_taken_false (name : pystr) (rows : list activity) :
  (forall a, a ∈ rows -> a_name a <> name) -> name_taken name rows = false.
Proof.
  intros H. apply existsb_false_elem_of. intros a Ha.
  by apply bool_decide_eq_false_2, H.
Qed.

Lemma db_add_activity_ok (s : db) (name : option pystr) :
  strip (or_empty name) <> [] ->
  (forall a, a ∈ activities s -> a_name a <> strip (or_empty name)) ->
  db_add_activity name s
  = (Ok (true, py ""),
     Db (activities s
           ++ [Activity
                 (Z.max (sqlite_sequence s)
                        (default 0 (sql_max (a_id <$> activities s))) + 1)
                 (strip (or_empty name)) 0 full_week_mask
                 (default 0 (sql_max (a_sort_order <$> activities s)) + 1)])
        (completions s)
        (Z.max (sqlite_sequence s)
               (default 0 (sql_max (a_id <$> activities s))) + 1)).
Proof.
  intros Hne Hfree. unfold db_add_activity.
  destruct (str_truthy (strip (or_empty name))) eqn:Ht.
  2: { by apply str_truthy_false in Ht. }
  simpl. unfold sql_insert_activity. by rewrite (name_taken_false _ _ Hfree).
Qed.

(** X6.  Adding a name that is not empty once trimmed and that no stored
    activity bears succeeds: the store gains one activity with the
    trimmed name, not mandatory, planned on all seven days, with a sort
    order one above the largest (1 in an empty table) and an id above
    every stored id and above the sequence counter; and, with the
    foreign key in force, the new activity reads as not done on every
    day. *)
Theorem add_activity_inserts (s : db) (name : option pystr) :
  strip (or_empty name) <> [] ->
  (forall a, a ∈ activities s -> a_name a <> strip (or_empty name)) ->
  exists new,
    db_add_activity name s
    = (Ok (true, py ""),
       Db (activities s ++ [new]) (completions s) (a_id new))
    /\ a_name new = strip (or_empty name)
    /\ a_mandatory new = 0
    /\ a_days_mask new = 127
    /\ a_sort_order new
       = default 0 (sql_max (a_sort_order <$> activities s)) + 1
    /\ (activities s = [] -> a_sort_order new = 1)
    /\ (forall a, a ∈ activities s ->
          a_id a < a_id new /\ a_sort_order a < a_sort_order new)
    /\ sqlite_sequence s < a_id new
    /\ (fk_ok s -> forall day,
          db_get_done (a_id new) day
            (Db (activities s ++ [new]) (completions s) (a_id new)) = 0).
Proof.
  intros Hne Hfree. rewrite db_add_activity_ok by done.
  exists (Activity
            (Z.max (sqlite_sequence s)
                   (default 0 (sql_max (a_id <$> activities s))) + 1)
            (strip (or_empty name)) 0 full_week_mask
            (default 0 (sql_max (a_sort_order <$> activities s)) + 1)).
  split; [reflexivity|]. simpl.
  split; [done|]. split; [done|]. split; [done|]. split; [done|].
  split; [by intros ->|]. split; [|split; [lia|]].
  - intros a Ha. split.
    + assert (a_id a <= default 0 (sql_max (a_id <$> activities s))); [|lia].
      apply sql_max_default_ge. by apply list_elem_of_fmap_2.
    + assert (a_sort_order a
              <= default 0 (sql_max (a_sort_order <$> activities s))); [|lia].
      apply sql_max_default_ge. by apply list_elem_of_fmap_2.
  - intros Hfk day.
    match goal with |- db_get_done ?i _ ?s' = _ =>
      destruct (db_get_done_find i day s') as [(c & Hc & Hat & _)|[_ H0]]
    end; [|done].
    simpl in Hc. apply completion_at_true in Hat as [Hid _].
    destruct (proj1 (activity_exists_true _ _) (Hfk c Hc)) as (a & Ha & Haid).
    assert (a_id a <= default 0 (sql_max (a_id <$> activities s))); [|lia].
    apply sql_max_default_ge. by apply list_elem_of_fmap_2.
Qed.

Lemma add_activity_inserts_witness :
  exists new,
    db_add_activity (Some (py " Swim ")) store_optional
    = (Ok (true, py ""),
       Db (activities store_optional ++ [new]) (completions store_optional)
          (a_id new))
    /\ a_name new = strip (or_empty (Some (py " Swim ")))
    /\ a_mandatory new = 0
    /\ a_days_mask new = 127
    /\ a_sort_order new
       = default 0 (sql_max (a_sort_order <$> activities store_optional)) + 1
    /\ (activities store_optional = [] -> a_sort_order new = 1)
    /\ (forall a, a ∈ activities store_optional ->
          a_id a < a_id new /\ a_sort_order a < a_sort_order new)
    /\ sqlite_sequence store_optional < a_id new
    /\ (fk_ok store_optional -> forall day,
          db_get_done (a_id new) day
            (Db (activities store_optional ++ [new])
                (completions store_optional) (a_id new)) = 0).
Proof.
  apply (add_activity_inserts store_optional (Some (py " Swim "))).
  - discriminate.
  - intros a Ha.
    repeat (apply elem_of_cons in Ha as [-> | Ha]; [discriminate|]).
    by apply elem_of_nil in Ha.
Defined.

Example add_activity_swim :
  db_add_activity (Some (py " Swim ")) store_optional
  = (Ok (true, py ""),
     Db (activities store_optional ++ [Activity 3 (py "Swim") 0 127 3])
        (completions store_optional) 3).
Proof. vm_compute. reflexivity. Qed.

(** X7.  Renaming fails with "empty" on a name that is empty once trimmed,
    whatever the id, and with "exists" when the activity is stored (its
    id a SQLite INTEGER) and another activity bears the trimmed name;
    both leave the store alone. *)
Theorem rename_activity_rejects (s : db) (aid : Z) (new_name : option pystr) :
  (strip (or_empty new_name) = [] ->
   db_rename_activity aid new_name s = (Ok (false, py "empty"), s))
  /\ (forall a b,
        a ∈ activities s -> a_id a = aid -> fits_int64 aid = true ->
        b ∈ activities s -> a_id b <> aid ->
        a_name b = strip (or_empty new_name) ->
        strip (or_empty new_name) <> [] ->
        db_rename_activity aid new_name s = (Ok (false, py "exists"), s)).
Proof.
  split.
  - intros He. unfold db_rename_activity. by rewrite He.
  - intros a b Ha Haid Hfit Hb Hbid Hname Hne. unfold db_rename_activity.
    destruct (str_truthy (strip (or_empty new_name))) eqn:Ht.
    2: { by apply str_truthy_false in Ht. }
    rewrite Hfit. simpl. unfold sql_update_name.
    rewrite (proj2 (activity_exists_true aid s)) by eauto. simpl.
    assert (existsb (fun b => negb (a_id b =? aid)
                              && bool_decide (a_name b = strip (or_empty new_name)))
                    (activities s) = true) as ->; [|done].
    apply existsb_elem_of. exists b. split; [done|].
    rewrite bool_decide_eq_true_2 by done.
    by destruct (Z.eqb_spec (a_id b) aid).
Qed.

Lemma rename_activity_rejects_witness :
  db_rename_activity 1 (Some (py "  ")) store_optional
  = (Ok (false, py "empty"), store_optional)
  /\ db_rename_activity 1 (Some (py " Read")) store_optional
     = (Ok (false, py "exists"), store_optional).
Proof.
  split.
  - apply (proj1 (rename_activity_rejects store_optional 1 (Some (py "  ")))).
    reflexivity.
  - apply (proj2 (rename_activity_rejects store_optional 1 (Some (py " Read")))
                 (Activity 1 (py "Run") 0 127 1) (Activity 2 (py "Read") 0 21 2)).
    + apply list_elem_of_here.
    + reflexivity.
    + reflexivity.
    + apply list_elem_of_further, list_elem_of_here.
    + discriminate.
    + reflexivity.
    + discriminate.
Defined.


Lemma renamed_id (n : pystr) (aid : Z) (a : activity) :
  a_id (renamed n aid a) = a_id a.
Proof. unfold renamed. by destruct (_ =? _). Qed.

Lemma sql_update_name_ok (n : pystr) (aid : Z) (s : db) :
  (forall b, b ∈ activities s -> a_id b <> aid -> a_name b <> n) ->
  sql_update_name n aid s
  = Ok (Db (renamed n aid <$> activities s) (completions s)
           (sqlite_sequence s)).
Proof.
  intros Hfree. unfold sql_update_name.
  assert (existsb (fun b => negb (a_id b =? aid) && bool_decide (a_name b = n))
                  (activities s) = false) as ->.
  { apply existsb_false_elem_of. intros b Hb.
    destruct (Z.eqb_spec (a_id b) aid); [done|]. simpl.
    by apply bool_decide_eq_false_2, Hfree. }
  by rewrite andb_false_r.
Qed.

(** X8.  Renaming a stored activity (its id a SQLite INTEGER) to a name
    that is not empty once trimmed and that no other activity bears
    succeeds; the activity
    keeps its id, mandatory flag, mask and sort order, the other
    activities and all completions stay as they were, and renaming an
    activity to the name it has changes nothing. *)
Theorem rename_activity_renames (s : db) (aid : Z) (new_name : option pystr)
    (a : activity) :
  NoDup (a_id <$> activities s) ->
  a ∈ activities s -> a_id a = aid -> fits_int64 aid = true ->
  strip (or_empty new_name) <> [] ->
  (forall b, b ∈ activities s -> a_id b <> aid ->
             a_name b <> strip (or_empty new_name)) ->
  exists s',
    db_rename_activity aid new_name s = (Ok (true, py ""), s')
    /\ completions s' = completions s
    /\ sqlite_sequence s' = sqlite_sequence s
    /\ a_id <$> activities s' = a_id <$> activities s
    /\ Activity aid (strip (or_empty new_name)) (a_mandatory a)
         (a_days_mask a) (a_sort_order a) ∈ activities s'
    /\ (forall b, a_id b <> aid ->
          (b ∈ activities s' <-> b ∈ activities s))
    /\ (a_name a = strip (or_empty new_name) -> s' = s).
Proof.
  intros Hnd Ha Haid Hfit Hne Hfree. unfold db_rename_activity.
  destruct (str_truthy (strip (or_empty new_name))) eqn:Ht.
  2: { by apply str_truthy_false in Ht. }
  rewrite Hfit. simpl. rewrite sql_update_name_ok by done.
  eexists. split; [reflexivity|]. simpl.
  split; [done|]. split; [done|]. split; [|split; [|split]].
  - rewrite <- list_fmap_compose. apply list_fmap_ext.
    intros i b _. apply renamed_id.
  - apply list_elem_of_fmap. exists a. split; [|done].
    unfold renamed. rewrite <- Haid, Z.eqb_refl. done.
  - intros b Hb. rewrite list_elem_of_fmap. split.
    + intros (b0 & -> & Hb0). unfold renamed in *.
      destruct (Z.eqb_spec (a_id b0) aid); [by destruct Hb|done].
    + intros Hin. exists b. split; [|done]. unfold renamed.
      by destruct (Z.eqb_spec (a_id b) aid).
  - intros Hsame. rewrite <- (db_eta s) at 4. f_equal.
    rewrite <- (list_fmap_id (activities s)) at 2.
    apply list_fmap_ext. intros i b Hb. unfold renamed. simpl.
    destruct (Z.eqb_spec (a_id b) aid) as [Hid|]; [|done].
    assert (b = a) as ->.
    { apply list_elem_of_lookup in Ha as [j Hj].
      assert (i = j) as ->; [|congruence].
      eapply NoDup_lookup; [exact Hnd| |];
        rewrite list_lookup_fmap; [by rewrite Hb|by rewrite Hj; simpl; congruence]. }
    rewrite <- Hsame. by destruct a.
Qed.

Lemma rename_activity_renames_witness :
  exists s',
    db_rename_activity 2 (Some (py " Write ")) store_optional
    = (Ok (true, py ""), s')
    /\ completions s' = completions store_optional
    /\ sqlite_sequence s' = sqlite_sequence store_optional
    /\ a_id <$> activities s' = a_id <$> activities store_optional
    /\ Activity 2 (strip (or_empty (Some (py " Write "))))
         (a_mandatory (Activity 2 (py "Read") 0 21 2))
         (a_days_mask (Activity 2 (py "Read") 0 21 2))
         (a_sort_order (Activity 2 (py "Read") 0 21 2)) ∈ activities s'
    /\ (forall b, a_id b <> 2 ->
          (b ∈ activities s' <-> b ∈ activities store_optional))
    /\ (a_name (Activity 2 (py "Read") 0 21 2)
        = strip (or_empty (Some (py " Write "))) -> s' = store_optional).
Proof.
  apply (rename_activity_renames store_optional 2 (Some (py " Write "))
           (Activity 2 (py "Read") 0 21 2)).
  - apply (bool_decide_unpack _). vm_compute. reflexivity.
  - apply list_elem_of_further, list_elem_of_here.
  - reflexivity.
  - reflexivity.
  - discriminate.
  - intros b Hb Hid.
    repeat (apply elem_of_cons in Hb as [-> | Hb];
            [first [discriminate | by destruct Hid]|]).
    by apply elem_of_nil in Hb.
Defined.

(** ** The constraints are kept *)

Lemma store_ok_empty : store_ok empty_db.
Proof.
  split; simpl; try apply NoDup_nil_2; try apply fk_ok_empty;
    intros x Hx; by apply elem_of_nil in Hx.
Qed.

Lemma store_ok_rows (s : db) (f : activity -> activity) :
  store_ok s ->
  (forall a, a_id (f a) = a_id a) ->
  (forall a, a_name (f a) = a_name a) ->
  (forall a, a ∈ activities s -> check_in_0_1 (a_mandatory (f a)) = true) ->
  store_ok (Db (f <$> activities s) (completions s) (sqlite_sequence s)).
Proof.
  intros [Hids Hnames Hkeys Hmand Hdone Hfk] Hid Hname Hck. split; simpl.
  - rewrite <- list_fmap_compose.
    by rewrite (list_fmap_ext (a_id ∘ f) a_id (activities s))
      by (intros; apply Hid).
  - rewrite <- list_fmap_compose.
    by rewrite (list_fmap_ext (a_name ∘ f) a_name (activities s))
      by (intros; apply Hname).
  - done.
  - intros a Ha. apply list_elem_of_fmap in Ha as (a0 & -> & Ha0). by apply Hck.
  - done.
  - by apply fk_ok_fmap_activities.
Qed.

Lemma store_ok_add (s : db) (name : option pystr) :
  store_ok s -> store_ok (db_add_activity name s).2.
Proof.
  intros Hok. pose proof Hok as [Hids Hnames Hkeys Hmand Hdone Hfk].
  destruct (decide (strip (or_empty name) = [])) as [He|Hne].
  { unfold db_add_activity. by rewrite He. }
  destruct (name_taken (strip (or_empty name)) (activities s)) eqn:Ht.
  { unfold db_add_activity, sql_insert_activity. rewrite Ht.
    by destruct (negb _). }
  assert (forall a, a ∈ activities s -> a_name a <> strip (or_empty name))
    as Hfree.
  { intros a Ha Hn.
    assert (name_taken (strip (or_empty name)) (activities s) = true); [|congruence].
    apply name_taken_true. eauto. }
  rewrite db_add_activity_ok by done. simpl.
  assert (Hlt : forall a, a ∈ activities s ->
            a_id a <= default 0 (sql_max (a_id <$> activities s))).
  { intros a Ha. apply sql_max_default_ge. by apply list_elem_of_fmap_2. }
  split; simpl.
  - rewrite fmap_app. apply NoDup_app. split; [done|]. split.
    + intros i Hi Hin. apply list_elem_of_singleton in Hin as ->.
      apply list_elem_of_fmap in Hi as (a & Heq & Ha).
      specialize (Hlt a Ha). simpl in Heq. lia.
    + apply NoDup_singleton.
  - rewrite fmap_app. apply NoDup_app. split; [done|]. split.
    + intros n Hi Hin. apply list_elem_of_singleton in Hin as ->.
      apply list_elem_of_fmap in Hi as (a & Heq & Ha).
      apply (Hfree a Ha). simpl in Heq. congruence.
    + apply NoDup_singleton.
  - done.
  - intros a Ha. apply elem_of_app in Ha as [Ha|Ha]; [by apply Hmand|].
    by apply list_elem_of_singleton in Ha as ->.
  - done.
  - intros c Hc. simpl in Hc. apply activity_exists_true.
    destruct (proj1 (activity_exists_true _ _) (Hfk c Hc)) as (a & Ha & Hid).
    exists a. split; [|done]. simpl. apply elem_of_app. by left.
Qed.

Lemma renamed_names_NoDup (n : pystr) (aid : Z) (l : list activity) :
  NoDup (a_id <$> l) -> NoDup (a_name <$> l) ->
  (forall b, b ∈ l -> a_id b <> aid -> a_name b <> n) ->
  NoDup (a_name <$> (renamed n aid <$> l)).
Proof.
  induction l as [|a l IH]; intros Hids Hnames Hfree; [apply NoDup_nil_2|].
  rewrite !fmap_cons in *.
  apply NoDup_cons in Hids as [Hid Hids], Hnames as [Hname Hnames].
  assert (Hfree' : forall b, b ∈ l -> a_id b <> aid -> a_name b <> n).
  { intros b Hb. apply Hfree. by apply list_elem_of_further. }
  apply NoDup_cons. split; [|by apply IH].
  intros Hin. apply list_elem_of_fmap in Hin as (b' & Heq & Hb').
  apply list_elem_of_fmap in Hb' as (b & -> & Hb).
  unfold renamed in Heq.
  destruct (Z.eqb_spec (a_id a) aid) as [Ha|Ha];
    destruct (Z.eqb_spec (a_id b) aid) as [Hbid|Hbid]; simpl in Heq.
  - apply Hid. apply list_elem_of_fmap. exists b. split; [congruence|done].
  - by apply (Hfree' b Hb Hbid).
  - apply (Hfree a); [apply list_elem_of_here|done|done].
  - apply Hname. apply list_elem_of_fmap. by exists b.
Qed.

Lemma store_ok_rename (s : db) (aid : Z) (new_name : option pystr) :
  store_ok s -> store_ok (db_rename_activity aid new_name s).2.
Proof.
  intros Hok. pose proof Hok as [Hids Hnames Hkeys Hmand Hdone Hfk].
  unfold db_rename_activity. destruct (negb _); [done|].
  destruct (negb _); [done|].
  set (n := strip (or_empty new_name)).
  destruct (sql_update_name n aid s) as [s'|e] eqn:Hup.
  2: { by destruct e. }
  simpl. pose proof Hup as Hup'. unfold sql_update_name in Hup'.
  destruct (activity_exists aid s) eqn:Hex; simpl in Hup'.
  - destruct (existsb _ _) eqn:He; [done|]. clear Hup'.
    assert (Hfree : forall b, b ∈ activities s -> a_id b <> aid -> a_name b <> n).
    { intros b Hb Hid Hn.
      pose proof (proj1 (existsb_false_elem_of _ _) He b Hb) as Hf.
      simpl in Hf. rewrite bool_decide_eq_true_2 in Hf by done.
      by destruct (Z.eqb_spec (a_id b) aid). }
    rewrite sql_update_name_ok in Hup by done. injection Hup as <-.
    split; simpl.
    + rewrite <- list_fmap_compose.
      by rewrite (list_fmap_ext (a_id ∘ renamed n aid) a_id (activities s))
        by (intros; apply renamed_id).
    + by apply renamed_names_NoDup.
    + done.
    + intros a Ha. apply list_elem_of_fmap in Ha as (a0 & -> & Ha0).
      specialize (Hmand a0 Ha0). unfold renamed. by destruct (_ =? _).
    + done.
    + apply fk_ok_fmap_activities; [|done]. apply renamed_id.
  - injection Hup' as <-.
    assert ((fun a => if a_id a =? aid
                      then Activity (a_id a) n (a_mandatory a)
                                    (a_days_mask a) (a_sort_order a)
                      else a) <$> activities s = activities s) as ->.
    { rewrite <- (list_fmap_id (activities s)) at 2. apply list_fmap_ext.
      intros i a Ha.
      pose proof (proj1 (existsb_false_elem_of _ _) Hex a) as Hf.
      simpl in Hf. rewrite Hf; [done|]. by eapply list_elem_of_lookup_2. }
    by rewrite db_eta.
Qed.

Lemma store_ok_sort_order (i aid : Z) (s : db) :
  store_ok s -> store_ok (sql_update_sort_order i aid s).
Proof.
  intros Hok. apply store_ok_rows; try done.
  - intros a. by destruct (_ =? _).
  - intros a. by destruct (_ =? _).
  - intros a Ha. pose proof (mandatory_checked s Hok a Ha).
    by destruct (_ =? _).
Qed.

Lemma store_ok_set_sort_orders (ordered_ids : list Z) (s : db) :
  store_ok s -> store_ok (db_set_sort_orders ordered_ids s).
Proof.
  unfold db_set_sort_orders.
  generalize (zip (seq 1 (length ordered_ids)) ordered_ids). intros l.
  revert s. induction l as [|[i aid] l IH]; intros s Hok; [done|].
  simpl. by apply IH, store_ok_sort_order.
Qed.

Lemma store_ok_delete (aid : Z) (s : db) :
  store_ok s -> store_ok (db_delete_activity aid s).
Proof.
  intros [Hids Hnames Hkeys Hmand Hdone Hfk]. split; simpl.
  - eapply sublist_NoDup; [exact Hids|]. apply fmap_sublist, sublist_filter.
  - eapply sublist_NoDup; [exact Hnames|]. apply fmap_sublist, sublist_filter.
  - eapply sublist_NoDup; [exact Hkeys|]. apply fmap_sublist, sublist_filter.
  - intros a Ha. apply list_elem_of_filter in Ha as [_ Ha]. by apply Hmand.
  - intros c Hc. apply list_elem_of_filter in Hc as [_ Hc]. by apply Hdone.
  - by apply fk_ok_delete.
Qed.

Lemma store_ok_clear_all (s : db) : store_ok (db_clear_all s).
Proof.
  split; simpl; try apply NoDup_nil_2; try apply fk_ok_clear_all;
    intros x Hx; by apply elem_of_nil in Hx.
Qed.

Lemma store_ok_update (aid : Z) (mandatory days_mask : option Z) (s : db) :
  store_ok s -> store_ok (db_update_activity aid mandatory days_mask s).2.
Proof.
  intros Hok. unfold db_update_activity.
  assert (store_ok
    (if activity_exists aid s && negb (check_in_0_1 (default 0 mandatory))
     then (Raise IntegrityError, s)
     else (Ok (),
           Db ((fun a => if a_id a =? aid
                         then Activity (a_id a) (a_name a)
                                (default (a_mandatory a) mandatory)
                                (default (a_days_mask a) days_mask)
                                (a_sort_order a)
                         else a) <$> activities s)
              (completions s) (sqlite_sequence s))).2) as Hgen.
  { destruct (activity_exists aid s && _) eqn:Hb; [done|]. simpl.
    apply store_ok_rows; try done.
    - intros a. by destruct (_ =? _).
    - intros a. by destruct (_ =? _).
    - intros a Ha. pose proof (mandatory_checked s Hok a Ha) as Hm.
      destruct (Z.eqb_spec (a_id a) aid) as [Hid|]; [|done]. simpl.
      destruct mandatory as [m|]; [|done]. simpl in *.
      rewrite (proj2 (activity_exists_true aid s)) in Hb by eauto.
      simpl in Hb. by apply negb_false_iff in Hb. }
  destruct mandatory, days_mask; [| | |done];
    (destruct (negb (forallb _ _)); [done|apply Hgen]).
Qed.

Lemma store_ok_set_done (aid : Z) (day : pystr) (done : Z) (s : db) :
  store_ok s -> store_ok (db_set_done aid day done s).2.
Proof.
  intros Hok. pose proof Hok as [Hids Hnames Hkeys Hmand Hdone Hfk].
  destruct (fits_int64 aid) eqn:Hfit.
  2: { by rewrite db_set_done_overflow by (by rewrite Hfit). }
  destruct (check_in_0_1 done) eqn:Hck.
  2: { unfold db_set_done. destruct (negb (_ && _)); [done|]. by rewrite Hck. }
  destruct (activity_exists aid s) eqn:Hex.
  2: { unfold db_set_done. destruct (negb (_ && _)); [done|].
       by rewrite Hck, Hex. }
  rewrite db_set_done_ok by done. simpl. split; simpl; try done.
  - destruct (existsb _ _) eqn:He.
    + rewrite <- list_fmap_compose.
      by rewrite (list_fmap_ext _ (fun c => (c_activity_id c, c_day c))
                    (completions s))
        by (intros; apply put_row_key).
    + rewrite fmap_app. apply NoDup_app. split; [done|]. split.
      * intros k Hk Hin. apply list_elem_of_singleton in Hin as ->.
        apply list_elem_of_fmap in Hk as (c & Heq & Hc).
        pose proof (proj1 (existsb_false_elem_of _ _) He c Hc) as Hf.
        apply completion_at_false in Hf. simpl in Heq. congruence.
      * apply NoDup_singleton.
  - intros c Hc. destruct (existsb _ _).
    + apply list_elem_of_fmap in Hc as (c0 & -> & Hc0). unfold put_row.
      destruct (completion_at _ _ _); [done|by apply Hdone].
    + apply elem_of_app in Hc as [Hc|Hc]; [by apply Hdone|].
      by apply list_elem_of_singleton in Hc as ->.
  - pose proof (fk_ok_set_done s aid day done Hfk) as H.
    by rewrite db_set_done_ok in H by done.
Qed.

(** X9.  The constraints of the schema hold in the empty store and every
    writer keeps them: ids and names stay pairwise distinct, a pair of
    activity and day has at most one completion, the flags are 0 or 1,
    and every completion belongs to a stored activity. *)
Theorem writers_keep_store_ok (s : db) :
  store_ok s ->
  (forall name, store_ok (db_add_activity name s).2)
  /\ (forall aid new_name, store_ok (db_rename_activity aid new_name s).2)
  /\ (forall ordered_ids, store_ok (db_set_sort_orders ordered_ids s))
  /\ (forall aid, store_ok (db_delete_activity aid s))
  /\ store_ok (db_clear_all s)
  /\ (forall aid mandatory days_mask,
        store_ok (db_update_activity aid mandatory days_mask s).2)
  /\ (forall aid day done, store_ok (db_set_done aid day done s).2).
Proof.
  intros Hok.
  split; [intros; by apply store_ok_add|].
  split; [intros; by apply store_ok_rename|].
  split; [intros; by apply store_ok_set_sort_orders|].
  split; [intros; by apply store_ok_delete|].
  split; [apply store_ok_clear_all|].
  split; [intros; by apply store_ok_update|].
  intros; by apply store_ok_set_done.
Qed.

Lemma store_ok_store_optional : store_ok store_optional.
Proof.
  split; try (apply (bool_decide_unpack _); vm_compute; reflexivity).
  - intros a Ha.
    repeat (apply elem_of_cons in Ha as [-> | Ha]; [reflexivity|]).
    by apply elem_of_nil in Ha.
  - intros c Hc.
    repeat (apply elem_of_cons in Hc as [-> | Hc]; [reflexivity|]).
    by apply elem_of_nil in Hc.
  - apply fk_ok_store_optional.
Qed.

Lemma writers_keep_store_ok_witness :
  (forall name, store_ok (db_add_activity name store_optional).2)
  /\ (forall aid new_name,
        store_ok (db_rename_activity aid new_name store_optional).2)
  /\ (forall ordered_ids, store_ok (db_set_sort_orders ordered_ids store_optional))
  /\ (forall aid, store_ok (db_delete_activity aid store_optional))
  /\ store_ok (db_clear_all store_optional)
  /\ (forall aid mandatory days_mask,
        store_ok (db_update_activity aid mandatory days_mask store_optional).2)
  /\ (forall aid day done, store_ok (db_set_done aid day done store_optional).2).
Proof.
  apply (writers_keep_store_ok store_optional). apply store_ok_store_optional.
Defined.

(** ** Listing and reordering *)

Lemma str_compare_antisym (a b : pystr) :
  str_compare b a = CompOpp (str_compare a b).
Proof.
  revert b. induction a as [|x a IH]; intros [|y b]; simpl; try done.
  rewrite (N.compare_antisym x y). destruct (N.compare x y); simpl; auto.
Qed.

Global Instance activity_le_total : Total activity_le.
Proof.
  intros a b. unfold activity_le, activity_leb, nocase_compare.
  rewrite (str_compare_antisym (nocase_fold <$> a_name a)
             (nocase_fold <$> a_name b)).
  destruct (Z.ltb_spec (a_sort_order a) (a_sort_order b)); [by left|].
  destruct (Z.ltb_spec (a_sort_order b) (a_sort_order a)); [by right|].
  rewrite !(proj2 (Z.eqb_eq _ _)) by lia. simpl.
  destruct (str_compare _ _); simpl; auto.
Qed.

Lemma activity_le_sort_order (a b : activity) :
  activity_le a b -> a_sort_order a <= a_sort_order b.
Proof.
  unfold activity_le, activity_leb. intros H.
  destruct (Z.ltb_spec (a_sort_order a) (a_sort_order b)); [lia|].
  destruct (Z.eqb_spec (a_sort_order a) (a_sort_order b)); [lia|done].
Qed.

Lemma Sorted_fmap_mono {A B} (R : relation A) (R' : relation B) (f : A -> B)
    (l : list A) :
  (forall x y, R x y -> R' (f x) (f y)) -> Sorted R l -> Sorted R' (f <$> l).
Proof.
  intros Hm. induction 1 as [|x l Hs IH Hhd]; simpl; constructor; [done|].
  destruct Hhd; simpl; constructor. by apply Hm.
Qed.


Lemma sorted_by_sort_order (s : db) :
  StronglySorted Z.le
    (a_sort_order <$> merge_sort activity_le (activities s)).
Proof.
  apply Sorted_StronglySorted; [intros x y z; lia|].
  eapply Sorted_fmap_mono; [apply activity_le_sort_order|].
  apply (Sorted_merge_sort activity_le).
Qed.

(** X10.  [db_list_activities] returns every stored activity once, in
    ascending [sort_order], neighbours with the same [sort_order] in
    the NOCASE order of their names; [db_count_activities] is the
    number of rows it returns. *)
Theorem list_activities_sorted (s : db) :
  exists rows,
    db_list_activities s = row_of <$> rows
    /\ rows ≡ₚ activities s
    /\ Sorted activity_le rows
    /\ StronglySorted Z.le (a_sort_order <$> rows)
    /\ db_count_activities s = Z.of_nat (length (db_list_activities s)).
Proof.
  exists (merge_sort activity_le (activities s)).
  split; [done|]. split; [apply merge_sort_Permutation|].
  split; [apply (Sorted_merge_sort activity_le)|]. split.
  - apply sorted_by_sort_order.
  - unfold db_count_activities, db_list_activities.
    by rewrite length_fmap, merge_sort_Permutation.
Qed.

Example list_activities_store_optional :
  db_list_activities store_optional
  = [(1, py "Run", 0, 127); (2, py "Read", 0, 21)].
Proof. vm_compute. reflexivity. Qed.


Lemma set_sort_orders_rows (ids : list Z) :
  forall (k : nat) (s : db) (j : nat) (a : activity),
  activities s !! j = Some a ->
  exists a',
    activities (foldl (fun s '(i, aid) =>
                         sql_update_sort_order (Z.of_nat i) aid s) s
                      (zip (seq k (length ids)) ids)) !! j = Some a'
    /\ row_of a' = row_of a
    /\ (NoDup ids -> forall i, ids !! i = Some (a_id a) ->
          a_sort_order a' = Z.of_nat (k + i))
    /\ (a_id a ∉ ids -> a_sort_order a' = a_sort_order a).
Proof.
  induction ids as [|x ids IH]; intros k s j a Hj; simpl.
  - exists a. split; [done|]. split; [done|]. split; [|done].
    intros _ i Hi. by rewrite lookup_nil in Hi.
  - set (s1 := sql_update_sort_order (Z.of_nat k) x s).
    assert (activities s1 !! j = Some (with_order (Z.of_nat k) x a)) as Hj1.
    { unfold s1, sql_update_sort_order. simpl.
      rewrite list_lookup_fmap, Hj. done. }
    destruct (IH (S k) s1 j _ Hj1) as (a' & Ha' & Hrow & Hin & Hout).
    assert (Hid : a_id (with_order (Z.of_nat k) x a) = a_id a).
    { unfold with_order. by destruct (_ =? _). }
    exists a'. split; [done|]. split; [|split].
    + rewrite Hrow. unfold with_order, row_of. by destruct (_ =? _).
    + intros Hnd i Hi. apply NoDup_cons in Hnd as [Hx Hnd].
      destruct i as [|i]; simpl in Hi.
      * injection Hi as ->. rewrite Hout by (by rewrite Hid).
        unfold with_order. rewrite Z.eqb_refl. simpl. f_equal. lia.
      * rewrite Hid in Hin. rewrite (Hin Hnd i Hi). f_equal. lia.
    + intros Hnot. apply not_elem_of_cons in Hnot as [Hne Hnot].
      rewrite Hout by (by rewrite Hid). unfold with_order.
      by destruct (Z.eqb_spec (a_id a) x).
Qed.

Lemma set_sort_orders_length (ordered_ids : list Z) (s : db) :
  length (activities (db_set_sort_orders ordered_ids s))
  = length (activities s).
Proof.
  unfold db_set_sort_orders.
  generalize (zip (seq 1 (length ordered_ids)) ordered_ids). intros l.
  revert s. induction l as [|[i aid] l IH]; intros s; [done|].
  simpl. rewrite IH. simpl. by rewrite length_fmap.
Qed.

Lemma set_sort_orders_row_of (ordered_ids : list Z) (s : db) :
  row_of <$> activities (db_set_sort_orders ordered_ids s)
  = row_of <$> activities s.
Proof.
  apply list_eq. intros j. rewrite !list_lookup_fmap.
  destruct (activities s !! j) as [a|] eqn:Hj.
  - destruct (set_sort_orders_rows ordered_ids 1 s j a Hj)
      as (a' & Ha' & Hrow & _).
    unfold db_set_sort_orders. rewrite Ha'. simpl. by rewrite Hrow.
  - apply lookup_ge_None in Hj.
    rewrite (proj2 (lookup_ge_None _ _)); [done|].
    by rewrite set_sort_orders_length.
Qed.

Lemma set_sort_orders_order (ordered_ids : list Z) (s : db) (a' : activity)
    (i : nat) :
  NoDup ordered_ids ->
  a' ∈ activities (db_set_sort_orders ordered_ids s) ->
  ordered_ids !! i = Some (a_id a') ->
  a_sort_order a' = Z.of_nat i + 1.
Proof.
  intros Hnd Ha' Hi. apply list_elem_of_lookup in Ha' as [j Hj].
  destruct (activities s !! j) as [a|] eqn:Hja.
  - destruct (set_sort_orders_rows ordered_ids 1 s j a Hja)
      as (a'' & Ha'' & Hrow & Hin & _).
    unfold db_set_sort_orders in Hj. rewrite Ha'' in Hj.
    injection Hj as ->.
    assert (a_id a' = a_id a) as Hid by (by injection Hrow).
    rewrite Hid in Hi. rewrite (Hin Hnd i Hi). lia.
  - apply lookup_ge_None in Hja. apply lookup_lt_Some in Hj.
    rewrite set_sort_orders_length in Hj. lia.
Qed.



Lemma NoDup_fmap_eq {A B} (f : A -> B) (l : list A) (x y : A) :
  NoDup (f <$> l) -> x ∈ l -> y ∈ l -> f x = f y -> x = y.
Proof.
  intros Hnd Hx Hy Hf.
  apply list_elem_of_lookup in Hx as [i Hi], Hy as [j Hj].
  assert (i = j) as ->; [|congruence].
  eapply NoDup_lookup; [exact Hnd| |]; rewrite list_lookup_fmap.
  - by rewrite Hi.
  - rewrite Hj. simpl. by rewrite Hf.
Qed.

Lemma StronglySorted_le_lt (K : list Z) :
  StronglySorted Z.le K -> NoDup K -> StronglySorted Z.lt K.
Proof.
  induction 1 as [|x K Hs IH Hall]; intros Hnd; constructor.
  - apply IH. by apply NoDup_cons in Hnd as [_ ?].
  - apply NoDup_cons in Hnd as [Hx _].
    apply Forall_forall. intros y Hy.
    pose proof (proj1 (Forall_forall _ _) Hall y Hy).
    assert (y <> x) by (by intros ->). lia.
Qed.

Lemma sorted_lower (K : list Z) :
  StronglySorted Z.lt K -> forall lo, (forall x, x ∈ K -> lo <= x) ->
  forall p x, K !! p = Some x -> lo + Z.of_nat p <= x.
Proof.
  induction 1 as [|y K Hs IH Hall]; intros lo Hlo p x Hp;
    [by rewrite lookup_nil in Hp|].
  destruct p as [|p]; simpl in Hp.
  - injection Hp as <-. specialize (Hlo y (list_elem_of_here _ _)). lia.
  - assert (lo + 1 + Z.of_nat p <= x); [|lia]. apply IH; [|done].
    intros z Hz. pose proof (proj1 (Forall_forall _ _) Hall z Hz).
    specialize (Hlo y (list_elem_of_here _ _)). lia.
Qed.

Lemma sorted_upper (K : list Z) :
  StronglySorted Z.lt K -> forall hi, (forall x, x ∈ K -> x <= hi) ->
  forall p x, K !! p = Some x ->
  x + (Z.of_nat (length K) - 1 - Z.of_nat p) <= hi.
Proof.
  induction 1 as [|y K Hs IH Hall]; intros hi Hhi p x Hp;
    [by rewrite lookup_nil in Hp|].
  assert (Hhi' : forall z, z ∈ K -> z <= hi).
  { intros z Hz. by apply Hhi, list_elem_of_further. }
  destruct p as [|p]; simpl in Hp.
  - injection Hp as <-. destruct K as [|z K].
    + specialize (Hhi y (list_elem_of_here _ _)). simpl. lia.
    + pose proof (IH hi Hhi' 0%nat z eq_refl) as Hz.
      pose proof (proj1 (Forall_forall _ _) Hall z (list_elem_of_here _ _)).
      simpl length in *. lia.
  - pose proof (IH hi Hhi' p x Hp). simpl length. lia.
Qed.

(** X12.  After [db_set_sort_orders] with a list that names every stored
    activity once, [db_list_activities] returns the activities in the
    order of that list. *)
Theorem reorder_then_list (ordered_ids : list Z) (s : db) :
  NoDup (a_id <$> activities s) ->
  ordered_ids ≡ₚ a_id <$> activities s ->
  (fun row : Z * pystr * Z * Z => row.1.1.1)
    <$> db_list_activities (db_set_sort_orders ordered_ids s)
  = ordered_ids.
Proof.
  intros Hids Hperm.
  assert (Hnd : NoDup ordered_ids) by (by rewrite Hperm).
  pose proof (set_sort_orders_row_of ordered_ids s) as Hrows.
  pose proof (fun a' Ha' i => set_sort_orders_order ordered_ids s a' i Hnd Ha')
    as Hpos.
  set (s' := db_set_sort_orders ordered_ids s) in *.
  assert (Hids' : a_id <$> activities s' = a_id <$> activities s).
  { change a_id with ((fun row : Z * pystr * Z * Z => row.1.1.1) ∘ row_of).
    by rewrite !list_fmap_compose, Hrows. }
  pose proof (sorted_by_sort_order s') as Hss.
  pose proof (merge_sort_Permutation activity_le (activities s')) as Hp.
  change (db_list_activities s')
    with (row_of <$> merge_sort activity_le (activities s')).
  set (rows := merge_sort activity_le (activities s')) in *.
  rewrite <- list_fmap_compose.
  change ((fun row : Z * pystr * Z * Z => row.1.1.1) ∘ row_of) with a_id.
  set (n := length ordered_ids).
  assert (Hlen : length rows = n).
  { rewrite Hp. unfold n. rewrite Hperm, <- Hids'. by rewrite length_fmap. }
  assert (Hplace : forall a, a ∈ rows ->
            exists i, ordered_ids !! i = Some (a_id a)
                      /\ a_sort_order a = Z.of_nat i + 1).
  { intros a Ha. rewrite Hp in Ha.
    assert (a_id a ∈ ordered_ids) as Hin.
    { rewrite Hperm, <- Hids'. by apply list_elem_of_fmap_2. }
    apply list_elem_of_lookup in Hin as [i Hi]. exists i.
    split; [done|]. by apply Hpos. }
  assert (Hinj : NoDup (a_sort_order <$> rows)).
  { apply NoDup_fmap_2_strong.
    - intros a b Ha Hb Heq.
      destruct (Hplace a Ha) as (i & Hi & Hoa), (Hplace b Hb) as (j & Hj & Hob).
      assert (i = j) as -> by lia.
      apply (NoDup_fmap_eq a_id rows); try done; [|congruence].
      by rewrite Hp, Hids'.
    - apply (NoDup_fmap_1 a_id). by rewrite Hp, Hids'. }
  pose proof (StronglySorted_le_lt _ Hss Hinj) as Hlt.
  assert (Hk : forall p a, rows !! p = Some a ->
                 a_sort_order a = Z.of_nat p + 1).
  { intros p a Ha.
    assert ((a_sort_order <$> rows) !! p = Some (a_sort_order a)) as Hkp.
    { by rewrite list_lookup_fmap, Ha. }
    assert (1 + Z.of_nat p <= a_sort_order a).
    { apply (sorted_lower _ Hlt); [|done]. intros x Hx.
      apply list_elem_of_fmap in Hx as (b & -> & Hb).
      destruct (Hplace b Hb) as (i & _ & ->). lia. }
    assert (a_sort_order a
            + (Z.of_nat (length (a_sort_order <$> rows)) - 1 - Z.of_nat p)
            <= Z.of_nat n).
    { apply (sorted_upper _ Hlt); [|done]. intros x Hx.
      apply list_elem_of_fmap in Hx as (b & -> & Hb).
      destruct (Hplace b Hb) as (i & Hi & ->).
      apply lookup_lt_Some in Hi. unfold n. lia. }
    rewrite length_fmap, Hlen in *. lia. }
  apply list_eq. intros p. rewrite list_lookup_fmap.
  destruct (rows !! p) as [a|] eqn:Ha; simpl.
  - destruct (Hplace a (list_elem_of_lookup_2 _ _ _ Ha)) as (i & Hi & Ho).
    rewrite (Hk p a Ha) in Ho. assert (i = p) as -> by lia. done.
  - symmetry. apply lookup_ge_None. apply lookup_ge_None in Ha.
    fold n. lia.
Qed.

Lemma reorder_then_list_witness :
  (fun row : Z * pystr * Z * Z => row.1.1.1)
    <$> db_list_activities (db_set_sort_orders [2; 1] store_optional)
  = [2; 1].
Proof.
  apply (reorder_then_list [2; 1] store_optional).
  - apply (bool_decide_unpack _). vm_compute. reflexivity.
  - apply Permutation_swap.
Defined.

(** * The settings dialog *)

Lemma fold_set_mask_testbit (checks : list bool) :
  forall (k : nat) (m0 : Z) (j : nat),
  Z.testbit
    (foldl (fun m '(i, ch) => set_mask_day m (Z.of_nat i) ch) m0
           (zip (seq k (length checks)) checks))
    (Z.of_nat j)
  = if decide (k <= j)%nat
    then default (Z.testbit m0 (Z.of_nat j)) (checks !! (j - k)%nat)
    else Z.testbit m0 (Z.of_nat j).
Proof.
  induction checks as [|b checks IH]; intros k m0 j; simpl.
  - by destruct (decide _).
  - rewrite IH.
    assert (Hset : Z.testbit (set_mask_day m0 (Z.of_nat k) b) (Z.of_nat j)
                   = if decide (Z.of_nat j = Z.of_nat k) then b
                     else Z.testbit m0 (Z.of_nat j)).
    { apply set_mask_day_testbit; lia. }
    rewrite Hset.
    destruct (decide (S k <= j)%nat), (decide (k <= j)%nat),
      (decide (Z.of_nat j = Z.of_nat k)); try lia; try done.
    + by replace (j - k)%nat with (S (j - S k)) by lia.
    + by replace (j - k)%nat with 0%nat by lia.
Qed.

Lemma dialog_day_checks_lookup (days_mask : Z) (j : nat) :
  dialog_day_checks days_mask !! j
  = if decide (j < 7)%nat then Some (Z.testbit days_mask (Z.of_nat j))
    else None.
Proof.
  unfold dialog_day_checks. rewrite list_lookup_fmap.
  destruct (decide (j < 7)%nat) as [Hlt|Hge].
  - rewrite lookup_seq_lt by done. simpl.
    by rewrite mask_has_day_testbit by lia.
  - by rewrite lookup_seq_ge by lia.
Qed.

Lemma result_mask_testbit (cb : bool) (checks : list bool) (j : nat) :
  Z.testbit (result_values cb checks).2 (Z.of_nat j)
  = default false (checks !! j).
Proof.
  unfold result_values. simpl. rewrite fold_set_mask_testbit.
  rewrite decide_True by lia. rewrite Nat.sub_0_r.
  by rewrite Z.testbit_0_l.
Qed.

Lemma dialog_result_values_aux (cb : bool) (mandatory days_mask : Z) :
  result_values (dialog_cb_mand mandatory) (dialog_day_checks days_mask)
  = (if mandatory =? 0 then 0 else 1, Z.land days_mask 127)
  /\ (0 <= days_mask <= 127 -> Z.land days_mask 127 = days_mask).
Proof.
  split.
  - unfold result_values at 1. f_equal.
    + unfold dialog_cb_mand. by destruct (mandatory =? 0).
    + change (foldl _ 0 _) with (result_values cb (dialog_day_checks days_mask)).2.
      apply Z.bits_inj'. intros z Hz.
      rewrite <- (Z2Nat.id z) by lia. rewrite result_mask_testbit.
      rewrite dialog_day_checks_lookup, Z.land_spec.
      change 127 with (Z.ones 7). rewrite Z.testbit_ones_nonneg by lia.
      destruct (decide (Z.to_nat z < 7)%nat).
      * simpl. destruct (Z.ltb_spec (Z.of_nat (Z.to_nat z)) 7); [|lia].
        by rewrite andb_true_r.
      * simpl. destruct (Z.ltb_spec (Z.of_nat (Z.to_nat z)) 7); [lia|].
        by rewrite andb_false_r.
  - intros Hm. change 127 with (Z.ones 7). rewrite Z.land_ones by lia.
    apply Z.mod_small. change (2 ^ 7) with 128. lia.
Qed.

Lemma result_values_range (cb : bool) (checks : list bool) :
  length checks = 7%nat -> 0 <= (result_values cb checks).2 <= 127.
Proof.
  intros Hlen.
  assert ((result_values cb checks).2 = Z.land (result_values cb checks).2 127)
    as ->.
  { apply Z.bits_inj'. intros z Hz.
    rewrite Z.land_spec. change 127 with (Z.ones 7).
    rewrite Z.testbit_ones_nonneg by lia.
    destruct (Z.ltb_spec z 7); [by rewrite andb_true_r|].
    rewrite andb_false_r. rewrite <- (Z2Nat.id z) by lia.
    rewrite result_mask_testbit.
    rewrite (proj2 (lookup_ge_None checks (Z.to_nat z))); [done|lia]. }
  change 127 with (Z.ones 7). rewrite Z.land_ones by lia.
  change (2 ^ 7) with 128. change (Z.ones 7) with 127.
  pose proof (Z.mod_pos_bound (result_values cb checks).2 128). lia.
Qed.

(** X13.  The mask that the dialog returns has exactly the bits of the
    checked boxes: it lies in 0..127 for seven boxes, it is the full
    week mask after "whole week", and a dialog opened on a mask and
    left untouched returns the low seven bits of that mask, and the
    mandatory flag as 0 or 1. *)
Theorem dialog_result_values (cb : bool) (checks : list bool)
    (mandatory days_mask : Z) :
  (forall j : nat,
     Z.testbit (result_values cb checks).2 (Z.of_nat j)
     = default false (checks !! j))
  /\ (length checks = 7%nat -> 0 <= (result_values cb checks).2 <= 127)
  /\ (length checks = 7%nat ->
      (result_values cb (set_full_week checks)).2 = full_week_mask)
  /\ result_values (dialog_cb_mand mandatory) (dialog_day_checks days_mask)
     = (if mandatory =? 0 then 0 else 1, Z.land days_mask 127)
  /\ (0 <= days_mask <= 127 ->
      (result_values cb (dialog_day_checks days_mask)).2 = days_mask).
Proof.
  split; [apply result_mask_testbit|]. split; [|split; [|split]].
  - apply result_values_range.
  - intros Hlen. apply Z.bits_inj'. intros z Hz.
    rewrite <- (Z2Nat.id z) by lia. rewrite result_mask_testbit.
    unfold set_full_week. rewrite list_lookup_fmap.
    change full_week_mask with (Z.ones 7).
    rewrite Z.testbit_ones_nonneg by lia.
    destruct (Z.ltb_spec (Z.of_nat (Z.to_nat z)) 7).
    + destruct (lookup_lt_is_Some_2 checks (Z.to_nat z)) as [b ->]; [lia|done].
    + rewrite (proj2 (lookup_ge_None checks (Z.to_nat z))); [done|lia].
  - apply (dialog_result_values_aux cb).
  - intros Hm.
    destruct (dialog_result_values_aux cb mandatory days_mask) as [Hrv Hsmall].
    assert ((result_values cb (dialog_day_checks days_mask)).2
            = (result_values (dialog_cb_mand mandatory)
                 (dialog_day_checks days_mask)).2) as -> by done.
    rewrite Hrv. simpl. by apply Hsmall.
Qed.


Lemma fits_small (x : Z) : 0 <= x <= 127 -> fits_int64 x = true.
Proof.
  intros Hx. unfold fits_int64. apply andb_true_iff.
  split; [apply Z.leb_le|apply Z.ltb_lt]; lia.
Qed.

Lemma db_update_activity_ok (aid m k : Z) (s : db) :
  fits_int64 aid = true -> fits_int64 k = true ->
  check_in_0_1 m = true ->
  db_update_activity aid (Some m) (Some k) s
  = (Ok (),
     Db (updated aid (Some m) (Some k) <$> activities s) (completions s)
        (sqlite_sequence s)).
Proof.
  intros Ha Hk Hm. unfold db_update_activity. simpl.
  rewrite (check_fits m Hm), Hk, Ha, Hm. simpl.
  by rewrite andb_false_r.
Qed.

(** X14.  Saving the settings dialog, with its seven day boxes, for an id
    that is a SQLite INTEGER (the id of the selected row) never raises:
    the flag it passes is 0 or 1 and the mask lies in 0..127.  The
    activity gets the flag and the mask of the dialog, the other
    activities and the completions stay as they were. *)
Theorem open_settings_saves (aid : Z) (cb : bool) (checks : list bool)
    (s : db) :
  fits_int64 aid = true -> length checks = 7%nat ->
  exists s',
    open_settings_accepted aid cb checks s = (Ok (), s')
    /\ completions s' = completions s
    /\ a_id <$> activities s' = a_id <$> activities s
    /\ (forall a', a' ∈ activities s' -> a_id a' = aid ->
          a_mandatory a' = (if cb then 1 else 0)
          /\ a_days_mask a' = (result_values cb checks).2)
    /\ (forall b, a_id b <> aid ->
          (b ∈ activities s' <-> b ∈ activities s)).
Proof.
  intros Hfit Hlen. unfold open_settings_accepted.
  pose proof (result_values_range cb checks Hlen) as Hrange.
  destruct (result_values cb checks) as [mand mask] eqn:Hrv.
  assert (mand = if cb then 1 else 0) as Hmand.
  { unfold result_values in Hrv. by injection Hrv as <- _. }
  rewrite db_update_activity_ok;
    [|done|by apply fits_small|rewrite Hmand; by destruct cb].
  eexists. split; [reflexivity|]. simpl. split; [done|]. split; [|split].
  - rewrite <- list_fmap_compose. apply list_fmap_ext. intros i a _.
    simpl. unfold updated. by destruct (_ =? _).
  - intros a' Ha' Hid. apply list_elem_of_fmap in Ha' as (a & -> & Ha).
    unfold updated in *. destruct (Z.eqb_spec (a_id a) aid); [|done].
    simpl. by rewrite Hmand.
  - intros b Hb. rewrite list_elem_of_fmap. split.
    + intros (b0 & -> & Hb0). unfold updated in *.
      destruct (Z.eqb_spec (a_id b0) aid); [by destruct Hb|done].
    + intros Hin. exists b. split; [|done]. unfold updated.
      by destruct (Z.eqb_spec (a_id b) aid).
Qed.

Lemma open_settings_saves_witness :
  exists s',
    open_settings_accepted 2 true
      [true; false; false; false; false; true; true] store_optional
    = (Ok (), s')
    /\ completions s' = completions store_optional
    /\ a_id <$> activities s' = a_id <$> activities store_optional
    /\ (forall a', a' ∈ activities s' -> a_id a' = 2 ->
          a_mandatory a' = 1
          /\ a_days_mask a'
             = (result_values true
                  [true; false; false; false; false; true; true]).2)
    /\ (forall b, a_id b <> 2 ->
          (b ∈ activities s' <-> b ∈ activities store_optional)).
Proof.
  apply (open_settings_saves 2 true
           [true; false; false; false; false; true; true] store_optional);
    reflexivity.
Defined.

(** X15.  Opening the dialog on a stored activity (its id a SQLite INTEGER)
    whose flag is 0 or 1 and whose mask lies in 0..127, and saving it
    untouched, leaves the store as it was. *)
Theorem open_settings_untouched (a : activity) (s : db) :
  NoDup (a_id <$> activities s) -> a ∈ activities s ->
  fits_int64 (a_id a) = true ->
  check_in_0_1 (a_mandatory a) = true -> 0 <= a_days_mask a <= 127 ->
  open_settings_accepted (a_id a) (dialog_cb_mand (a_mandatory a))
    (dialog_day_checks (a_days_mask a)) s
  = (Ok (), s).
Proof.
  intros Hnd Ha Hfit Hm Hk. unfold open_settings_accepted.
  destruct (dialog_result_values_aux (dialog_cb_mand (a_mandatory a))
              (a_mandatory a) (a_days_mask a)) as [Hrv Hland].
  rewrite Hrv.
  assert ((if a_mandatory a =? 0 then 0 else 1) = a_mandatory a) as ->.
  { unfold check_in_0_1 in Hm. destruct (Z.eqb_spec (a_mandatory a) 0); [lia|].
    simpl in Hm. lia. }
  rewrite Hland by done.
  rewrite db_update_activity_ok by (done || by apply fits_small). f_equal.
  transitivity (Db (activities s) (completions s) (sqlite_sequence s));
    [|apply db_eta].
  f_equal. rewrite <- (list_fmap_id (activities s)) at 2.
  apply list_fmap_ext. intros i b Hb. unfold updated. simpl.
  destruct (Z.eqb_spec (a_id b) (a_id a)) as [Hid|]; [|done].
  assert (b = a) as ->; [|by destruct a].
  apply (NoDup_fmap_eq a_id (activities s)); try done.
  by eapply list_elem_of_lookup_2.
Qed.

Lemma open_settings_untouched_witness :
  open_settings_accepted 2 (dialog_cb_mand 0) (dialog_day_checks 21)
    store_optional
  = (Ok (), store_optional).
Proof.
  apply (open_settings_untouched (Activity 2 (py "Read") 0 21 2) store_optional).
  - apply (bool_decide_unpack _). vm_compute. reflexivity.
  - apply list_elem_of_further, list_elem_of_here.
  - reflexivity.
  - reflexivity.
  - simpl. lia.
Defined.

Example open_settings_changes_mask :
  open_settings_accepted 2 true [true; false; false; false; false; true; true]
    store_optional
  = (Ok (),
     Db [Activity 1 (py "Run") 0 127 1; Activity 2 (py "Read") 1 97 2]
        (completions store_optional) 2).
Proof. vm_compute. reflexivity. Qed.

(** * More on the streak *)

Lemma forallb_elem_of {A} (f : A -> bool) (l : list A) :
  forallb f l = true <-> forall x, x ∈ l -> f x = true.
Proof.
  rewrite forallb_forall. split; intros H x Hx; apply H;
    by apply list_elem_of_In.
Qed.

Lemma listed_rows (s : db) (row : Z * pystr * Z * Z) :
  row ∈ db_list_activities s
  <-> exists a, a ∈ activities s
                /\ row = (a_id a, a_name a, a_mandatory a, a_days_mask a).
Proof.
  unfold db_list_activities. rewrite list_elem_of_fmap.
  split; intros (a & Hrow & Ha); exists a.
  - split; [|done]. by rewrite merge_sort_Permutation in Ha.
  - split; [done|]. by rewrite merge_sort_Permutation.
Qed.

Lemma day_is_success_iff (s : db) (day_ : date) :
  day_is_success_for_streak s day_ = true
  <-> forall a, a ∈ activities s -> a_mandatory a = 1 ->
        mask_has_day (a_days_mask a) (weekday day_) = true ->
        db_get_done (a_id a) (isoformat day_) s = 1.
Proof.
  unfold day_is_success_for_streak.
  set (required := omap _ (db_list_activities s)).
  assert (Hreq : forall aid, aid ∈ required <->
    exists a, a ∈ activities s /\ a_id a = aid /\ a_mandatory a = 1
              /\ mask_has_day (a_days_mask a) (weekday day_) = true).
  { intros aid. unfold required. rewrite list_elem_of_omap. split.
    - intros ([[[i n] m] k] & Hrow & Hsome). apply listed_rows in Hrow
        as (a & Ha & Heq). injection Heq as -> -> -> ->.
      destruct (Z.eqb_spec (a_mandatory a) 1); [|done].
      destruct (mask_has_day _ _) eqn:Hmask; [|done].
      injection Hsome as <-. eauto.
    - intros (a & Ha & <- & Hm & Hmask).
      exists (a_id a, a_name a, a_mandatory a, a_days_mask a).
      split; [apply listed_rows; eauto|]. by rewrite Hm, Hmask. }
  assert (Hall : forallb (fun a_id => db_get_done a_id (isoformat day_) s =? 1)
                         required = true
                 <-> forall a, a ∈ activities s -> a_mandatory a = 1 ->
                       mask_has_day (a_days_mask a) (weekday day_) = true ->
                       db_get_done (a_id a) (isoformat day_) s = 1).
  { rewrite forallb_elem_of. split.
    - intros H a Ha Hm Hmask. apply Z.eqb_eq, H, Hreq. eauto.
    - intros H aid Hin. apply Hreq in Hin as (a & Ha & <- & Hm & Hmask).
      apply Z.eqb_eq. by apply H. }
  destruct required; [|done]. rewrite <- Hall. done.
Qed.

(** X16.  A day is a success exactly when every mandatory activity that is
    planned on its weekday has a completion with done = 1 for it; a day
    on which no mandatory activity is planned is a success. *)
Theorem day_is_success_characterised (s : db) (day_ : date) :
  (day_is_success_for_streak s day_ = true
   <-> forall a, a ∈ activities s -> a_mandatory a = 1 ->
         mask_has_day (a_days_mask a) (weekday day_) = true ->
         db_get_done (a_id a) (isoformat day_) s = 1)
  /\ ((forall a, a ∈ activities s -> a_mandatory a = 1 ->
         mask_has_day (a_days_mask a) (weekday day_) = false) ->
      day_is_success_for_streak s day_ = true).
Proof.
  split; [apply day_is_success_iff|].
  intros Hnone. apply day_is_success_iff. intros a Ha Hm Hmask.
  by rewrite (Hnone a Ha Hm) in Hmask.
Qed.

Example day_is_success_store_two_misses :
  day_is_success_for_streak store_two_misses 738946 = true
  /\ day_is_success_for_streak store_two_misses 738944 = false.
Proof. split; vm_compute; reflexivity. Qed.

Lemma walk_loop_ext (s1 s2 : db) (allowed : Z) :
  (forall x, day_is_success_for_streak s1 x = day_is_success_for_streak s2 x) ->
  forall fuel v, walk_loop fuel s1 allowed v = walk_loop fuel s2 allowed v.
Proof.
  intros Hext. induction fuel as [|fuel IH]; intros v; [done|]. simpl.
  assert (walk_body s1 allowed v = walk_body s2 allowed v) as ->.
  { unfold walk_body. by rewrite Hext. }
  destruct (walk_body s2 allowed v); [apply IH|done].
Qed.

(** X17.  Recording a completion for an activity that is not mandatory does
    not change the streak. *)
Theorem streak_ignores_optional (aid : Z) (day : pystr) (done : Z) (s : db)
    (fuel : nat) (today : date) (allowed : Z) :
  (forall a, a ∈ activities s -> a_id a = aid -> a_mandatory a <> 1) ->
  calc_streak_upto fuel (db_set_done aid day done s).2 today allowed
  = calc_streak_upto fuel s today allowed.
Proof.
  intros Hopt.
  pose proof (db_set_done_activities aid day done s) as Hacts.
  pose proof (db_get_done_set_other aid day done s) as Hframe.
  destruct (db_set_done aid day done s) as [r s']. simpl in *.
  unfold calc_streak_upto, db_any_mandatory_exists. rewrite Hacts.
  destruct (negb _); [done|].
  apply walk_loop_ext. intros x.
  apply eq_true_iff_eq. rewrite !day_is_success_iff, Hacts.
  split; intros H a Ha Hm Hmask.
  - rewrite <- Hframe; [by apply H|]. intros Heq. injection Heq as Hid _.
    by apply (Hopt a Ha).
  - rewrite Hframe; [by apply H|]. intros Heq. injection Heq as Hid _.
    by apply (Hopt a Ha).
Qed.

Lemma streak_ignores_optional_witness :
  calc_streak_upto 3651
    (db_set_done 2 (py "2024-02-28") 1
       (Db [Activity 1 (py "Run") 1 127 1; Activity 2 (py "Read") 0 21 2]
           [Completion 1 (py "2024-03-01") 1] 2)).2
    738946 1
  = calc_streak_upto 3651
      (Db [Activity 1 (py "Run") 1 127 1; Activity 2 (py "Read") 0 21 2]
          [Completion 1 (py "2024-03-01") 1] 2)
      738946 1.
Proof.
  apply (streak_ignores_optional 2 (py "2024-02-28") 1).
  intros a Ha Hid.
  repeat (apply elem_of_cons in Ha as [-> | Ha];
          [first [discriminate | by destruct Hid]|]).
  by apply elem_of_nil in Ha.
Defined.

Section cap.
Variables (s : db) (allowed today : Z).

Lemma walk_saturates (n : nat) :
  forall v, at_head s today v -> streak v = 3650 - Z.of_nat n ->
  (forall y, today - 3650 <= y <= d v ->
             over_budget s allowed today y = false) ->
  forall fuel, (n < fuel)%nat -> walk_loop fuel s allowed v = Some 3651.
Proof.
  induction n as [|n IH]; intros v Hhead Hs Hclean fuel Hfuel;
    (destruct fuel as [|fuel]; [lia|]); simpl;
    rewrite (walk_body_at_head s allowed today v Hhead);
    pose proof Hhead as (Hle & Hstreak & _);
    rewrite Hclean by lia.
  - destruct (Z.ltb_spec 3650 (streak v + 1)); [f_equal; lia|lia].
  - destruct (Z.ltb_spec 3650 (streak v + 1)); [lia|].
    apply IH; simpl; try lia.
    + by apply at_head_next.
    + intros y Hy. apply Hclean. lia.
Qed.

Lemma first_over_budget_search (n : nat) :
  (exists k, 0 <= k < Z.of_nat n /\ first_over_budget s allowed today k)
  \/ (forall j, 0 <= j < Z.of_nat n ->
        over_budget s allowed today (today - j) = false).
Proof.
  induction n as [|n [IH|IH]].
  - right. intros j Hj. lia.
  - left. destruct IH as (k & Hk & Hfirst). exists k. split; [lia|done].
  - destruct (over_budget s allowed today (today - Z.of_nat n)) eqn:Hn.
    + left. exists (Z.of_nat n). split; [lia|]. split; [lia|]. split; [done|].
      intros j Hj. by apply IH.
    + right. intros j Hj.
      destruct (decide (j = Z.of_nat n)) as [->|]; [done|]. apply IH. lia.
Qed.
End cap.

Lemma calc_streak_value (s : db) (today : date) (allowed : Z) (fuel : nat) :
  db_any_mandatory_exists s = true -> (3651 <= fuel)%nat ->
  (exists k, k <= 3650 /\ first_over_budget s allowed today k
             /\ calc_streak_upto fuel s today allowed = Some k)
  \/ ((forall j, 0 <= j <= 3650 ->
         over_budget s allowed today (today - j) = false)
      /\ calc_streak_upto fuel s today allowed = Some 3651).
Proof.
  intros Hmand Hfuel. unfold calc_streak_upto. rewrite Hmand. simpl.
  destruct (first_over_budget_search s allowed today 3651)
    as [(k & Hk & Hfirst)|Hnone].
  - left. exists k. split; [lia|]. split; [done|].
    destruct Hfirst as (Hk0 & Hover & Hclean).
    rewrite (walk_reaches s allowed today (today - k) (Z.to_nat k)
               (Walk 0 today (monday today) 0)) with (fuel := fuel);
      simpl; try done; try lia.
    + f_equal. lia.
    + apply at_head_init.
    + intros y Hy. replace y with (today - (today - y)) by lia.
      apply Hclean. lia.
  - right. split; [intros j Hj; apply Hnone; lia|].
    apply (walk_saturates s allowed today 3650); simpl; try done; try lia.
    + apply at_head_init.
    + intros y Hy. replace y with (today - (today - y)) by lia.
      apply Hnone. lia.
Qed.

(** X18.  When none of the 3651 days from the reference date backwards is
    over its week's budget, the streak is 3651. *)
Theorem streak_saturates (s : db) (today : date) (allowed : Z) (fuel : nat) :
  db_any_mandatory_exists s = true ->
  (forall j, 0 <= j <= 3650 ->
     over_budget s allowed today (today - j) = false) ->
  (3651 <= fuel)%nat ->
  calc_streak_upto fuel s today allowed = Some 3651.
Proof.
  intros Hmand Hnone Hfuel.
  destruct (calc_streak_value s today allowed fuel Hmand Hfuel)
    as [(k & Hk & (Hk0 & Hover & _) & _)|[_ H]]; [|done].
  rewrite Hnone in Hover by lia. done.
Qed.

Lemma store_idle_never_over_budget (allowed today x : Z) :
  over_budget store_idle allowed today x = false.
Proof.
  unfold over_budget.
  assert (day_is_success_for_streak store_idle x = true) as ->; [|done].
  apply day_is_success_iff. intros a Ha _ Hmask.
  apply list_elem_of_singleton in Ha as ->. simpl in Hmask.
  unfold mask_has_day in Hmask. by rewrite Z.shiftr_0_l in Hmask.
Qed.

Lemma streak_saturates_witness :
  calc_streak_upto 4000 store_idle 738946 1 = Some 3651.
Proof.
  apply (streak_saturates store_idle 738946 1 4000).
  - reflexivity.
  - intros j Hj. apply store_idle_never_over_budget.
  - lia.
Defined.


Lemma over_budget_mono (s : db) (allowed allowed' today x : Z) :
  allowed <= allowed' ->
  over_budget s allowed' today x = true -> over_budget s allowed today x = true.
Proof.
  unfold over_budget. intros Hle H.
  apply andb_true_iff in H as [Hfail Hlt]. rewrite Hfail. simpl.
  apply Z.ltb_lt in Hlt. apply Z.ltb_lt. lia.
Qed.

(** X19.  A larger weekly allowance never gives a shorter streak. *)
Theorem streak_monotone_in_allowance (s : db) (today : date)
    (allowed allowed' : Z) (fuel : nat) (r r' : Z) :
  allowed <= allowed' -> (3651 <= fuel)%nat ->
  calc_streak_upto fuel s today allowed = Some r ->
  calc_streak_upto fuel s today allowed' = Some r' ->
  r <= r'.
Proof.
  intros Hle Hfuel Hr Hr'.
  destruct (db_any_mandatory_exists s) eqn:Hmand.
  2: { unfold calc_streak_upto in *. rewrite Hmand in *. simpl in *.
       injection Hr as <-. injection Hr' as <-. lia. }
  destruct (calc_streak_value s today allowed fuel Hmand Hfuel)
    as [(k & Hk & (Hk0 & Hover & Hclean) & Hv)|[Hnone Hv]];
    rewrite Hv in Hr; injection Hr as <-;
  destruct (calc_streak_value s today allowed' fuel Hmand Hfuel)
    as [(k' & Hk' & (Hk0' & Hover' & Hclean') & Hv')|[Hnone' Hv']];
    rewrite Hv' in Hr'; injection Hr' as <-; try lia.
  - destruct (Z.le_gt_cases k k') as [|Hlt]; [done|].
    pose proof (over_budget_mono s allowed allowed' today _ Hle Hover') as Ho.
    rewrite Hclean in Ho by lia. done.
  - pose proof (over_budget_mono s allowed allowed' today _ Hle Hover') as Ho.
    rewrite Hnone in Ho by lia. done.
Qed.

Lemma streak_monotone_in_allowance_witness :
  calc_streak_upto 3651 store_two_misses 738946 0 = Some 2
  /\ calc_streak_upto 3651 store_two_misses 738946 1 = Some 4
  /\ 2 <= 4.
Proof.
  assert (calc_streak_upto 3651 store_two_misses 738946 0 = Some 2) as H0
    by (vm_compute; reflexivity).
  assert (calc_streak_upto 3651 store_two_misses 738946 1 = Some 4) as H1
    by (vm_compute; reflexivity).
  split; [done|]. split; [done|].
  apply (streak_monotone_in_allowance store_two_misses 738946 0 1 3651 2 4);
    [lia|lia|exact H0|exact H1].
Defined.

(** * The helpers *)

(** X20.  [monday d] is the Monday of the week of [d]: it has weekday 0,
    lies at most six days before [d], and two days have the same Monday
    exactly when neither lies before the other's Monday. *)
Theorem monday_of_week (x y : date) :
  0 <= weekday x <= 6
  /\ weekday (monday x) = 0
  /\ monday x <= x < monday x + 7
  /\ monday (monday x) = monday x
  /\ monday (x + 7) = monday x + 7
  /\ (monday x = monday y <-> monday x <= y < monday x + 7).
Proof. repeat split; try week_arith. Qed.

(** X21.  [daterange d1 d2] lists exactly the days from [d1] to [d2], each
    once and in ascending order; it is empty when [d2] lies before
    [d1]. *)
Theorem daterange_days (d1 d2 : date) :
  (forall y, y ∈ daterange d1 d2 <-> d1 <= y <= d2)
  /\ length (daterange d1 d2) = Z.to_nat (d2 - d1 + 1)
  /\ StronglySorted Z.lt (daterange d1 d2)
  /\ (d2 < d1 -> daterange d1 d2 = []).
Proof.
  split; [|split; [apply length_daterange|split; [|apply daterange_nil]]].
  - intros y. split; [apply elem_of_daterange|]. intros Hy.
    unfold daterange. apply list_elem_of_fmap.
    exists (Z.to_nat (y - d1)). split; [lia|]. apply elem_of_seq. lia.
  - unfold daterange. generalize (Z.to_nat (d2 - d1 + 1)). intros n.
    generalize 0%nat. induction n as [|n IH]; intros k; simpl; constructor.
    + apply IH.
    + apply Forall_forall. intros y Hy.
      apply list_elem_of_fmap in Hy as (i & -> & Hi).
      apply elem_of_seq in Hi. lia.
Qed.

Example daterange_week :
  daterange 738942 738948
  = [738942; 738943; 738944; 738945; 738946; 738947; 738948].
Proof. reflexivity. Qed.

(** * More on the statistics *)


Lemma sum_list_bump (l : list Z) (i : nat) :
  (i < length l)%nat ->
  sum_list (<[i := l !!! i + 1]> l) = sum_list l + 1
  /\ (Forall (Z.le 0) l -> Forall (Z.le 0) (<[i := l !!! i + 1]> l)).
Proof.
  revert i. induction l as [|x l IH]; intros i Hi; simpl in *; [lia|].
  destruct i as [|i]; simpl.
  - split; [unfold sum_list; simpl; lia|].
    intros H. apply Forall_cons in H as [Hx Hl]. constructor; [lia|done].
  - destruct (IH i) as [Hs Hf]; [lia|].
    split; [unfold sum_list in *; simpl; lia|].
    intros H. apply Forall_cons in H as [Hx Hl]. constructor; [done|by apply Hf].
Qed.

Lemma weekday_lt_7 (x : date) : (Z.to_nat (weekday x) < 7)%nat.
Proof. unfold weekday. pose proof (Z.mod_pos_bound (x + 6) 7). lia. Qed.

Lemma day_loop_totals done_map a_id days_mask (days : list date) p0 d0 dd0 :
  length dd0 = 7%nat ->
  let '(p, d, dd) :=
    foldl (day_loop done_map a_id days_mask) (p0, d0, dd0) days in
  length dd = 7%nat
  /\ sum_list dd - sum_list dd0 = d - d0
  /\ (Forall (Z.le 0) dd0 -> Forall (Z.le 0) dd).
Proof.
  revert p0 d0 dd0. induction days as [|x days IH]; intros p0 d0 dd0 Hlen;
    simpl.
  - split; [done|]. split; [lia|done].
  - destruct (mask_has_day days_mask (weekday x)); [|by apply IH].
    destruct (default 0 (done_map !! (a_id, isoformat x)) =? 1);
      [|by apply IH].
    destruct (sum_list_bump dd0 (Z.to_nat (weekday x))) as [Hs Hf].
    { rewrite Hlen. apply weekday_lt_7. }
    specialize (IH (p0 + 1) (d0 + 1)
      (<[Z.to_nat (weekday x) := dd0 !!! Z.to_nat (weekday x) + 1]> dd0)).
    destruct (foldl _ _ days) as [[p d] dd].
    destruct IH as (Hl & Hsum & Hnn); [by rewrite length_insert|].
    split; [done|]. split; [lia|]. intros H. by apply Hnn, Hf.
Qed.

Lemma calc_range_stats_totals (s : db) (start_d end_d : date) :
  let '(per_act, day_done) := _calc_range_stats s start_d end_d in
  sum_list day_done = sum_list ((fun '(_, _, d) => d) <$> per_act)
  /\ Forall (Z.le 0) day_done.
Proof.
  unfold _calc_range_stats.
  generalize (db_bulk_done_map (isoformat start_d) (isoformat end_d) s).
  intros done_map.
  assert (forall rows per0 dd0, length dd0 = 7%nat ->
    let '(per_act, day_done) :=
      foldl (activity_loop done_map start_d end_d) (per0, dd0) rows in
    length day_done = 7%nat
    /\ sum_list day_done - sum_list dd0
       = sum_list ((fun '(_, _, d) => d) <$> per_act)
         - sum_list ((fun '(_, _, d) => d) <$> per0)
    /\ (Forall (Z.le 0) dd0 -> Forall (Z.le 0) day_done)) as Hgen.
  { induction rows as [|[[[a_id name] mandatory] days_mask] rows IH];
      intros per0 dd0 Hlen; simpl.
    - split; [done|]. split; [lia|done].
    - pose proof (day_loop_totals done_map a_id days_mask
                    (daterange start_d end_d) 0 0 dd0 Hlen) as Hday.
      destruct (foldl (day_loop _ _ _) _ _) as [[p d] dd].
      destruct Hday as (Hl & Hsum & Hnn).
      specialize (IH (per0 ++ [(name, p, d)]) dd Hl).
      destruct (foldl _ _ rows) as [per_act day_done].
      destruct IH as (Hl' & Hsum' & Hnn').
      split; [done|]. split; [|by intros H; apply Hnn', Hnn].
      rewrite fmap_app in Hsum'. unfold sum_list in *.
      rewrite foldr_app in Hsum'. simpl in Hsum'.
      assert (forall (l : list Z) (z : Z), foldr Z.add z l = foldr Z.add 0 l + z)
        as Hshift.
      { induction l as [|y l IHl]; intros z; simpl; [lia|]. rewrite IHl. lia. }
      rewrite (Hshift _ (d + 0)) in Hsum'. lia. }
  specialize (Hgen (db_list_activities s) [] (replicate 7 0) eq_refl).
  destruct (foldl _ _ (db_list_activities s)) as [per_act day_done].
  destruct Hgen as (_ & Hsum & Hnn). split.
  - simpl in Hsum. unfold sum_list in *. simpl in Hsum. lia.
  - apply Hnn. by repeat constructor.
Qed.

(** X22.  For every range, each activity's done count lies between 0 and
    its planned count, which is the number of days of the range that
    its mask plans; the seven weekday counters are not negative and add
    up to the sum of the done counts. *)
Theorem range_stats_counts (s : db) (start_d end_d : date) :
  let per_act := (_calc_range_stats s start_d end_d).1 in
  let day_done := (_calc_range_stats s start_d end_d).2 in
  length day_done = 7%nat
  /\ Forall (Z.le 0) day_done
  /\ sum_list day_done = sum_list ((fun '(_, _, d) => d) <$> per_act)
  /\ (forall n p d, (n, p, d) ∈ per_act ->
        0 <= d <= p
        /\ exists a_id mandatory days_mask,
             (a_id, n, mandatory, days_mask) ∈ db_list_activities s
             /\ p = planned_days days_mask start_d end_d)
  /\ (end_d < start_d -> forall n p d, (n, p, d) ∈ per_act -> p = 0 /\ d = 0).
Proof.
  intros per_act day_done. subst per_act day_done.
  pose proof (calc_range_stats_inv s start_d end_d) as Hinv.
  pose proof (calc_range_stats_totals s start_d end_d) as Htot.
  pose proof (calc_range_stats_planned s start_d end_d) as Hpl.
  destruct (_calc_range_stats s start_d end_d) as [per_act day_done].
  destruct Hinv as (_ & Hb & Hlen), Htot as (Hsum & Hnn). simpl in *.
  split; [done|]. split; [done|]. split; [done|]. split.
  - intros n p d Hin. split; [by apply (Hb n p d)|]. by apply (Hpl n p d).
  - intros Hlt n p d Hin. destruct (Hb n p d Hin). lia.
Qed.

(** X23.  When a strongest day is shown, its count is at least 1. *)
Theorem strong_day_count_positive (s : db) (today : date) (idx mx : Z) :
  load_data_strong_day s today = Ok (Some (idx, mx)) -> 1 <= mx.
Proof.
  unfold load_data_strong_day.
  pose proof (calc_range_stats_totals s (today - 29) today) as Htot.
  destruct (_calc_range_stats s (today - 29) today) as [per_act day_done].
  destruct Htot as [_ Hnn]. intros Hs.
  destruct (strongest_day_spec day_done) as [Hnone Hsome].
  destruct (py_any day_done) eqn:Hany.
  - assert (exists x, x ∈ day_done /\ x <> 0) as (x & Hx & Hx0).
    { unfold py_any in Hany. apply existsb_elem_of in Hany as (x & Hx & Hn).
      exists x. split; [done|]. apply negb_true_iff in Hn. lia. }
    destruct (Hsome (ex_intro _ x (conj Hx Hx0)))
      as (idx' & mx' & Hr & _ & _ & Hmax & _).
    rewrite Hr in Hs. injection Hs as <- <-.
    pose proof (Hmax x Hx). pose proof (proj1 (Forall_forall _ _) Hnn x Hx).
    simpl in *. lia.
  - unfold strongest_day in Hs. by rewrite Hany in Hs.
Qed.

Lemma strong_day_count_positive_witness :
  load_data_strong_day store_optional 738946 = Ok (Some (4, 2)) /\ 1 <= 2.
Proof.
  assert (load_data_strong_day store_optional 738946 = Ok (Some (4, 2))) as H
    by (vm_compute; reflexivity).
  split; [done|].
  exact (strong_day_count_positive store_optional 738946 4 2 H).
Defined.

(** * The statistics and the store *)

(** ** The order of dates and of their texts *)

(** The calendar repeats every 400 years. *)
Lemma ord2ymd_cycle (x q : Z) :
  ord2ymd (x + q * DI400Y)
  = let '(y, m, d) := ord2ymd x in (y + 400 * q, m, d).
Proof.
  unfold ord2ymd.
  replace (x + q * DI400Y - 1) with (x - 1 + q * DI400Y) by lia.
  rewrite Z.div_add, Z.mod_add by done.
  set (n := (x - 1) mod DI400Y).
  set (n400 := (x - 1) / DI400Y).
  destruct ((n mod DI100Y mod DI4Y / 365 =? 4) || (n / DI100Y =? 4)).
  - f_equal. f_equal. lia.
  - destruct (_ <? _); f_equal; f_equal; lia.
Qed.

Lemma ymd_increasing_spec (n : nat) : forall x,
  ymd_increasing n x (ord2ymd x) = true ->
  forall k, 0 <= k < Z.of_nat n ->
    ymd_ok (ord2ymd (x + k)) = true
    /\ ymd_ltb (ord2ymd (x + k)) (ord2ymd (x + k + 1)) = true.
Proof.
  induction n as [|n IH]; intros x Hinc k Hk; [lia|].
  simpl in Hinc.
  destruct (ymd_ok (ord2ymd x) && ymd_ltb (ord2ymd x) (ord2ymd (x + 1))) eqn:Hs;
    [|done].
  apply andb_true_iff in Hs as [Hok Hlt].
  destruct (decide (k = 0)) as [->|Hne].
  - by rewrite Z.add_0_r.
  - destruct (IH (x + 1) Hinc (k - 1)) as [H1 H2]; [lia|].
    replace (x + 1 + (k - 1)) with (x + k) in * by lia. done.
Qed.

(** One cycle, day by day. *)
Lemma ymd_cycle_checked :
  ymd_increasing (Z.to_nat DI400Y) 1 (ord2ymd 1) = true.
Proof. vm_compute. reflexivity. Qed.

(** Hence every day has a month and a day of the month, and comes before
    the next day in the order of (year, month, day). *)
Lemma ymd_step (x : date) :
  ymd_ok (ord2ymd x) = true /\ ymd_ltb (ord2ymd x) (ord2ymd (x + 1)) = true.
Proof.
  set (q := (x - 1) / DI400Y). set (r := (x - 1) mod DI400Y).
  assert (x = 1 + r + q * DI400Y) as Hx.
  { unfold q, r. pose proof (Z.div_mod (x - 1) DI400Y). unfold DI400Y in *. lia. }
  assert (0 <= r < DI400Y) as Hr by (apply Z.mod_pos_bound; done).
  destruct (ymd_increasing_spec _ 1 ymd_cycle_checked r) as [Hok Hlt].
  { unfold DI400Y in *. lia. }
  rewrite Hx. replace (1 + r + q * DI400Y + 1) with (1 + r + 1 + q * DI400Y) by lia.
  rewrite !ord2ymd_cycle.
  destruct (ord2ymd (1 + r)) as [[y1 m1] d1], (ord2ymd (1 + r + 1)) as [[y2 m2] d2].
  split; [done|]. unfold ymd_ltb in *.
  repeat match goal with
         | H : context [ (?a <? ?b) ] |- _ => destruct (Z.ltb_spec a b)
         | H : context [ (?a =? ?b) ] |- _ => destruct (Z.eqb_spec a b)
         end; simpl in *; try done;
  repeat match goal with
         | |- context [ (?a <? ?b) ] => destruct (Z.ltb_spec a b)
         | |- context [ (?a =? ?b) ] => destruct (Z.eqb_spec a b)
         end; simpl; try done; lia.
Qed.

Lemma str_compare_refl (a : pystr) : str_compare a a = Eq.
Proof. induction a as [|x a IH]; [done|]. simpl. by rewrite N.compare_refl. Qed.

Lemma str_compare_app (a a' b b' : pystr) :
  length a = length a' ->
  str_compare (a ++ b) (a' ++ b')
  = match str_compare a a' with Eq => str_compare b b' | c => c end.
Proof.
  revert a'. induction a as [|x a IH]; intros [|y a'] Hlen; try done.
  simpl. destruct (N.compare x y); [|done..].
  apply IH. simpl in Hlen. lia.
Qed.

Lemma str_ltb_trans (a b c : pystr) :
  str_ltb a b = true -> str_ltb b c = true -> str_ltb a c = true.
Proof.
  unfold str_ltb. revert b c.
  induction a as [|x a IH]; intros [|y b] [|z c]; simpl; try done.
  destruct (N.compare_spec x y) as [->|Hxy|Hxy]; [| |done].
  - destruct (N.compare_spec y z) as [->|Hyz|Hyz]; [|done..]. apply IH.
  - intros _. destruct (N.compare_spec y z) as [->|Hyz|Hyz]; [| |done]; intros _.
    + by rewrite (proj2 (N.compare_lt_iff _ _) Hxy).
    + rewrite (proj2 (N.compare_lt_iff x z)); [done|lia].
Qed.

Lemma zpad_increasing_spec (w n : nat) : forall x,
  zpad_increasing w n x = true ->
  forall k, 0 <= k <= Z.of_nat n ->
    length (zpad w (x + k)) = w
    /\ (k < Z.of_nat n -> str_ltb (zpad w (x + k)) (zpad w (x + k + 1)) = true).
Proof.
  induction n as [|n IH]; intros x Hinc k Hk; simpl in Hinc.
  - assert (k = 0) as -> by lia. rewrite Z.add_0_r.
    split; [by apply Nat.eqb_eq|lia].
  - destruct ((length (zpad w x) =? w)%nat
              && str_ltb (zpad w x) (zpad w (x + 1))) eqn:Hs; [|done].
    apply andb_true_iff in Hs as [Hlen Hlt]. apply Nat.eqb_eq in Hlen.
    destruct (decide (k = 0)) as [->|Hne].
    + by rewrite Z.add_0_r.
    + destruct (IH (x + 1) Hinc (k - 1)) as [H1 H2]; [lia|].
      replace (x + 1 + (k - 1)) with (x + k) in * by lia.
      split; [done|]. intros Hlt'. apply H2. lia.
Qed.

Lemma zpad_lt (w n : nat) :
  zpad_increasing w n 0 = true ->
  forall a b, 0 <= a -> a < b -> b <= Z.of_nat n ->
    str_ltb (zpad w a) (zpad w b) = true.
Proof.
  intros Hinc a b Ha Hab Hb.
  assert (forall k : nat, a + 1 + Z.of_nat k <= Z.of_nat n ->
            str_ltb (zpad w a) (zpad w (a + 1 + Z.of_nat k)) = true) as Hgen.
  { induction k as [|k IH]; intros Hk.
    - rewrite Z.add_0_r.
      destruct (zpad_increasing_spec w n 0 Hinc a) as [_ H]; [lia|].
      apply H. lia.
    - eapply str_ltb_trans; [apply IH; lia|].
      destruct (zpad_increasing_spec w n 0 Hinc (a + 1 + Z.of_nat k)) as [_ H];
        [lia|].
      simpl in H. replace (a + 1 + Z.of_nat (S k)) with (a + 1 + Z.of_nat k + 1)
        by lia.
      apply H. lia. }
  specialize (Hgen (Z.to_nat (b - a - 1))).
  replace (a + 1 + Z.of_nat (Z.to_nat (b - a - 1))) with b in Hgen by lia.
  apply Hgen. lia.
Qed.

Lemma zpad_length (w n : nat) :
  zpad_increasing w n 0 = true ->
  forall a, 0 <= a <= Z.of_nat n -> length (zpad w a) = w.
Proof.
  intros Hinc a Ha.
  by destruct (zpad_increasing_spec w n 0 Hinc a Ha) as [H _].
Qed.

(** Years of up to four digits, months and days of up to two. *)
Lemma zpad4_checked : zpad_increasing 4 (Z.to_nat 9999) 0 = true.
Proof. vm_compute. reflexivity. Qed.

Lemma zpad2_checked : zpad_increasing 2 (Z.to_nat 99) 0 = true.
Proof. vm_compute. reflexivity. Qed.

Lemma ymd_ltb_trans (a b c : Z * Z * Z) :
  ymd_ltb a b = true -> ymd_ltb b c = true -> ymd_ltb a c = true.
Proof.
  destruct a as [[y1 m1] d1], b as [[y2 m2] d2], c as [[y3 m3] d3].
  unfold ymd_ltb.
  rewrite !orb_true_iff, !andb_true_iff, !orb_true_iff, !andb_true_iff,
    !Z.ltb_lt, !Z.eqb_eq.
  lia.
Qed.

Lemma ord2ymd_lt (a b : date) :
  a < b -> ymd_ltb (ord2ymd a) (ord2ymd b) = true.
Proof.
  intros Hab.
  assert (forall k : nat, ymd_ltb (ord2ymd a) (ord2ymd (a + 1 + Z.of_nat k)) = true)
    as Hgen.
  { induction k as [|k IH].
    - rewrite Z.add_0_r. apply ymd_step.
    - eapply ymd_ltb_trans; [apply IH|].
      replace (a + 1 + Z.of_nat (S k)) with (a + 1 + Z.of_nat k + 1) by lia.
      apply ymd_step. }
  specialize (Hgen (Z.to_nat (b - a - 1))).
  by replace (a + 1 + Z.of_nat (Z.to_nat (b - a - 1))) with b in Hgen by lia.
Qed.

Lemma ord2ymd_range (x : date) :
  date_min <= x <= date_max ->
  let '(y, m, d) := ord2ymd x in 1 <= y <= 9999 /\ 1 <= m <= 12 /\ 1 <= d <= 31.
Proof.
  intros [Hlo Hhi].
  pose proof (proj1 (ymd_step x)) as Hok.
  assert (x = date_min \/ date_min < x) as [->|Hlo'] by lia.
  { vm_compute. repeat split; discriminate. }
  assert (x = date_max \/ x < date_max) as [->|Hhi'] by lia.
  { vm_compute. repeat split; discriminate. }
  pose proof (ord2ymd_lt _ _ Hlo') as H1.
  pose proof (ord2ymd_lt _ _ Hhi') as H2.
  change (ord2ymd date_min) with (1, 1, 1) in H1.
  change (ord2ymd date_max) with (9999, 12, 31) in H2.
  destruct (ord2ymd x) as [[y m] d]. unfold ymd_ltb, ymd_ok in *.
  rewrite !andb_true_iff, !Z.leb_le in Hok.
  rewrite !orb_true_iff, !andb_true_iff, !orb_true_iff, !andb_true_iff,
    !Z.ltb_lt, !Z.eqb_eq in H1, H2.
  lia.
Qed.

(** The texts of two dates of the calendar are ordered as the dates. *)
Lemma isoformat_lt (a b : date) :
  date_min <= a -> a < b -> b <= date_max ->
  str_ltb (isoformat a) (isoformat b) = true.
Proof.
  intros Ha Hab Hb.
  pose proof (ord2ymd_range a) as Hra. pose proof (ord2ymd_range b) as Hrb.
  pose proof (ord2ymd_lt a b Hab) as Hlt.
  unfold isoformat.
  destruct (ord2ymd a) as [[y1 m1] d1], (ord2ymd b) as [[y2 m2] d2].
  destruct Hra as (Hy1 & Hm1 & Hd1); [lia|].
  destruct Hrb as (Hy2 & Hm2 & Hd2); [lia|].
  unfold ymd_ltb in Hlt.
  rewrite !orb_true_iff, !andb_true_iff, !orb_true_iff, !andb_true_iff,
    !Z.ltb_lt, !Z.eqb_eq in Hlt.
  pose proof (zpad_lt 4 _ zpad4_checked) as L4.
  pose proof (zpad_lt 2 _ zpad2_checked) as L2.
  pose proof (zpad_length 4 _ zpad4_checked) as N4.
  pose proof (zpad_length 2 _ zpad2_checked) as N2.
  unfold str_ltb in *.
  rewrite str_compare_app by (rewrite !N4; [done|lia..]).
  destruct Hlt as [Hy|[-> Hlt]].
  { specialize (L4 y1 y2 ltac:(lia) Hy ltac:(lia)).
    by destruct (str_compare (zpad 4 y1) (zpad 4 y2)). }
  rewrite str_compare_refl, (str_compare_app [45%N] [45%N]) by done.
  change (str_compare [45%N] [45%N]) with Eq. cbv iota.
  rewrite str_compare_app by (rewrite !N2; [done|lia..]).
  destruct Hlt as [Hm|[-> Hd]].
  { specialize (L2 m1 m2 ltac:(lia) Hm ltac:(lia)).
    by destruct (str_compare (zpad 2 m1) (zpad 2 m2)). }
  rewrite str_compare_refl, (str_compare_app [45%N] [45%N]) by done.
  change (str_compare [45%N] [45%N]) with Eq. cbv iota.
  apply L2; lia.
Qed.

Lemma isoformat_le (a b : date) :
  date_min <= a -> a <= b -> b <= date_max ->
  str_leb (isoformat a) (isoformat b) = true.
Proof.
  intros Ha Hab Hb. unfold str_leb.
  destruct (decide (a = b)) as [->|Hne]; [by rewrite str_compare_refl|].
  pose proof (isoformat_lt a b Ha ltac:(lia) Hb) as Hlt. unfold str_ltb in Hlt.
  by destruct (str_compare _ _).
Qed.

(** ** The loops of [_calc_range_stats], exactly *)

Lemma count_if_cons (P : date -> bool) (x : date) (l : list date) :
  count_if P (x :: l) = bool_int (P x) + count_if P l.
Proof.
  unfold count_if. rewrite filter_cons. case_decide as H.
  - apply Is_true_true in H. rewrite H. simpl length. unfold bool_int. lia.
  - apply Is_true_false in H. rewrite H. unfold bool_int. lia.
Qed.

Lemma count_if_ext_in (P Q : date -> bool) (l : list date) :
  (forall x, x ∈ l -> P x = Q x) -> count_if P l = count_if Q l.
Proof.
  induction l as [|x l IH]; intros H; [done|].
  rewrite !count_if_cons, (H x) by apply list_elem_of_here.
  rewrite IH; [done|]. intros y Hy. by apply H, list_elem_of_further.
Qed.

Lemma planned_days_count (days_mask : Z) (start_d end_d : date) :
  planned_days days_mask start_d end_d
  = count_if (fun x => mask_has_day days_mask (weekday x))
             (daterange start_d end_d).
Proof. done. Qed.

Lemma triple_eq {A} (a a' b b' : Z) (c : A) :
  a = a' -> b = b' -> (a, b, c) = (a', b', c).
Proof. by intros -> ->. Qed.

(** The inner loop adds the planned days, the done days and, for each
    weekday, the done days that fall on it. *)
Lemma day_loop_exact done_map a_id days_mask (days : list date) :
  forall p0 d0 dd0, length dd0 = 7%nat ->
  exists dd,
    foldl (day_loop done_map a_id days_mask) (p0, d0, dd0) days
    = (p0 + count_if (fun x => mask_has_day days_mask (weekday x)) days,
       d0 + count_if (hit done_map a_id days_mask) days, dd)
    /\ length dd = 7%nat
    /\ forall i : nat,
         dd !!! i
         = dd0 !!! i
           + count_if (fun x => hit done_map a_id days_mask x
                                && (weekday x =? Z.of_nat i)) days.
Proof.
  induction days as [|x days IH]; intros p0 d0 dd0 Hlen.
  - exists dd0. simpl. unfold count_if. simpl.
    rewrite !Z.add_0_r. split; [done|]. split; [done|]. intros i. lia.
  - assert (0 <= weekday x < 7) as Hw
      by (unfold weekday; apply Z.mod_pos_bound; lia).
    assert (Hstep : forall acc,
      foldl (day_loop done_map a_id days_mask) acc (x :: days)
      = foldl (day_loop done_map a_id days_mask)
              (day_loop done_map a_id days_mask acc x) days) by done.
    rewrite Hstep. unfold day_loop at 2.
    assert (Hhit : hit done_map a_id days_mask x
                   = mask_has_day days_mask (weekday x)
                     && (default 0 (done_map !! (a_id, isoformat x)) =? 1))
      by done.
    destruct (mask_has_day days_mask (weekday x)) eqn:Hm.
    + destruct (default 0 (done_map !! (a_id, isoformat x)) =? 1) eqn:Hd.
      * assert (length (<[Z.to_nat (weekday x)
                           := dd0 !!! Z.to_nat (weekday x) + 1]> dd0) = 7%nat)
          as Hlen' by (by rewrite length_insert).
        destruct (IH (p0 + 1) (d0 + 1) _ Hlen') as (dd & -> & Hl & Hdd).
        exists dd. rewrite !count_if_cons, Hhit, Hm. simpl bool_int.
        split; [apply triple_eq; lia|]. split; [done|].
        intros i. rewrite Hdd, count_if_cons, Hhit. simpl andb.
        destruct (decide (i = Z.to_nat (weekday x))) as [->|Hne].
        -- rewrite list_lookup_total_insert_eq by lia.
           rewrite (proj2 (Z.eqb_eq _ _)) by lia. simpl. lia.
        -- rewrite list_lookup_total_insert_ne by done.
           rewrite (proj2 (Z.eqb_neq _ _)) by lia. simpl. lia.
      * destruct (IH (p0 + 1) d0 dd0 Hlen) as (dd & -> & Hl & Hdd).
        exists dd. rewrite !count_if_cons, Hhit, Hm. simpl bool_int.
        split; [apply triple_eq; lia|]. split; [done|].
        intros i. rewrite Hdd, count_if_cons, Hhit. simpl. lia.
    + destruct (IH p0 d0 dd0 Hlen) as (dd & -> & Hl & Hdd).
      exists dd. rewrite !count_if_cons, Hhit, Hm. simpl bool_int.
      split; [apply triple_eq; lia|]. split; [done|].
      intros i. rewrite Hdd, count_if_cons, Hhit. simpl. lia.
Qed.

Lemma sum_list_cons (x : Z) (l : list Z) :
  sum_list (x :: l) = x + sum_list l.
Proof. done. Qed.

Lemma sum_list_Permutation (l1 l2 : list Z) :
  l1 ≡ₚ l2 -> sum_list l1 = sum_list l2.
Proof.
  unfold sum_list. induction 1; simpl; lia.
Qed.

(** The outer loop appends a row per activity and sums the weekday counts. *)
Lemma activity_loop_exact done_map (start_d end_d : date)
    (rows : list (Z * pystr * Z * Z)) :
  forall per0 dd0, length dd0 = 7%nat ->
  exists dd,
    foldl (activity_loop done_map start_d end_d) (per0, dd0) rows
    = (per0 ++ ((fun '(a_id, name, _, days_mask) =>
                   (name, planned_days days_mask start_d end_d,
                    count_if (hit done_map a_id days_mask)
                             (daterange start_d end_d))) <$> rows), dd)
    /\ length dd = 7%nat
    /\ forall i : nat,
         dd !!! i
         = dd0 !!! i
           + sum_list ((fun '(a_id, _, _, days_mask) =>
                          count_if (fun x => hit done_map a_id days_mask x
                                             && (weekday x =? Z.of_nat i))
                                   (daterange start_d end_d)) <$> rows).
Proof.
  induction rows as [|[[[a_id name] mandatory] days_mask] rows IH];
    intros per0 dd0 Hlen.
  - exists dd0. simpl. rewrite app_nil_r. split; [done|]. split; [done|].
    intros i. unfold sum_list. simpl. lia.
  - assert (Hstep : forall acc row,
      foldl (activity_loop done_map start_d end_d) acc (row :: rows)
      = foldl (activity_loop done_map start_d end_d)
              (activity_loop done_map start_d end_d acc row) rows) by done.
    rewrite Hstep. unfold activity_loop at 2. cbv beta iota.
    destruct (day_loop_exact done_map a_id days_mask (daterange start_d end_d)
                0 0 dd0 Hlen) as (dd1 & -> & Hl1 & Hdd1).
    destruct (IH (per0 ++ [(name,
                0 + count_if (fun x => mask_has_day days_mask (weekday x))
                             (daterange start_d end_d),
                0 + count_if (hit done_map a_id days_mask)
                             (daterange start_d end_d))]) dd1 Hl1)
      as (dd & -> & Hl & Hdd).
    exists dd. split; [|split; [done|]].
    + f_equal. rewrite <- app_assoc, fmap_cons. cbv beta iota.
      by rewrite planned_days_count.
    + intros i. rewrite Hdd, Hdd1, fmap_cons, sum_list_cons. cbv beta iota. lia.
Qed.

(** ** The map of a range and the rows of the store *)

(** With unique keys, a day reads as done exactly when the store holds
    the row with the value 1. *)
Lemma db_get_done_row (aid : Z) (day : pystr) (s : db) :
  NoDup ((fun c => (c_activity_id c, c_day c)) <$> completions s) ->
  db_get_done aid day s = 1 <-> Completion aid day 1 ∈ completions s.
Proof.
  intros Hnd.
  destruct (db_get_done_find aid day s) as [(c & Hc & Hat & ->)|[Hno ->]].
  - apply completion_at_true in Hat as [Hid Hday]. split.
    + intros H1. destruct c as [a d' v]. simpl in *. by subst.
    + intros Hin.
      assert (c = Completion aid day 1) as ->; [|done].
      apply (NoDup_fmap_eq (fun c => (c_activity_id c, c_day c))
               (completions s)); try done.
      simpl. congruence.
  - split; [done|]. intros Hin. specialize (Hno _ Hin).
    apply completion_at_false in Hno. simpl in Hno. by destruct Hno.
Qed.

(** Inside the range, the test made in the map is the test on the store. *)
Lemma hit_done_day (s : db) (start_d end_d x : date) (aid mask : Z) :
  NoDup ((fun c => (c_activity_id c, c_day c)) <$> completions s) ->
  date_min <= start_d -> end_d <= date_max -> start_d <= x <= end_d ->
  hit (db_bulk_done_map (isoformat start_d) (isoformat end_d) s) aid mask x
  = done_day s aid mask x.
Proof.
  intros Hnd Hlo Hhi Hx. unfold hit, done_day. f_equal.
  rewrite bulk_done_map_inside; [|done|].
  2: { rewrite !isoformat_le by lia. done. }
  pose proof (db_get_done_row aid (isoformat x) s Hnd) as Hrow.
  destruct (Z.eqb_spec (db_get_done aid (isoformat x) s) 1) as [H1|H1].
  - symmetry. apply bool_decide_eq_true_2. by apply Hrow.
  - symmetry. apply bool_decide_eq_false_2. intros Hin. by apply H1, Hrow.
Qed.

(** What [_calc_range_stats] returns, in terms of the store: a row per
    listed activity with its planned and done days, and the done count
    of each weekday. *)
Lemma calc_range_stats_exact (s : db) (start_d end_d : date) :
  NoDup ((fun c => (c_activity_id c, c_day c)) <$> completions s) ->
  date_min <= start_d -> end_d <= date_max ->
  _calc_range_stats s start_d end_d
  = ((fun '(a_id, name, _, days_mask) =>
        (name, planned_days days_mask start_d end_d,
         done_days s a_id days_mask start_d end_d)) <$> db_list_activities s,
     (fun i : nat => weekday_done s start_d end_d (Z.of_nat i)) <$> seq 0 7).
Proof.
  intros Hnd Hlo Hhi. unfold _calc_range_stats.
  destruct (activity_loop_exact
              (db_bulk_done_map (isoformat start_d) (isoformat end_d) s)
              start_d end_d (db_list_activities s) [] (replicate 7 0) eq_refl)
    as (dd & -> & Hl & Hdd).
  f_equal.
  - simpl. apply list_fmap_ext. intros i [[[a n] m] k] _. simpl.
    f_equal. unfold done_days. apply count_if_ext_in.
    intros x Hx. apply elem_of_daterange in Hx. by apply hit_done_day.
  - apply list_eq_same_length with 7%nat;
      [by rewrite length_fmap, length_seq|done|].
    intros i x y Hi Hx Hy.
    rewrite list_lookup_fmap, lookup_seq_lt in Hy by done. simpl in Hy.
    injection Hy as <-.
    apply list_lookup_total_correct in Hx. rewrite <- Hx, Hdd.
    rewrite lookup_total_replicate_2 by done.
    unfold weekday_done, db_list_activities.
    rewrite <- list_fmap_compose, Z.add_0_l.
    rewrite (sum_list_Permutation _ _
               (fmap_Permutation _ _ _ (merge_sort_Permutation _ (activities s)))).
    f_equal. apply list_fmap_ext. intros j a _. simpl.
    apply count_if_ext_in. intros z Hz. apply elem_of_daterange in Hz.
    by rewrite hit_done_day.
Qed.

(** ** The strongest day and the table *)

Lemma weekday_done_list (s : db) (start_d end_d : date) :
  NoDup ((fun c => (c_activity_id c, c_day c)) <$> completions s) ->
  date_min <= start_d -> end_d <= date_max ->
  (_calc_range_stats s start_d end_d).2
  = (fun i : nat => weekday_done s start_d end_d (Z.of_nat i)) <$> seq 0 7.
Proof. intros. by rewrite calc_range_stats_exact. Qed.

(** C8.  For a store whose completion keys are unique and a day whose
    30-day window lies within the calendar: the per-weekday done counts
    of the window are those of the store ([weekday_done]: the days of
    the window on that weekday that an activity plans and the store
    records as done, over all activities).  When all seven are zero no
    strongest day is shown; otherwise the day shown is a weekday whose
    count is the largest of the seven, the count shown is that count,
    and every weekday before it has a strictly smaller count. *)
Theorem strongest_day_of_window (s : db) (today : date) :
  NoDup ((fun c => (c_activity_id c, c_day c)) <$> completions s) ->
  date_min <= today - 29 -> today <= date_max ->
  let count := weekday_done s (today - 29) today in
  ((forall i, 0 <= i <= 6 -> count i = 0) ->
   load_data_strong_day s today = Ok None)
  /\ ((exists i, 0 <= i <= 6 /\ count i <> 0) ->
      exists idx,
        load_data_strong_day s today = Ok (Some (idx, count idx))
        /\ 0 <= idx <= 6
        /\ (forall j, 0 <= j <= 6 -> count j <= count idx)
        /\ (forall j, 0 <= j < idx -> count j < count idx)).
Proof.
  intros Hnd Hlo Hhi count. unfold load_data_strong_day.
  pose proof (weekday_done_list s (today - 29) today Hnd Hlo Hhi) as Hl.
  destruct (_calc_range_stats s (today - 29) today) as [per_act day_done].
  simpl in Hl. subst day_done. fold count.
  set (l := (fun i : nat => count (Z.of_nat i)) <$> seq 0 7).
  assert (Hlook : forall j : nat, (j < 7)%nat -> l !! j = Some (count (Z.of_nat j))).
  { intros j Hj. unfold l. by rewrite list_lookup_fmap, lookup_seq_lt. }
  assert (Hin : forall x, x ∈ l <-> exists i, 0 <= i <= 6 /\ x = count i).
  { intros x. unfold l. rewrite list_elem_of_fmap. split.
    - intros (i & -> & Hi). apply elem_of_seq in Hi. exists (Z.of_nat i).
      split; [lia|done].
    - intros (i & Hi & ->). exists (Z.to_nat i).
      split; [by rewrite Z2Nat.id by lia|]. apply elem_of_seq. lia. }
  destruct (strongest_day_spec l) as [Hnone Hsome]. split.
  - intros Hz. apply Hnone. intros x Hx. apply Hin in Hx as (i & Hi & ->).
    by apply Hz.
  - intros (i & Hi & Hnz).
    destruct Hsome as (idx & mx & Hr & Hidx & Hat & Hmax & Hfirst).
    { exists (count i). split; [|done]. apply Hin. eauto. }
    assert (length l = 7%nat) as Hlen
      by (unfold l; by rewrite length_fmap, length_seq).
    rewrite Hlen in Hidx.
    rewrite Hlook in Hat by lia. rewrite Z2Nat.id in Hat by lia.
    injection Hat as <-.
    exists idx. split; [done|]. split; [lia|]. split.
    + intros j Hj. apply Hmax, Hin. eauto.
    + intros j Hj. apply (Hfirst (Z.to_nat j)); [lia|].
      rewrite Hlook by lia. by rewrite Z2Nat.id by lia.
Qed.

Lemma strongest_day_of_window_witness :
  exists idx,
    load_data_strong_day store_optional 738946
    = Ok (Some (idx, weekday_done store_optional (738946 - 29) 738946 idx))
    /\ 0 <= idx <= 6
    /\ (forall j, 0 <= j <= 6 ->
          weekday_done store_optional (738946 - 29) 738946 j
          <= weekday_done store_optional (738946 - 29) 738946 idx)
    /\ (forall j, 0 <= j < idx ->
          weekday_done store_optional (738946 - 29) 738946 j
          < weekday_done store_optional (738946 - 29) 738946 idx).
Proof.
  apply (strongest_day_of_window store_optional 738946).
  - apply (bool_decide_unpack _). vm_compute. reflexivity.
  - unfold date_min. lia.
  - unfold date_max. lia.
  - exists 4. split; [lia|]. vm_compute. discriminate.
Defined.

Example weekday_done_store_optional :
  weekday_done store_optional (738946 - 29) 738946 4 = 2
  /\ load_data_strong_day store_optional 738946 = Ok (Some (4, 2)).
Proof. split; vm_compute; reflexivity. Qed.

(** A row of [_calc_range_stats] is the row of a stored activity. *)
Lemma listed_stats_row (s : db) (start_d end_d : date) (n : pystr) (p d : Z) :
  NoDup ((fun c => (c_activity_id c, c_day c)) <$> completions s) ->
  date_min <= start_d -> end_d <= date_max ->
  (n, p, d) ∈ (_calc_range_stats s start_d end_d).1 ->
  exists a, a ∈ activities s /\ n = a_name a
    /\ p = planned_days (a_days_mask a) start_d end_d
    /\ d = done_days s (a_id a) (a_days_mask a) start_d end_d.
Proof.
  intros Hnd Hlo Hhi. rewrite calc_range_stats_exact by done. simpl.
  intros Hin. apply list_elem_of_fmap in Hin as ([[[aid n'] m] k] & Heq & Hrow).
  injection Heq as -> -> ->.
  apply listed_rows in Hrow as (a & Ha & Heq). injection Heq as -> -> -> ->.
  by exists a.
Qed.

(** C7, as the code has it.  For a store whose names and completion keys
    are unique and a day whose 30-day window lies within the calendar,
    the table of [load_data] is computed without error; every activity
    has a row and every row is the row of an activity; for the 7-day
    and for the 30-day window the row shows the planned days of the
    activity (the days of the window that its mask plans), its done
    days (those of them that the store records as done) and as
    percentage the integer nearest to [100 * done / planned]; when
    nothing was planned it shows planned 0, done 0 and 0 per cent. *)
Theorem table_acts_percentages (lower : pystr -> pystr) (s : db)
    (today : date) :
  NoDup (a_name <$> activities s) ->
  NoDup ((fun c => (c_activity_id c, c_day c)) <$> completions s) ->
  date_min <= today - 29 -> today <= date_max ->
  exists rows,
    load_data_table_acts lower s today = Ok rows
    /\ (forall a, a ∈ activities s -> exists r, r ∈ rows /\ row_shows s today a r)
    /\ (forall r, r ∈ rows -> exists a, a ∈ activities s /\ row_shows s today a r).
Proof.
  intros Hnames Hkeys Hlo Hhi.
  destruct (table_acts_rows lower s today) as (rows & Hrows & Hall & Hrow).
  assert (Hshow : forall r, r ∈ rows ->
            exists a, a ∈ activities s /\ row_shows s today a r).
  { intros r Hr.
    destruct (Hrow r Hr) as (H7 & H30 & Hp7 & Hp30 & Hz7 & Hz30).
    apply listed_stats_row in H7 as (a & Ha & Hn & Hp & Hd); [|done|lia|done].
    apply listed_stats_row in H30 as (a' & Ha' & Hn' & Hp' & Hd'); [|done..].
    assert (a' = a) as ->.
    { apply (NoDup_fmap_eq a_name (activities s)); try done. congruence. }
    exists a. split; [done|]. unfold row_shows. tauto. }
  exists rows. split; [done|]. split; [|done].
  intros a Ha. destruct (Hall a Ha) as (r & Hr & Hn).
  exists r. split; [done|].
  destruct (Hshow r Hr) as (a' & Ha' & Hs).
  assert (a' = a) as ->; [|done].
  apply (NoDup_fmap_eq a_name (activities s)); try done.
  destruct Hs as [Hn' _]. congruence.
Qed.

Lemma table_acts_percentages_witness :
  exists rows,
    load_data_table_acts id store_two_misses 738946 = Ok rows
    /\ (forall a, a ∈ activities store_two_misses ->
          exists r, r ∈ rows /\ row_shows store_two_misses 738946 a r)
    /\ (forall r, r ∈ rows ->
          exists a, a ∈ activities store_two_misses
                    /\ row_shows store_two_misses 738946 a r).
Proof.
  apply (table_acts_percentages id store_two_misses 738946).
  - apply (bool_decide_unpack _). vm_compute. reflexivity.
  - apply (bool_decide_unpack _). vm_compute. reflexivity.
  - unfold date_min. lia.
  - unfold date_max. lia.
Defined.

(** C7 as stated fails on a longer range: over the 40 days that end on
    2024-03-01 the activity of [store_forty] has 40 planned and 23 done
    days, that is 57.5 per cent, and the expression of [load_data]
    evaluates to 57 where the nearest integer is 58. *)
Lemma percentage_of_forty_days :
  (_calc_range_stats store_forty 738907 738946).1 = [(py "Run", 40, 23)]
  /\ planned_days 127 738907 738946 = 40
  /\ done_days store_forty 1 127 738907 738946 = 23
  /\ percent 23 40 = Ok 57
  /\ spec_percent 23 40 = 58.
Proof. repeat split; vm_compute; reflexivity. Qed.

(** * More on start-up *)

(** X24.  [ensure_db_ok_or_rebuild] leaves the data directory as it is when
    there is no store file or the store passes the check, and in every
    case it touches no path other than the store's and the archive's. *)
Theorem ensure_db_leaves_rest (DATA_DIR : pystr) (env : environment)
    (fs : gmap pystr file) :
  (fs !! DB_PATH DATA_DIR = None ->
   ensure_db_ok_or_rebuild DATA_DIR env fs = fs)
  /\ (forall f, fs !! DB_PATH DATA_DIR = Some f ->
        check_passed (integrity_check env f) = true ->
        ensure_db_ok_or_rebuild DATA_DIR env fs = fs)
  /\ (forall path, path <> DB_PATH DATA_DIR -> path <> bad_path DATA_DIR env ->
        ensure_db_ok_or_rebuild DATA_DIR env fs !! path = fs !! path).
Proof.
  unfold ensure_db_ok_or_rebuild. split; [by intros ->|]. split.
  - intros f -> Hok. by rewrite Hok.
  - intros path Hdb Hbad. destruct (fs !! DB_PATH DATA_DIR) as [f|] eqn:Hf;
      [|done].
    destruct (check_passed _); [done|]. unfold os_rename, os_remove.
    rewrite Hf. destruct (rename_succeeds env).
    + rewrite lookup_insert_ne by done. by rewrite lookup_delete_ne.
    + destruct (remove_succeeds env); [|done]. by rewrite lookup_delete_ne.
Qed.

(** * Marking a whole day *)


Lemma bulk_set_day_loop_spec (idx : Z) (iso : pystr) (value : bool)
    (rows : list (Z * pystr * Z * Z)) :
  (forall row, row ∈ rows -> fits_int64 row.1.1.1 = true) ->
  forall s,
  (forall row, row ∈ rows -> activity_exists row.1.1.1 s = true) ->
  exists s',
    bulk_set_day_loop idx iso value rows s = (Ok (), s')
    /\ activities s' = activities s
    /\ (forall aid, planned_row idx aid rows = true ->
          db_get_done aid iso s' = bool_int value)
    /\ (forall aid day, day <> iso \/ planned_row idx aid rows = false ->
          db_get_done aid day s' = db_get_done aid day s).
Proof.
  induction rows as [|[[[a n] m] mask] rows IH]; intros Hfit s Hex; simpl.
  - exists s. split; [done|]. split; [done|]. split; [|done].
    intros aid H. done.
  - assert (Hfa : fits_int64 a = true).
    { apply (Hfit (a, n, m, mask)), list_elem_of_here. }
    assert (Hfit' : forall row, row ∈ rows -> fits_int64 row.1.1.1 = true).
    { intros row Hrow. by apply Hfit, list_elem_of_further. }
    specialize (IH Hfit').
    assert (Hex' : forall s1, activities s1 = activities s ->
              forall row, row ∈ rows -> activity_exists row.1.1.1 s1 = true).
    { intros s1 Hacts row Hrow. unfold activity_exists. rewrite Hacts.
      apply Hex. by apply list_elem_of_further. }
    destruct (mask_has_day mask idx) eqn:Hmask.
    + assert (activity_exists a s = true) as Hea.
      { apply (Hex (a, n, m, mask)), list_elem_of_here. }
      assert (check_in_0_1 (if value then 1 else 0) = true) as Hck.
      { by destruct value. }
      pose proof (db_get_done_set_same a iso _ s Hfa Hea Hck) as Hread.
      pose proof (db_get_done_set_other a iso (if value then 1 else 0) s)
        as Hframe.
      pose proof (db_set_done_activities a iso (if value then 1 else 0) s)
        as Hacts.
      destruct (db_set_done a iso (if value then 1 else 0) s) as [r s1] eqn:Hset1.
      rewrite db_set_done_ok in Hset1 by done. injection Hset1 as <- Hs1.
      simpl in Hread, Hframe, Hacts.
      destruct (IH s1 (Hex' s1 Hacts)) as (s' & -> & Hacts' & Hset & Hrest).
      exists s'. split; [done|]. split; [congruence|]. split.
      * intros aid Hpl. rewrite andb_true_r in Hpl.
        destruct (planned_row idx aid rows) eqn:Hp; [by apply Hset|].
        rewrite orb_false_r in Hpl. apply Z.eqb_eq in Hpl as ->.
        rewrite Hrest by (by right). rewrite Hread. by destruct value.
      * intros aid day Hor. rewrite andb_true_r in Hor.
        rewrite Hrest.
        -- apply Hframe. intros Heq. injection Heq as -> ->.
           destruct Hor as [?|Hor]; [done|].
           by rewrite Z.eqb_refl in Hor.
        -- destruct Hor as [?|Hor]; [by left|]. right.
           by apply orb_false_iff in Hor as [_ ?].
    + destruct (IH s (Hex' s eq_refl)) as (s' & -> & Hacts' & Hset & Hrest).
      exists s'. split; [done|]. split; [done|]. split.
      * intros aid Hpl. rewrite andb_false_r in Hpl. by apply Hset.
      * intros aid day Hor. rewrite andb_false_r in Hor. by apply Hrest.
Qed.

(** X25.  In a store whose ids are SQLite INTEGERs, [bulk_set_day] never
    raises; with a day selected it records, for that day of the week
    shown, the value for every activity that is planned on it, leaves
    every other completion and all activities as they were; with no day
    selected it does nothing. *)
Theorem bulk_set_day_marks (idx : Z) (week_start : date) (value : bool)
    (s : db) :
  (forall a, a ∈ activities s -> fits_int64 (a_id a) = true) ->
  bulk_set_day None week_start value s = (Ok (), s)
  /\ exists s',
       bulk_set_day (Some idx) week_start value s = (Ok (), s')
       /\ activities s' = activities s
       /\ (forall a, a ∈ activities s ->
             mask_has_day (a_days_mask a) idx = true ->
             db_get_done (a_id a) (isoformat (week_start + idx)) s'
             = bool_int value)
       /\ (forall aid day,
             day <> isoformat (week_start + idx)
             \/ (forall a, a ∈ activities s -> a_id a = aid ->
                           mask_has_day (a_days_mask a) idx = false) ->
             db_get_done aid day s' = db_get_done aid day s).
Proof.
  intros Hfit. split; [done|]. unfold bulk_set_day.
  destruct (bulk_set_day_loop_spec idx (isoformat (week_start + idx)) value
              (db_list_activities s)) with (s := s)
    as (s' & Hs' & Hacts & Hset & Hrest).
  { intros row Hrow. apply listed_rows in Hrow as (a & Ha & ->). simpl.
    by apply Hfit. }
  { intros row Hrow. apply listed_rows in Hrow as (a & Ha & ->). simpl.
    apply activity_exists_true. eauto. }
  exists s'. split; [done|]. split; [done|]. split.
  - intros a Ha Hmask. apply Hset. unfold planned_row.
    apply existsb_elem_of.
    exists (a_id a, a_name a, a_mandatory a, a_days_mask a).
    split; [apply listed_rows; eauto|]. by rewrite Z.eqb_refl, Hmask.
  - intros aid day Hor. apply Hrest. destruct Hor as [?|Hnone]; [by left|].
    right. apply existsb_false_elem_of. intros [[[a n] m] mask] Hrow.
    apply listed_rows in Hrow as (a0 & Ha0 & Heq). injection Heq as -> -> -> ->.
    destruct (Z.eqb_spec (a_id a0) aid); [|done]. simpl. by apply Hnone.
Qed.

Lemma bulk_set_day_marks_witness :
  bulk_set_day None 738942 false store_optional = (Ok (), store_optional)
  /\ exists s',
       bulk_set_day (Some 4) 738942 false store_optional = (Ok (), s')
       /\ activities s' = activities store_optional
       /\ (forall a, a ∈ activities store_optional ->
             mask_has_day (a_days_mask a) 4 = true ->
             db_get_done (a_id a) (isoformat (738942 + 4)) s'
             = bool_int false)
       /\ (forall aid day,
             day <> isoformat (738942 + 4)
             \/ (forall a, a ∈ activities store_optional -> a_id a = aid ->
                           mask_has_day (a_days_mask a) 4 = false) ->
             db_get_done aid day s' = db_get_done aid day store_optional).
Proof.
  apply (bulk_set_day_marks 4 738942 false store_optional).
  intros a Ha.
  repeat (apply elem_of_cons in Ha as [-> | Ha]; [reflexivity|]).
  by apply elem_of_nil in Ha.
Defined.

Example bulk_set_day_friday :
  bulk_set_day (Some 4) 738942 false store_optional
  = (Ok (),
     Db (activities store_optional)
        [Completion 1 (py "2024-03-01") 0; Completion 2 (py "2024-03-01") 0]
        2).
Proof. vm_compute. reflexivity. Qed.

(** ** Clearing and updating *)

(** X26.  After [db_clear_all] nothing is listed, every day reads as not
    done, the bulk map is empty and the streak is 0; the sequence
    counter stays, so the next activity gets an id above every id ever
    used, and its sort order starts again at 1. *)
Theorem clear_all_empties (s : db) :
  let s' := db_clear_all s in
  db_list_activities s' = []
  /\ db_count_activities s' = 0
  /\ (forall aid day, db_get_done aid day s' = 0)
  /\ (forall start_iso end_iso, db_bulk_done_map start_iso end_iso s' = ∅)
  /\ (forall fuel today allowed,
        calc_streak_upto fuel s' today allowed = Some 0)
  /\ (forall name, strip (or_empty name) <> [] ->
        db_add_activity name s'
        = (Ok (true, py ""),
           Db [Activity (Z.max (sqlite_sequence s) 0 + 1)
                        (strip (or_empty name)) 0 127 1]
              [] (Z.max (sqlite_sequence s) 0 + 1))).
Proof.
  intros s'. split; [done|]. split; [done|]. split; [done|].
  split; [done|]. split; [done|].
  intros name Hne. unfold db_add_activity.
  destruct (str_truthy (strip (or_empty name))) eqn:Ht; [done|].
  by apply str_truthy_false in Ht.
Qed.

Example clear_all_then_add :
  db_add_activity (Some (py "Walk")) (db_clear_all store_optional)
  = (Ok (true, py ""), Db [Activity 3 (py "Walk") 0 127 1] [] 3).
Proof. vm_compute. reflexivity. Qed.

Lemma update_fits_vals (aid : Z) (mandatory days_mask : option Z) :
  update_fits aid mandatory days_mask
  <-> forallb fits_int64
        (option_list mandatory ++ option_list days_mask ++ [aid]) = true.
Proof.
  unfold update_fits. destruct mandatory as [m|], days_mask as [k|]; simpl;
    rewrite ?andb_true_iff; split; intros H; decompose [and] H; clear H;
    repeat split; auto; intros; by simplify_eq.
Qed.

(** X27.  [db_update_activity] with neither field does nothing, whatever
    the id.  Otherwise, a value or an id beyond the signed 64-bit range
    raises [OverflowError] and changes nothing.  Within the range: with
    an id that no activity has it succeeds and changes nothing,
    whatever the values; a mandatory value other than 0 and 1 for a
    stored activity raises [IntegrityError] and changes nothing; and an
    update of the mask alone sets the mask of that activity and leaves
    every id, every mandatory flag and the completions as they were. *)
Theorem update_activity_edges (aid : Z) (mandatory days_mask : option Z)
    (s : db) :
  db_update_activity aid None None s = (Ok (), s)
  /\ (is_Some mandatory \/ is_Some days_mask ->
      ~ update_fits aid mandatory days_mask ->
      db_update_activity aid mandatory days_mask s = (Raise OverflowError, s))
  /\ (update_fits aid mandatory days_mask ->
      (forall a, a ∈ activities s -> a_id a <> aid) ->
      db_update_activity aid mandatory days_mask s = (Ok (), s))
  /\ (forall m, update_fits aid (Some m) days_mask ->
        check_in_0_1 m = false -> activity_exists aid s = true ->
        db_update_activity aid (Some m) days_mask s
        = (Raise IntegrityError, s))
  /\ (forall k, update_fits aid None (Some k) ->
        exists s',
          db_update_activity aid None (Some k) s = (Ok (), s')
          /\ completions s' = completions s
          /\ a_mandatory <$> activities s' = a_mandatory <$> activities s
          /\ a_id <$> activities s' = a_id <$> activities s
          /\ forall a', a' ∈ activities s' -> a_id a' = aid ->
                        a_days_mask a' = k).
Proof.
  split; [done|]. split; [|split; [|split]].
  - intros Hsome Hfit.
    assert (forallb fits_int64
              (option_list mandatory ++ option_list days_mask ++ [aid])
            = false) as Hvals.
    { apply not_true_is_false. by rewrite <- update_fits_vals. }
    unfold db_update_activity.
    destruct mandatory, days_mask; try (by rewrite Hvals).
    destruct Hsome as [[? ?]|[? ?]]; done.
  - intros Hfit Hid. apply update_fits_vals in Hfit. unfold db_update_activity.
    rewrite (activity_exists_false _ _ Hid).
    assert (forall m k : option Z,
      (fun a => if a_id a =? aid
                then Activity (a_id a) (a_name a) (default (a_mandatory a) m)
                       (default (a_days_mask a) k) (a_sort_order a)
                else a) <$> activities s = activities s) as Hsame.
    { intros m k. rewrite <- (list_fmap_id (activities s)) at 2.
      apply list_fmap_ext. intros i a Ha.
      assert (a ∈ activities s) as Hin by (by eapply list_elem_of_lookup_2).
      specialize (Hid a Hin). by destruct (Z.eqb_spec (a_id a) aid). }
    destruct mandatory, days_mask; try done; rewrite Hfit; cbn [negb andb];
      rewrite Hsame; by rewrite db_eta.
  - intros m Hfit Hm Hex. apply update_fits_vals in Hfit.
    unfold db_update_activity.
    destruct days_mask; rewrite Hfit; simpl; by rewrite Hex, Hm.
  - intros k Hfit. apply update_fits_vals in Hfit.
    unfold db_update_activity. rewrite Hfit. simpl. rewrite andb_false_r.
    eexists. split; [reflexivity|]. simpl. split; [done|].
    split; [|split].
    + rewrite <- list_fmap_compose. apply list_fmap_ext. intros i a _.
      simpl. by destruct (_ =? _).
    + rewrite <- list_fmap_compose. apply list_fmap_ext. intros i a _.
      simpl. by destruct (_ =? _).
    + intros a' Ha' Hid. apply list_elem_of_fmap in Ha' as (a & -> & Ha).
      destruct (Z.eqb_spec (a_id a) aid) as [|Hne]; [done|]. by destruct Hne.
Qed.

(** A mask of 2^63 is refused before the statement runs, and a flag of 2
    by the CHECK; neither changes the store. *)
Example update_activity_refused :
  db_update_activity 2 None (Some (2 ^ 63)) store_optional
  = (Raise OverflowError, store_optional)
  /\ db_update_activity 2 (Some 2) (Some 21) store_optional
     = (Raise IntegrityError, store_optional)
  /\ db_update_activity 7 (Some 2) (Some 21) store_optional
     = (Ok (), store_optional).
Proof. repeat split; vm_compute; reflexivity. Qed.
